(** * extra200tomqtt: battery bus poller, derating policy and fleet view

    A shallow embedding of [extra200tomqtt.py]: the serial session
    ([serial_write], [serial_read]), the per-unit decoder and policy engine
    ([parse_battery_data]), the fleet aggregator ([create_consolidated_view])
    and one polling cycle of [main].

    Conventions.
    - Python [float] values are idealised as rationals ([Q]); [round(x, n)]
      is round-half-to-even on the rational value.  Python [int] is [Z].
    - Text is [string] over 8-bit characters, which is what
      [decode('latin-1')] yields.  The conversions [float(s)], [int(s)] and
      [int(s, 16)] are taken through the interface [PyConv]; every theorem
      holds for any implementation of it.
    - A dict whose keys are fixed (the 13 alarms) is a total function on an
      enumeration; a dict that grows ([Voltages], [Balances]) is an
      association list in insertion order, keyed by the number [n] of the
      key ["Cell<n>"].
    - Module-level variables that the functions read or update are passed
      explicitly ([globals], [process_state]). *)

From Stdlib Require Import ZArith QArith Qround Qabs Qminmax.
From Stdlib Require Import Bool List String Ascii Lia Lqa DecimalString.
Import ListNotations.

Local Open Scope Z_scope.

(** ** Python numeric primitives *)

Definition Qltb (x y : Q) : bool := negb (Qle_bool y x).
Definition Qgtb (x y : Q) : bool := Qltb y x.

(** [round(x)]: nearest integer, ties to even. *)
Definition round_half_even (q : Q) : Z :=
  let f := Qfloor q in
  match Qcompare (q - inject_Z f) (1 # 2) with
  | Lt => f
  | Gt => f + 1
  | Eq => if Z.even f then f else f + 1
  end.

(** [round(x, nd)]. *)
Definition py_round (nd : nat) (q : Q) : Q :=
  let scale := inject_Z (10 ^ Z.of_nat nd) in
  Qred (inject_Z (round_half_even (q * scale)) / scale).

(** [int(x)] on a float: truncation towards zero. *)
Definition py_trunc (q : Q) : Z := Z.quot (Qnum q) (Z.pos (Qden q)).

(** [min(a, b)] and [max(a, b)] return the first argument on ties;
    [Qmin], [Z.min] and [Z.max] do the same. *)
Definition py_min : Q -> Q -> Q := Qmin.

(** [sum(l)] and [statistics.mean(l)] on a non-empty list. *)
Definition Qsum (l : list Q) : Q := fold_left Qplus l 0%Q.
Definition Qmean (l : list Q) : Q := (Qsum l / inject_Z (Z.of_nat (List.length l)))%Q.

(** [min(l)] on a list of numbers, with a default for the empty list
    (the callers test for emptiness first). *)
Definition Qmin_list (l : list Q) : Q :=
  match l with
  | [] => 0%Q
  | x :: t => fold_left (fun m y => if Qltb y m then y else m) t x
  end.

(** ** Python text primitives *)

Definition code (a : ascii) : nat := nat_of_ascii a.

(** [str.isspace] on the 256 characters of latin-1. *)
Definition is_space (a : ascii) : bool :=
  let n := code a in
  ((9 <=? n) && (n <=? 13) || (28 <=? n) && (n <=? 32)
   || (n =? 133) || (n =? 160))%nat.

(** [str.isdigit] on latin-1: the ASCII digits and the superscripts
    1, 2, 3. *)
Definition is_digit (a : ascii) : bool :=
  let n := code a in
  ((48 <=? n) && (n <=? 57) || (n =? 178) || (n =? 179) || (n =? 185))%nat.

Fixpoint lstrip (s : string) : string :=
  match s with
  | String a t => if is_space a then lstrip t else s
  | EmptyString => EmptyString
  end.

Fixpoint rstrip_if (p : ascii -> bool) (s : string) : string :=
  match s with
  | EmptyString => EmptyString
  | String a t =>
      match rstrip_if p t with
      | EmptyString => if p a then EmptyString else String a EmptyString
      | t' => String a t'
      end
  end.

(** [s.strip()] *)
Definition strip (s : string) : string := rstrip_if is_space (lstrip s).

(** [s.rstrip('%')] *)
Definition rstrip_percent (s : string) : string :=
  rstrip_if (Ascii.eqb "%"%char) s.

(** [s.split(sep)] for a one-character separator: always at least one
    part. *)
Fixpoint split_on (sep : ascii) (s : string) : list string :=
  match s with
  | EmptyString => [EmptyString]
  | String a t =>
      if Ascii.eqb a sep then EmptyString :: split_on sep t
      else match split_on sep t with
           | p :: ps => String a p :: ps
           | [] => [String a EmptyString]
           end
  end.

(** [s.split()]: the maximal runs of non-space characters. *)
Fixpoint split_ws_aux (cur : string) (s : string) : list string :=
  match s with
  | EmptyString => match cur with EmptyString => [] | _ => [cur] end
  | String a t =>
      if is_space a
      then match cur with
           | EmptyString => split_ws_aux EmptyString t
           | _ => cur :: split_ws_aux EmptyString t
           end
      else split_ws_aux (cur ++ String a EmptyString) t
  end.

Definition split_ws (s : string) : list string := split_ws_aux EmptyString s.

(** [sub in s] *)
Fixpoint contains (sub s : string) : bool :=
  if prefix sub s then true
  else match s with
       | EmptyString => false
       | String _ t => contains sub t
       end.

(** [s.lower()] on the ASCII letters, enough to decide [s.lower() == "on"]. *)
Definition lower_char (a : ascii) : ascii :=
  let n := code a in
  if ((65 <=? n) && (n <=? 90))%nat then ascii_of_nat (n + 32) else a.

Fixpoint lower (s : string) : string :=
  match s with
  | EmptyString => EmptyString
  | String a t => String (lower_char a) (lower t)
  end.

(** [f"{n}"] for an integer. *)
Definition str_of_Z (n : Z) : string := NilZero.string_of_int (Z.to_int n).

(** The conversions [float(s)], [int(s)] and [int(s, 16)]; [None] stands
    for [ValueError]. *)
Class PyConv := {
  py_float : string -> option Q;
  py_int : string -> option Z;
  py_int16 : string -> option Z
}.

(** ** Data model *)

(** The 13 keys of the ["Alarms"] dict. *)
Inductive alarm_name :=
| LowVoltage | HighVoltage | LowSoc | HighChargeCurrent
| HighDischargeCurrent | HighCurrent | CellImbalance
| HighChargeTemperature | LowChargeTemperature | LowCellVoltage
| LowTemperature | HighTemperature | FuseBlown.

Definition alarm_name_eq_dec (a b : alarm_name) : {a = b} + {a <> b}.
Proof. decide equality. Defined.

Arguments alarm_name_eq_dec : simpl never.

Definition all_alarms : list alarm_name :=
  [LowVoltage; HighVoltage; LowSoc; HighChargeCurrent;
   HighDischargeCurrent; HighCurrent; CellImbalance;
   HighChargeTemperature; LowChargeTemperature; LowCellVoltage;
   LowTemperature; HighTemperature; FuseBlown].

Definition alarms := alarm_name -> Z.

Definition set_alarm (a : alarm_name) (v : Z) (al : alarms) : alarms :=
  fun b => if alarm_name_eq_dec a b then v else al b.

(** A cell is named ["C<n>"] in the per-unit extremes and ["Cell<n>"] as a
    key of [Voltages] and [Balances]. *)
Inductive cell_label :=
| C (n : Z)
| Cell (n : Z).

Record dc := mk_dc {
  Voltage : option Q;
  Current : option Q;
  Temperature : option Q;
  Power : option Q
}.

Record info := mk_info {
  MaxChargeVoltage : Q;
  MaxChargeCurrent : Q;
  MaxDischargeCurrent : Q
}.

Record io := mk_io {
  AllowToCharge : Z;
  AllowToDischarge : Z
}.

Record system := mk_system {
  NrOfModulesOnline : Z;
  NrOfModulesOffline : Z;
  NrOfCellsPerBattery : Z;
  NrOfModulesBlockingCharge : Z;
  NrOfModulesBlockingDischarge : Z;
  MOSTemperature : option Q;
  MinVoltageCellId : option cell_label;
  MinCellVoltage : option Q;
  MaxVoltageCellId : option cell_label;
  MaxCellVoltage : option Q;
  MinTemperatureCellId : option cell_label;
  MinCellTemperature : option Q;
  MaxTemperatureCellId : option cell_label;
  MaxCellTemperature : option Q
}.

(** One telemetry document (per unit or consolidated).  An optional key is
    an [option]. *)
Record telemetry := mk_telemetry {
  Dc : dc;
  Alarms : alarms;
  Info : info;
  ChargeCycles : option Z;            (* History.ChargeCycles *)
  System : system;
  Voltages : list (Z * Q);
  Balances : list (Z * Z);
  Io : io;
  Soc : option Z;
  InstalledCapacity : option Q;
  Capacity : option Q;
  ConsumedAmphours : option Q;
  TimeToGo : option Z;
  Balancing : option Z
}.

(** Field updates, [d[k] = v]. *)
Definition upd_Dc (f : dc -> dc) (d : telemetry) : telemetry :=
  mk_telemetry (f (Dc d)) (Alarms d) (Info d) (ChargeCycles d) (System d)
    (Voltages d) (Balances d) (Io d) (Soc d) (InstalledCapacity d)
    (Capacity d) (ConsumedAmphours d) (TimeToGo d) (Balancing d).
Definition upd_Alarms (f : alarms -> alarms) (d : telemetry) : telemetry :=
  mk_telemetry (Dc d) (f (Alarms d)) (Info d) (ChargeCycles d) (System d)
    (Voltages d) (Balances d) (Io d) (Soc d) (InstalledCapacity d)
    (Capacity d) (ConsumedAmphours d) (TimeToGo d) (Balancing d).
Definition upd_Info (f : info -> info) (d : telemetry) : telemetry :=
  mk_telemetry (Dc d) (Alarms d) (f (Info d)) (ChargeCycles d) (System d)
    (Voltages d) (Balances d) (Io d) (Soc d) (InstalledCapacity d)
    (Capacity d) (ConsumedAmphours d) (TimeToGo d) (Balancing d).
Definition set_ChargeCycles (v : option Z) (d : telemetry) : telemetry :=
  mk_telemetry (Dc d) (Alarms d) (Info d) v (System d)
    (Voltages d) (Balances d) (Io d) (Soc d) (InstalledCapacity d)
    (Capacity d) (ConsumedAmphours d) (TimeToGo d) (Balancing d).
Definition upd_System (f : system -> system) (d : telemetry) : telemetry :=
  mk_telemetry (Dc d) (Alarms d) (Info d) (ChargeCycles d) (f (System d))
    (Voltages d) (Balances d) (Io d) (Soc d) (InstalledCapacity d)
    (Capacity d) (ConsumedAmphours d) (TimeToGo d) (Balancing d).
Definition set_Voltages (v : list (Z * Q)) (d : telemetry) : telemetry :=
  mk_telemetry (Dc d) (Alarms d) (Info d) (ChargeCycles d) (System d)
    v (Balances d) (Io d) (Soc d) (InstalledCapacity d)
    (Capacity d) (ConsumedAmphours d) (TimeToGo d) (Balancing d).
Definition set_Balances (v : list (Z * Z)) (d : telemetry) : telemetry :=
  mk_telemetry (Dc d) (Alarms d) (Info d) (ChargeCycles d) (System d)
    (Voltages d) v (Io d) (Soc d) (InstalledCapacity d)
    (Capacity d) (ConsumedAmphours d) (TimeToGo d) (Balancing d).
Definition upd_Io (f : io -> io) (d : telemetry) : telemetry :=
  mk_telemetry (Dc d) (Alarms d) (Info d) (ChargeCycles d) (System d)
    (Voltages d) (Balances d) (f (Io d)) (Soc d) (InstalledCapacity d)
    (Capacity d) (ConsumedAmphours d) (TimeToGo d) (Balancing d).
Definition set_Soc (v : option Z) (d : telemetry) : telemetry :=
  mk_telemetry (Dc d) (Alarms d) (Info d) (ChargeCycles d) (System d)
    (Voltages d) (Balances d) (Io d) v (InstalledCapacity d)
    (Capacity d) (ConsumedAmphours d) (TimeToGo d) (Balancing d).
Definition set_InstalledCapacity (v : option Q) (d : telemetry) : telemetry :=
  mk_telemetry (Dc d) (Alarms d) (Info d) (ChargeCycles d) (System d)
    (Voltages d) (Balances d) (Io d) (Soc d) v
    (Capacity d) (ConsumedAmphours d) (TimeToGo d) (Balancing d).
Definition set_Capacity (v : option Q) (d : telemetry) : telemetry :=
  mk_telemetry (Dc d) (Alarms d) (Info d) (ChargeCycles d) (System d)
    (Voltages d) (Balances d) (Io d) (Soc d) (InstalledCapacity d)
    v (ConsumedAmphours d) (TimeToGo d) (Balancing d).
Definition set_ConsumedAmphours (v : option Q) (d : telemetry) : telemetry :=
  mk_telemetry (Dc d) (Alarms d) (Info d) (ChargeCycles d) (System d)
    (Voltages d) (Balances d) (Io d) (Soc d) (InstalledCapacity d)
    (Capacity d) v (TimeToGo d) (Balancing d).
Definition set_TimeToGo (v : option Z) (d : telemetry) : telemetry :=
  mk_telemetry (Dc d) (Alarms d) (Info d) (ChargeCycles d) (System d)
    (Voltages d) (Balances d) (Io d) (Soc d) (InstalledCapacity d)
    (Capacity d) (ConsumedAmphours d) v (Balancing d).
Definition set_Balancing (v : option Z) (d : telemetry) : telemetry :=
  mk_telemetry (Dc d) (Alarms d) (Info d) (ChargeCycles d) (System d)
    (Voltages d) (Balances d) (Io d) (Soc d) (InstalledCapacity d)
    (Capacity d) (ConsumedAmphours d) (TimeToGo d) v.

Definition raise_alarm (a : alarm_name) (v : Z) : telemetry -> telemetry :=
  upd_Alarms (set_alarm a v).

Definition set_Voltage (v : Q) (x : dc) : dc :=
  mk_dc (Some v) (Current x) (Temperature x) (Power x).
Definition set_Current (v : Q) (x : dc) : dc :=
  mk_dc (Voltage x) (Some v) (Temperature x) (Power x).
Definition set_Temperature (v : Q) (x : dc) : dc :=
  mk_dc (Voltage x) (Current x) (Some v) (Power x).
Definition set_Power (v : Q) (x : dc) : dc :=
  mk_dc (Voltage x) (Current x) (Temperature x) (Some v).

Definition set_MaxChargeVoltage (v : Q) (x : info) : info :=
  mk_info v (MaxChargeCurrent x) (MaxDischargeCurrent x).
Definition set_MaxChargeCurrent (v : Q) (x : info) : info :=
  mk_info (MaxChargeVoltage x) v (MaxDischargeCurrent x).
Definition set_MaxDischargeCurrent (v : Q) (x : info) : info :=
  mk_info (MaxChargeVoltage x) (MaxChargeCurrent x) v.

Definition set_AllowToCharge (v : Z) (x : io) : io :=
  mk_io v (AllowToDischarge x).
Definition set_AllowToDischarge (v : Z) (x : io) : io :=
  mk_io (AllowToCharge x) v.

Definition set_MOSTemperature (v : Q) (x : system) : system :=
  mk_system (NrOfModulesOnline x) (NrOfModulesOffline x)
    (NrOfCellsPerBattery x) (NrOfModulesBlockingCharge x)
    (NrOfModulesBlockingDischarge x) (Some v)
    (MinVoltageCellId x) (MinCellVoltage x) (MaxVoltageCellId x)
    (MaxCellVoltage x) (MinTemperatureCellId x) (MinCellTemperature x)
    (MaxTemperatureCellId x) (MaxCellTemperature x).
Definition set_NrOfCellsPerBattery (v : Z) (x : system) : system :=
  mk_system (NrOfModulesOnline x) (NrOfModulesOffline x)
    v (NrOfModulesBlockingCharge x)
    (NrOfModulesBlockingDischarge x) (MOSTemperature x)
    (MinVoltageCellId x) (MinCellVoltage x) (MaxVoltageCellId x)
    (MaxCellVoltage x) (MinTemperatureCellId x) (MinCellTemperature x)
    (MaxTemperatureCellId x) (MaxCellTemperature x).
Definition set_blocking (c dch : Z) (x : system) : system :=
  mk_system (NrOfModulesOnline x) (NrOfModulesOffline x)
    (NrOfCellsPerBattery x) c dch (MOSTemperature x)
    (MinVoltageCellId x) (MinCellVoltage x) (MaxVoltageCellId x)
    (MaxCellVoltage x) (MinTemperatureCellId x) (MinCellTemperature x)
    (MaxTemperatureCellId x) (MaxCellTemperature x).
(** The four voltage-extreme keys are always written together, and so are
    the four temperature-extreme keys. *)
Definition set_voltage_extremes (lo : cell_label * Q) (hi : cell_label * Q)
    (x : system) : system :=
  mk_system (NrOfModulesOnline x) (NrOfModulesOffline x)
    (NrOfCellsPerBattery x) (NrOfModulesBlockingCharge x)
    (NrOfModulesBlockingDischarge x) (MOSTemperature x)
    (Some (fst lo)) (Some (snd lo)) (Some (fst hi)) (Some (snd hi))
    (MinTemperatureCellId x) (MinCellTemperature x)
    (MaxTemperatureCellId x) (MaxCellTemperature x).
Definition set_temperature_extremes (lo : cell_label * Q)
    (hi : cell_label * Q) (x : system) : system :=
  mk_system (NrOfModulesOnline x) (NrOfModulesOffline x)
    (NrOfCellsPerBattery x) (NrOfModulesBlockingCharge x)
    (NrOfModulesBlockingDischarge x) (MOSTemperature x)
    (MinVoltageCellId x) (MinCellVoltage x) (MaxVoltageCellId x)
    (MaxCellVoltage x)
    (Some (fst lo)) (Some (snd lo)) (Some (fst hi)) (Some (snd hi)).

(** A growing dict: [d[k] = v] overwrites in place or appends. *)
Fixpoint dict_set {V : Type} (k : Z) (v : V) (d : list (Z * V))
  : list (Z * V) :=
  match d with
  | [] => [(k, v)]
  | (k', v') :: t => if k =? k' then (k, v) :: t else (k', v') :: dict_set k v t
  end.

Fixpoint dict_get {V : Type} (k : Z) (d : list (Z * V)) : option V :=
  match d with
  | [] => None
  | (k', v') :: t => if k =? k' then Some v' else dict_get k t
  end.

(** Module-level configuration and the limits learned from [info] at
    start-up ([global_info]); read-only once the main loop runs. *)
Record globals := mk_globals {
  MAX_CHARGE_VOLTAGE : Q;
  MAX_CHARGE_CURRENT : Q;
  MAX_DISCHARGE_CURRENT : Q;
  NUM_CELLS : Z;
  BATTERY_ADDRESSES : list Z;
  MQTT_ACTIVE : bool;
  info_MaxChargeCurrent : option Q;     (* global_info["MaxChargeCurrent"] *)
  info_MaxDischargeCurrent : option Q;  (* global_info["MaxDischargeCurrent"] *)
  info_CellCount : option Z             (* global_info["CellCount"] *)
}.

Definition get_or {A : Type} (o : option A) (default : A) : A :=
  match o with Some v => v | None => default end.

Definition learned_MaxChargeCurrent (g : globals) : Q :=
  get_or (info_MaxChargeCurrent g) (MAX_CHARGE_CURRENT g).
Definition learned_MaxDischargeCurrent (g : globals) : Q :=
  get_or (info_MaxDischargeCurrent g) (MAX_DISCHARGE_CURRENT g).
Definition learned_CellCount (g : globals) : Z :=
  get_or (info_CellCount g) (NUM_CELLS g).

(** The counters the process keeps across calls. *)
Record process_state := mk_state {
  consecutive_serial_failures : nat;
  errors_no : nat;
  loops_no : nat
}.

Definition MAX_CONSECUTIVE_FAILURES : nat := 10.

Definition set_failures (n : nat) (st : process_state) : process_state :=
  mk_state n (errors_no st) (loops_no st).
Definition failure (st : process_state) : process_state :=
  set_failures (S (consecutive_serial_failures st)) st.
Definition success (st : process_state) : process_state :=
  set_failures 0 st.
Definition count_error (st : process_state) : process_state :=
  mk_state (consecutive_serial_failures st) (S (errors_no st)) (loops_no st).
Definition count_loop (st : process_state) : process_state :=
  mk_state (consecutive_serial_failures st) (errors_no st) (S (loops_no st)).

(** ** Event tables *)

Inductive event_class := info_class | warning_class.

Definition power_events_list : list (Z * event_class) :=
  [ (0, info_class); (1, warning_class); (2, warning_class);
    (4, info_class); (8, warning_class); (16, warning_class);
    (32, warning_class); (64, warning_class); (128, warning_class);
    (256, warning_class); (512, warning_class); (1024, info_class);
    (2048, warning_class); (4096, warning_class); (8192, warning_class);
    (16384, warning_class); (32768, warning_class); (65536, warning_class);
    (131072, warning_class); (262144, warning_class);
    (524288, warning_class); (1048576, warning_class);
    (2097152, info_class); (4194304, info_class); (8388608, info_class);
    (16777216, warning_class); (33554432, warning_class);
    (67108864, warning_class); (134217728, warning_class);
    (268435456, warning_class); (536870912, warning_class);
    (1073741824, warning_class); (2147483648, warning_class) ].

Definition sys_events_list : list (Z * event_class) :=
  [ (0, info_class); (1, warning_class); (2, warning_class);
    (4, warning_class); (8, warning_class); (16, warning_class);
    (32, warning_class); (64, warning_class); (128, warning_class);
    (256, warning_class); (512, warning_class); (1024, warning_class);
    (2048, warning_class) ].

(** [1 if event[0] == "warning" else 0] *)
Definition severity_of (c : event_class) : Z :=
  match c with warning_class => 1 | info_class => 0 end.

(** [x in [a, b, ...]] *)
Definition Zmem (x : Z) (l : list Z) : bool := existsb (Z.eqb x) l.

(** ** Link session: [serial_write] and [serial_read] *)

(** What the port does at one pass of the read loop: nothing is waiting,
    one byte is read, or [in_waiting] / [read] raises. *)
Inductive port_event :=
| Idle
| Byte (b : ascii)
| PortError.

(** One pass of the read loop: the port event, and the outcome of the test
    [time.time() - start_time > timeout] that ends the pass. *)
Record tick := mk_tick {
  port : port_event;
  deadline_passed : bool
}.

(** Which [return] ended a read. *)
Inductive read_end :=
| Completed   (* the stop line arrived *)
| TimedOut    (* the deadline passed *)
| Failed.     (* an exception was caught *)

Definition newline : ascii := ascii_of_nat 10.

(** The variables of the read loop. *)
Record read_state := mk_read {
  start : string;
  line_str : string;
  line_str_array : list string
}.

(** [if start == 'none' or start in line_str: start = 'true'] *)
Definition start_after (start line : string) : string :=
  if (String.eqb start "none" || contains start line)%bool
  then "true"%string else start.

(** One pass of the [while True] loop of [serial_read]: either the loop
    goes on with new variables, or the function returns. *)
Definition read_pass (stop : string) (s : read_state) (t : tick)
  : read_state + read_end * list string :=
  match port t with
  | PortError => inr (Failed, [])
  | Idle =>
      if deadline_passed t then inr (TimedOut, line_str_array s)
      else inl s
  | Byte b =>
      let line := (line_str s ++ String b EmptyString)%string in
      if Ascii.eqb b newline then
        let start' := start_after (start s) line in
        let collected :=
          if String.eqb start' "true"
          then line_str_array s ++ [line] else line_str_array s in
        if (String.eqb start' "true" && contains stop line)%bool
        then inr (Completed, collected)
        else if deadline_passed t then inr (TimedOut, collected)
        else inl (mk_read start' EmptyString collected)
      else if deadline_passed t then inr (TimedOut, line_str_array s)
      else inl (mk_read (start s) line (line_str_array s))
  end.

(** The loop.  The clock never stops, so a script that runs out is
    followed by the deadline. *)
Fixpoint read_loop (stop : string) (s : read_state) (script : list tick)
  : read_end * list string :=
  match script with
  | [] => (TimedOut, line_str_array s)
  | t :: rest =>
      match read_pass stop s t with
      | inl s' => read_loop stop s' rest
      | inr r => r
      end
  end.

Definition serial_read (script : list tick) (start stop : string)
    (st : process_state) : list string * process_state :=
  match read_loop stop (mk_read start EmptyString []) script with
  | (Completed, lines) => (lines, success st)
  | (TimedOut, lines) => (lines, failure st)
  | (Failed, _) => ([], failure st)
  end.

(** [serial_write]: [attempt_ok k] tells whether the body of the [try]
    runs through at attempt [k].  [for attempt in range(retries)], counted
    down in [remaining]. *)
Fixpoint write_loop (attempt_ok : nat -> bool) (attempt remaining : nat)
    (st : process_state) : bool * process_state :=
  match remaining with
  | O => (false, st)
  | S k =>
      if attempt_ok attempt then (true, success st)
      else write_loop attempt_ok (S attempt) k (failure st)
  end.

Definition serial_write (attempt_ok : nat -> bool) (retries : nat)
    (st : process_state) : bool * process_state :=
  write_loop attempt_ok 0 retries st.

(** The loop variables after a run of passes none of which returns. *)
Fixpoint passes (stop : string) (s : read_state) (script : list tick)
  : option read_state :=
  match script with
  | [] => Some s
  | t :: rest =>
      match read_pass stop s t with
      | inl s' => passes stop s' rest
      | inr _ => None
      end
  end.

(** How a read ends, and a run of reads one after the other. *)
Definition read_ending (script : list tick) (start stop : string)
  : read_end :=
  fst (read_loop stop (mk_read start EmptyString []) script).




(** What the bus does during one request: the write attempts and the
    script of the read that follows. *)
Record exchange := mk_exchange {
  write_attempts : nat -> bool;
  read_script : list tick
}.

(** ** Protocol decoder and per-unit policy: [parse_battery_data] *)

Section Unit.

Context {conv : PyConv}.

(** The record [parse_battery_data] starts from. *)
Definition initial_alarms : alarms := fun _ => 0.

Definition initial_data (g : globals) : telemetry :=
  mk_telemetry
    (mk_dc None None None None)
    initial_alarms
    (mk_info (MAX_CHARGE_VOLTAGE g) (learned_MaxChargeCurrent g)
       (learned_MaxDischargeCurrent g))
    None
    (mk_system 1 0 (learned_CellCount g) 0 0
       None None None None None None None None None)
    [] []
    (mk_io 1 1)
    None None None None None None.

(** [parts = line.split(":")], [key = parts[0].strip()],
    [value = parts[1].strip().split()[0]].  [None] when the line has fewer
    than two parts ([continue]) or no token after the colon
    ([IndexError], caught by the per-line handler). *)
Definition key_value (line : string) : option (string * string) :=
  match split_on ":"%char line with
  | p0 :: p1 :: _ =>
      match split_ws (strip p1) with
      | value :: _ => Some (strip p0, value)
      | [] => None
      end
  | _ => None
  end.

(** The variables of the [pwr] loop. *)
Record pwr_state := mk_pwr {
  data : telemetry;
  bat_events : Z;
  power_events : Z;
  sys_events : Z
}.

Definition on_data (f : telemetry -> telemetry) (s : pwr_state) : pwr_state :=
  mk_pwr (f (data s)) (bat_events s) (power_events s) (sys_events s).

(** [v] when the conversion succeeded; the state is left alone when it
    raised (the handler logs and the loop goes on). *)
Definition converted {A : Type} (o : option A) (s : pwr_state)
    (f : A -> pwr_state) : pwr_state :=
  match o with Some v => f v | None => s end.

Definition milli (x : Q) : Q := (x / 1000)%Q.

(** The body of [for line in lines] of the [pwr] response. *)
Definition decode_pwr_line (s : pwr_state) (line : string) : pwr_state :=
  match key_value line with
  | None => s
  | Some (key, value) =>
      if String.eqb key "Voltage" then
        converted (py_float value) s (fun x =>
          on_data (upd_Dc (set_Voltage (py_round 2 (milli x)))) s)
      else if String.eqb key "Current" then
        converted (py_float value) s (fun x =>
          on_data (upd_Dc (set_Current (py_round 2 (milli x)))) s)
      else if String.eqb key "Temperature" then
        converted (py_float value) s (fun x =>
          let t := py_round 1 (milli x) in
          on_data (fun d => upd_System (set_MOSTemperature t)
                              (upd_Dc (set_Temperature t) d)) s)
      else if String.eqb key "Coulomb" then
        converted (py_int value) s (fun n => on_data (set_Soc (Some n)) s)
      else if String.eqb key "Total Coulomb" then
        converted (py_float value) s (fun x =>
          on_data (set_InstalledCapacity (Some (py_round 1 (milli x)))) s)
      else if String.eqb key "Heater Status" then
        on_data (set_Balancing
                   (Some (if String.eqb (lower value) "on" then 1 else 0))) s
      else if String.eqb key "Charge Times" then
        converted (py_int value) s (fun n =>
          on_data (set_ChargeCycles (Some n)) s)
      else if String.eqb key "Bat Events" then
        converted (py_int16 value) s (fun n =>
          mk_pwr (data s) n (power_events s) (sys_events s))
      else if String.eqb key "Power Events" then
        converted (py_int16 value) s (fun n =>
          mk_pwr (data s) (bat_events s) n (sys_events s))
      else if String.eqb key "System Fault" then
        converted (py_int16 value) s (fun n =>
          mk_pwr (data s) (bat_events s) (power_events s) n)
      else s
  end.

Definition decode_pwr (g : globals) (lines : list string) : pwr_state :=
  fold_left decode_pwr_line lines (mk_pwr (initial_data g) 0 0 0).

(** "Adjust MaxChargeVoltage based on SOC". *)
Definition adjust_charge_voltage (d : telemetry) : telemetry :=
  match Soc d with
  | Some soc =>
      if soc <? 95 then upd_Info (set_MaxChargeVoltage 52.5) d
      else upd_Info (set_MaxChargeVoltage 51.0) d
  | None => d
  end.

(** "Adjust MaxChargeCurrent based on SOC and temperature", first half. *)
Definition base_charge_current (g : globals) (soc : Z) : Q :=
  if soc >? 90 then 7.0%Q
  else py_round 1 (learned_MaxChargeCurrent g * 0.8).

Definition adjust_charge_current (g : globals) (d : telemetry) : telemetry :=
  match Soc d with
  | Some soc => upd_Info (set_MaxChargeCurrent (base_charge_current g soc)) d
  | None => d
  end.

(** Second half: the temperature clamp. *)
Definition temperature_clamp (d : telemetry) : telemetry :=
  match Temperature (Dc d) with
  | Some temp =>
      if Qltb temp 0 then
        raise_alarm LowChargeTemperature 1
          (upd_Info (set_MaxChargeCurrent 0)
             (upd_Io (set_AllowToCharge 0) d))
      else if (Qle_bool 0 temp && Qltb temp 5)%bool then
        upd_Info (set_MaxChargeCurrent
                    (py_min (MaxChargeCurrent (Info d)) 10.0)) d
      else if Qgtb temp 45 then
        raise_alarm HighChargeTemperature 1
          (upd_Info (set_MaxChargeCurrent
                       (py_min (MaxChargeCurrent (Info d)) 10.0)) d)
      else d
  | None => d
  end.

(** "Limit discharge current and block discharge below 5% SOC". *)
Definition discharge_policy (d : telemetry) : telemetry :=
  match Soc d with
  | Some soc =>
      if soc <? 5 then
        raise_alarm LowSoc 1
          (upd_Info (set_MaxDischargeCurrent 0)
             (upd_Io (set_AllowToDischarge 0) d))
      else if soc <? 10 then
        raise_alarm LowSoc 1
          (upd_Info (set_MaxDischargeCurrent
                       (py_min (MaxDischargeCurrent (Info d)) 10.0)) d)
      else d
  | None => d
  end.

(** "Calculate derived fields". *)
Definition derive_power (d : telemetry) : telemetry :=
  match Current (Dc d), Voltage (Dc d) with
  | Some i, Some v => upd_Dc (set_Power (py_round 1 (v * i))) d
  | _, _ => d
  end.

Definition derive_capacity (d : telemetry) : telemetry :=
  match Soc d, InstalledCapacity d with
  | Some soc, Some installed =>
      let capacity := py_round 1 (inject_Z soc / 100 * installed) in
      set_ConsumedAmphours (Some (py_round 1 (installed - capacity)))
        (set_Capacity (Some capacity) d)
  | _, _ => d
  end.

Definition time_to_go (capacity current : Q) : Z :=
  py_trunc (capacity / Qabs current * 3600).

Definition derive_time_to_go (d : telemetry) : telemetry :=
  match Capacity d, Current (Dc d) with
  | Some capacity, Some i =>
      if Qltb i 0 then set_TimeToGo (Some (time_to_go capacity i)) d else d
  | _, _ => d
  end.

(** "Set Alarms": the three registers, in the order of the source. *)
Definition bat_events_alarm (bat : Z) (d : telemetry) : telemetry :=
  if negb (bat =? 0) then
    match dict_get bat power_events_list with
    | Some warning_class => raise_alarm CellImbalance 1 d
    | _ => d
    end
  else d.

Definition power_events_alarm (pw : Z) (d : telemetry) : telemetry :=
  if negb (pw =? 0) then
    match dict_get pw power_events_list with
    | Some event =>
        let severity := severity_of event in
        if Zmem pw [1; 2] then raise_alarm HighVoltage severity d
        else if pw =? 8 then raise_alarm LowVoltage severity d
        else if pw =? 16 then raise_alarm LowCellVoltage severity d
        else if Zmem pw [256; 512] then raise_alarm HighTemperature severity d
        else if Zmem pw [2048; 4096] then raise_alarm LowTemperature severity d
        else if pw =? 32768 then raise_alarm LowSoc severity d
        else if Zmem pw [131072; 524288]
             then raise_alarm HighDischargeCurrent severity d
        else if Zmem pw [262144; 1048576]
             then raise_alarm HighChargeCurrent severity d
        else if pw =? 65536 then raise_alarm FuseBlown severity d
        else d
    | None => d
    end
  else d.

Definition sys_events_alarm (sys : Z) (d : telemetry) : telemetry :=
  if negb (sys =? 0) then
    match dict_get sys sys_events_list with
    | Some event =>
        let severity := severity_of event in
        if Zmem sys [1; 2; 4; 8; 16; 32; 64; 128; 256; 512; 1024; 2048]
        then raise_alarm FuseBlown (Z.max (Alarms d FuseBlown) severity) d
        else d
    | None => d
    end
  else d.

Definition register_alarms (bat pw sys : Z) (d : telemetry) : telemetry :=
  sys_events_alarm sys (power_events_alarm pw (bat_events_alarm bat d)).

(** Everything between the [pwr] loop and the [bat] request. *)
Definition pwr_policy (g : globals) (s : pwr_state) : telemetry :=
  register_alarms (bat_events s) (power_events s) (sys_events s)
    (derive_time_to_go
       (derive_capacity
          (derive_power
             (discharge_policy
                (temperature_clamp
                   (adjust_charge_current g
                      (adjust_charge_voltage (data s)))))))).

(** *** The [bat] response *)

(** One parsed row: cell number, volts, degrees, SoC. *)
Record cell_row := mk_row {
  cell_num : Z;
  voltage : Q;
  temperature : Q;
  soc_pct : Z
}.

(** The [try] body up to the first store: [None] on [continue] and on
    any exception. *)
Definition decode_bat_line (line : string) : option cell_row :=
  match line with
  | EmptyString => None
  | String c0 _ =>
      if negb (is_digit c0) then None
      else
        let parts := split_ws line in
        if (List.length parts <? 10)%nat then None
        else
          match py_int (nth 0 parts EmptyString),
                py_float (nth 1 parts EmptyString),
                py_float (nth 3 parts EmptyString),
                py_int (rstrip_percent (nth 8 parts EmptyString)) with
          | Some i, Some mv, Some mc, Some soc =>
              Some (mk_row (i + 1) (milli mv) (milli mc) soc)
          | _, _, _, _ => None
          end
  end.

(** The variables of the [bat] loop. *)
Record bat_state := mk_bat {
  bat_data : telemetry;
  cell_voltages : list (Z * Q);      (* ("C<n>", voltage) *)
  cell_temperatures : list (Z * Q);  (* ("C<n>", temperature) *)
  cell_socs : list Z
}.

Definition decode_bat_row (s : bat_state) (line : string) : bat_state :=
  match decode_bat_line line with
  | None => s
  | Some r =>
      mk_bat
        (set_Voltages
           (dict_set (cell_num r) (py_round 3 (voltage r))
              (Voltages (bat_data s))) (bat_data s))
        (cell_voltages s ++ [(cell_num r, voltage r)])
        (cell_temperatures s ++ [(cell_num r, temperature r)])
        (cell_socs s ++ [soc_pct r])
  end.

(** [min(l, key=lambda x: x[1])] and [max(...)]: the first extreme
    element, scanning from [x]. *)
Fixpoint min_by_snd (x : Z * Q) (l : list (Z * Q)) : Z * Q :=
  match l with
  | [] => x
  | y :: t => min_by_snd (if Qltb (snd y) (snd x) then y else x) t
  end.

Fixpoint max_by_snd (x : Z * Q) (l : list (Z * Q)) : Z * Q :=
  match l with
  | [] => x
  | y :: t => max_by_snd (if Qltb (snd x) (snd y) then y else x) t
  end.

Definition labelled (p : Z * Q) (nd : nat) : cell_label * Q :=
  (C (fst p), py_round nd (snd p)).

(** "Cell voltage protection". *)
Definition cell_voltage_protection (min_cell max_cell : Z * Q)
    (d : telemetry) : telemetry :=
  let d :=
    if Qgtb (snd max_cell) 3.65
    then raise_alarm HighVoltage 1 (upd_Io (set_AllowToCharge 0) d)
    else d in
  if Qltb (snd min_cell) 2.5
  then raise_alarm LowCellVoltage 1 (upd_Io (set_AllowToDischarge 0) d)
  else d.

(** [for cell_num in range(1, num_cells + 1): Balances["Cell<n>"] = 0] *)
Definition clear_balances (num_cells : nat) (b : list (Z * Z))
  : list (Z * Z) :=
  fold_left (fun acc n => dict_set (Z.of_nat n) 0 acc) (seq 1 num_cells) b.

(** "Balancing logic". *)
Definition balancing_fires (min_cell max_cell : Z * Q) : bool :=
  (Qgtb (snd max_cell - snd min_cell) 0.05 && Qgtb (snd max_cell) 3.4)%bool.

Definition balancing_logic (num_cells : nat) (min_cell max_cell : Z * Q)
    (d : telemetry) : telemetry :=
  if balancing_fires min_cell max_cell
  then set_Balances (dict_set (fst max_cell) 1 (Balances d)) d
  else set_Balances (clear_balances num_cells (Balances d)) d.

Definition cell_imbalance_alarm (min_cell max_cell : Z * Q)
    (d : telemetry) : telemetry :=
  if Qgtb (snd max_cell - snd min_cell) 0.1
  then raise_alarm CellImbalance 1 d else d.

Definition cell_temperature_alarms (min_temp max_temp : Z * Q)
    (d : telemetry) : telemetry :=
  let d := if Qltb (snd min_temp) 0
           then raise_alarm LowTemperature 1 d else d in
  if Qgtb (snd max_temp) 45 then raise_alarm HighTemperature 1 d else d.

(** The block under [if cell_voltages:]. *)
Definition cell_policy (s : bat_state) : telemetry :=
  match cell_voltages s, cell_temperatures s with
  | v0 :: vs, t0 :: ts =>
      let num_cells := List.length (cell_voltages s) in
      let min_cell := min_by_snd v0 vs in
      let max_cell := max_by_snd v0 vs in
      let min_temp := min_by_snd t0 ts in
      let max_temp := max_by_snd t0 ts in
      let d := upd_System (set_NrOfCellsPerBattery (Z.of_nat num_cells))
                 (bat_data s) in
      let d := upd_System (set_voltage_extremes (labelled min_cell 3)
                             (labelled max_cell 3)) d in
      let d := cell_voltage_protection min_cell max_cell d in
      let d := balancing_logic num_cells min_cell max_cell d in
      let d := cell_imbalance_alarm min_cell max_cell d in
      let d := upd_System (set_temperature_extremes (labelled min_temp 1)
                             (labelled max_temp 1)) d in
      cell_temperature_alarms min_temp max_temp d
  | _, _ => bat_data s
  end.

Definition decode_bat (d : telemetry) (lines : list string) : bat_state :=
  fold_left decode_bat_row lines (mk_bat d [] [] []).

Definition bat_policy (d : telemetry) (lines : list string) : telemetry :=
  cell_policy (decode_bat d lines).

(** What the bus does while one unit is polled. *)
Record unit_io := mk_unit_io {
  pwr_io : exchange;
  bat_io : exchange
}.

Definition request (cmd : string) (address : Z) : string :=
  (cmd ++ " " ++ str_of_Z address)%string.

(** [parse_battery_data(ser, address)]: the record, or [None], and the
    updated counters.  On rationals no statement between the two loops
    can raise, so the outer handler has no path of its own. *)
Definition parse_battery_data (g : globals) (u : unit_io) (address : Z)
    (st : process_state) : option telemetry * process_state :=
  let (write_success, st) := serial_write (write_attempts (pwr_io u)) 2 st in
  if negb write_success then (None, count_error st)
  else
    let (lines, st) :=
      serial_read (read_script (pwr_io u)) (request "pwr" address)
        "Command completed" st in
    match lines with
    | [] => (None, count_error st)
    | _ =>
        let d := pwr_policy g (decode_pwr g lines) in
        let (write_success, st) :=
          serial_write (write_attempts (bat_io u)) 2 st in
        if write_success then
          let (lines, st) :=
            serial_read (read_script (bat_io u)) "Battery"
              "Command completed" st in
          (Some (bat_policy d lines), st)
        else (Some d, st)
    end.

(** The record as a function of the two line batches: what
    [parse_battery_data] returns when the [pwr] read gave [pwr_lines] and
    the [bat] exchange gave [bat_lines] ([None]: the [bat] write failed). *)
Definition unit_record (g : globals) (pwr_lines : list string)
    (bat_lines : option (list string)) : telemetry :=
  let d := pwr_policy g (decode_pwr g pwr_lines) in
  match bat_lines with
  | Some lines => bat_policy d lines
  | None => d
  end.

(** The rows of a [bat] response that parse. *)
Definition parsed_rows (lines : list string) : list cell_row :=
  flat_map (fun line => match decode_bat_line line with
                        | Some r => [r]
                        | None => []
                        end) lines.

Definition parsed_voltages (lines : list string) : list (Z * Q) :=
  map (fun r => (cell_num r, voltage r)) (parsed_rows lines).

End Unit.

(** What an exchange yields, whatever the counters are: whether the
    write succeeds within the two attempts of [serial_write], and the lines
    the read returns. *)
Definition written (e : exchange) : bool :=
  fst (serial_write (write_attempts e) 2 (mk_state 0 0 0)).

Definition received (e : exchange) (start : string) : list string :=
  fst (serial_read (read_script e) start "Command completed"
         (mk_state 0 0 0)).

(** ** Fleet aggregator: [create_consolidated_view] *)

(** The exception the aggregator can raise: a cell key that is not one
    of ["Cell1"] .. ["Cell<CellCount>"]. *)
Inductive exn :=
| KeyError (key : cell_label).

Inductive outcome (A : Type) :=
| Ok (a : A)
| Raise (e : exn).

Arguments Ok {A} a.
Arguments Raise {A} e.

(** [range(1, n + 1)] *)
Definition range1 (n : Z) : list Z := map Z.of_nat (seq 1 (Z.to_nat n)).

(** [{f"Cell{i}": [] for i in range(1, CellCount + 1)}] *)
Definition empty_buckets (V : Type) (g : globals) : list (Z * list V) :=
  map (fun i => (i, [])) (range1 (learned_CellCount g)).

(** [buckets[cell].append(v)]; [None] is the [KeyError]. *)
Fixpoint bucket_append {V : Type} (k : Z) (v : V) (b : list (Z * list V))
  : option (list (Z * list V)) :=
  match b with
  | [] => None
  | (k', vs) :: t =>
      if k =? k' then Some ((k', vs ++ [v]) :: t)
      else match bucket_append k v t with
           | Some t' => Some ((k', vs) :: t')
           | None => None
           end
  end.

(** [for cell, v in items: buckets[cell].append(v)] *)
Fixpoint fill_buckets {V : Type} (items : list (Z * V))
    (b : list (Z * list V)) : outcome (list (Z * list V)) :=
  match items with
  | [] => Ok b
  | (k, v) :: t =>
      match bucket_append k v b with
      | Some b' => fill_buckets t b'
      | None => Raise (KeyError (Cell k))
      end
  end.

(** The loop that fills [cell_voltages] and [cell_balances]. *)
Fixpoint collect_cells (l : list telemetry)
    (cv : list (Z * list Q)) (cb : list (Z * list Z))
  : outcome (list (Z * list Q) * list (Z * list Z)) :=
  match l with
  | [] => Ok (cv, cb)
  | d :: t =>
      match fill_buckets (Voltages d) cv with
      | Raise e => Raise e
      | Ok cv' =>
          match fill_buckets (Balances d) cb with
          | Raise e => Raise e
          | Ok cb' => collect_cells t cv' cb'
          end
      end
  end.

(** "Aggregate alarms and Io states": the body of the first loop. *)
Definition aggregate_unit (c d : telemetry) : telemetry :=
  let c := upd_Alarms (fun al a => Z.max (al a) (Alarms d a)) c in
  let c := upd_Io (fun x =>
             set_AllowToCharge
               (Z.min (AllowToCharge x) (AllowToCharge (Io d))) x) c in
  let c := upd_Io (fun x =>
             set_AllowToDischarge
               (Z.min (AllowToDischarge x) (AllowToDischarge (Io d))) x) c in
  let c := if AllowToCharge (Io d) =? 0
           then upd_System (fun x =>
                  set_blocking (NrOfModulesBlockingCharge x + 1)
                    (NrOfModulesBlockingDischarge x) x) c
           else c in
  if AllowToDischarge (Io d) =? 0
  then upd_System (fun x =>
         set_blocking (NrOfModulesBlockingCharge x)
           (NrOfModulesBlockingDischarge x + 1) x) c
  else c.

(** [any(l)] on a list of integers. *)
Definition any_nonzero (l : list Z) : bool :=
  existsb (fun b => negb (b =? 0)) l.

(** [for cell in cell_voltages: if cell_voltages[cell]: ...] *)
Definition average_cell (cb : list (Z * list Z)) (c : telemetry)
    (bucket : Z * list Q) : telemetry :=
  match snd bucket with
  | [] => c
  | vs =>
      let cell := fst bucket in
      let c := set_Voltages
                 (dict_set cell (py_round 3 (Qmean vs)) (Voltages c)) c in
      set_Balances
        (dict_set cell
           (if any_nonzero (get_or (dict_get cell cb) []) then 1 else 0)
           (Balances c)) c
  end.

Definition labelled_cell (p : Z * Q) : cell_label * Q :=
  (Cell (fst p), py_round 3 (snd p)).

(** "Calculate system-level min/max voltages". *)
Definition fleet_extremes (l : list telemetry) (c : telemetry) : telemetry :=
  match flat_map Voltages l with
  | [] => c
  | v0 :: vs =>
      let min_cell := min_by_snd v0 vs in
      let max_cell := max_by_snd v0 vs in
      let c := upd_System (set_voltage_extremes (labelled_cell min_cell)
                             (labelled_cell max_cell)) c in
      if Qgtb (snd max_cell - snd min_cell) 0.1
      then raise_alarm CellImbalance 1 c else c
  end.

(** [[d[k] for d in l if k in d]] *)
Definition present {A : Type} (f : telemetry -> option A)
    (l : list telemetry) : list A :=
  flat_map (fun d => match f d with Some x => [x] | None => [] end) l.

Definition when_present {A : Type} (xs : list A)
    (f : telemetry -> telemetry) (c : telemetry) : telemetry :=
  match xs with [] => c | _ => f c end.

(** "Aggregate other system metrics". *)
Definition fleet_metrics (l : list telemetry) (c : telemetry) : telemetry :=
  let voltages := present (fun d => Voltage (Dc d)) l in
  let currents := present (fun d => Current (Dc d)) l in
  let powers := present (fun d => Power (Dc d)) l in
  let temperatures := present (fun d => Temperature (Dc d)) l in
  let socs := present Soc l in
  let installed_capacities := present InstalledCapacity l in
  let capacities := present Capacity l in
  let consumed_amphours := present ConsumedAmphours l in
  let charge_cycles := present ChargeCycles l in
  let max_charge_voltages := map (fun d => MaxChargeVoltage (Info d)) l in
  let max_charge_currents := map (fun d => MaxChargeCurrent (Info d)) l in
  let max_discharge_currents :=
    map (fun d => MaxDischargeCurrent (Info d)) l in
  let n := inject_Z (Z.of_nat (List.length l)) in
  let c := when_present voltages
             (upd_Dc (set_Voltage (py_round 2 (Qmean voltages)))) c in
  let c := when_present currents
             (upd_Dc (set_Current (py_round 2 (Qsum currents)))) c in
  let c := when_present powers
             (upd_Dc (set_Power (py_round 1 (Qsum powers)))) c in
  let c := when_present temperatures
             (fun c =>
                let t := py_round 1 (Qmean temperatures) in
                upd_System (set_MOSTemperature t)
                  (upd_Dc (set_Temperature t) c)) c in
  let c := when_present socs
             (set_Soc (Some (round_half_even
                               (Qmean (map inject_Z socs))))) c in
  let c := when_present installed_capacities
             (set_InstalledCapacity
                (Some (py_round 1 (Qsum installed_capacities)))) c in
  let c := when_present capacities
             (set_Capacity (Some (py_round 1 (Qsum capacities)))) c in
  let c := when_present consumed_amphours
             (set_ConsumedAmphours
                (Some (py_round 1 (Qsum consumed_amphours)))) c in
  let c := when_present charge_cycles
             (set_ChargeCycles
                (Some (round_half_even
                         (Qmean (map inject_Z charge_cycles))))) c in
  let c := when_present max_charge_voltages
             (upd_Info (set_MaxChargeVoltage
                          (Qmin_list max_charge_voltages))) c in
  let c := when_present max_charge_currents
             (upd_Info (set_MaxChargeCurrent
                          (py_round 1 (Qmin_list max_charge_currents * n))))
             c in
  when_present max_discharge_currents
    (upd_Info (set_MaxDischargeCurrent
                 (py_round 1 (Qmin_list max_discharge_currents * n)))) c.

Definition initial_consolidated (g : globals) (l : list telemetry)
  : telemetry :=
  mk_telemetry
    (mk_dc None None None None)
    (fun _ => 0)
    (mk_info (MAX_CHARGE_VOLTAGE g) 0 0)
    None
    (mk_system (Z.of_nat (List.length l))
       (Z.of_nat (List.length (BATTERY_ADDRESSES g))
        - Z.of_nat (List.length l))
       (learned_CellCount g) 0 0
       None None None None None None None None None)
    [] []
    (mk_io 1 1)
    None None None None None None.

(** [create_consolidated_view(battery_data_list)]: [None] for the empty
    list, otherwise the consolidated record or the exception raised on
    the way. *)
Definition create_consolidated_view (g : globals) (l : list telemetry)
  : option (outcome telemetry) :=
  match l with
  | [] => None
  | _ =>
      let c := fold_left aggregate_unit l (initial_consolidated g l) in
      match collect_cells l (empty_buckets Q g) (empty_buckets Z g) with
      | Raise e => Some (Raise e)
      | Ok (cv, cb) =>
          let c := fold_left (average_cell cb) cv c in
          let c := fleet_extremes l c in
          let c := fleet_metrics l c in
          Some (Ok (derive_time_to_go c))
      end
  end.

(** ** One polling cycle of [main] *)

(** "Fallback for offline batteries". *)
Definition offline_data (g : globals) : telemetry :=
  mk_telemetry
    (mk_dc None None None None)
    (set_alarm LowSoc 1 (fun _ => 0))
    (mk_info (MAX_CHARGE_VOLTAGE g) 0 0)
    None
    (mk_system 0 1 (learned_CellCount g) 1 1
       None None None None None None None None None)
    [] []
    (mk_io 0 0)
    None None None None None None.

(** Where a message goes: ["<base>/battery_<address>"] or
    ["<base>/pylon"]. *)
Inductive topic :=
| battery_topic (address : Z)
| pylon_topic.

(** What happens around the process during one cycle: the bus while the
    [k]-th configured address is polled, whether the [k]-th per-unit
    publish and the consolidated publish go through (a failed publish is
    caught and logged inside [mqtt_publish]), and, if the operator
    interrupts, the position of the address being polled at that time. *)
Record cycle_env := mk_env {
  bus : nat -> unit_io;
  unit_publish_ok : nat -> bool;
  consolidated_publish_ok : bool;
  interrupt_at : option nat
}.

(** How a cycle ends. *)
Inductive cycle_end :=
| CycleDone (st : process_state) (battery_data_list : list telemetry)
    (consolidated_data : option telemetry)
    (published : list (topic * telemetry))
| ExitFailures     (* link closed, [sys.exit(1)] *)
| ExitInterrupt    (* link closed, [sys.exit(0)] *)
| Escaped (e : exn).  (* an exception leaves [main] *)

Definition mqtt_publish (ok : bool) (t : topic) (d : telemetry)
    (log : list (topic * telemetry)) : list (topic * telemetry) :=
  if ok then log ++ [(t, d)] else log.

Section Cycle.

Context {conv : PyConv}.

Definition interrupted (env : cycle_env) (k : nat) : bool :=
  match interrupt_at env with
  | Some i => Nat.eqb i k
  | None => false
  end.

(** [for address in BATTERY_ADDRESSES], from position [k] on; [None] when
    the operator interrupts. *)
Fixpoint poll_units (g : globals) (env : cycle_env) (k : nat)
    (addresses : list Z) (st : process_state)
    (battery_data_list : list telemetry) (log : list (topic * telemetry))
  : option (process_state * list telemetry * list (topic * telemetry)) :=
  match addresses with
  | [] => Some (st, battery_data_list, log)
  | address :: rest =>
      if interrupted env k then None
      else
        let (r, st) := parse_battery_data g (bus env k) address st in
        let d := match r with Some d => d | None => offline_data g end in
        let log :=
          if MQTT_ACTIVE g
          then mqtt_publish (unit_publish_ok env k) (battery_topic address)
                 d log
          else log in
        poll_units g env (S k) rest st (battery_data_list ++ [d]) log
  end.

(** The body of [while True] once the polling period has elapsed. *)
Definition polling_cycle (g : globals) (env : cycle_env)
    (st : process_state) : cycle_end :=
  let st := count_loop st in
  if (MAX_CONSECUTIVE_FAILURES <=? consecutive_serial_failures st)%nat
  then ExitFailures
  else
    match poll_units g env 0 (BATTERY_ADDRESSES g) st [] [] with
    | None => ExitInterrupt
    | Some (st, battery_data_list, log) =>
        if MQTT_ACTIVE g then
          match create_consolidated_view g battery_data_list with
          | None => CycleDone st battery_data_list None log
          | Some (Raise e) => Escaped e
          | Some (Ok c) =>
              CycleDone st battery_data_list (Some c)
                (mqtt_publish (consolidated_publish_ok env) pylon_topic c log)
          end
        else CycleDone st battery_data_list None log
    end.

End Cycle.

(** ** A plain implementation of the conversions

    Signed decimal integers, hexadecimal integers with an optional
    [0x] prefix, and decimals [digits[.digits]]: the forms the battery
    prints.  It is used to run the model on text. *)

Definition digit_val (a : ascii) : option Z :=
  let n := code a in
  if ((48 <=? n) && (n <=? 57))%nat then Some (Z.of_nat n - 48) else None.

Definition hex_digit_val (a : ascii) : option Z :=
  let n := code a in
  if ((48 <=? n) && (n <=? 57))%nat then Some (Z.of_nat n - 48)
  else if ((97 <=? n) && (n <=? 102))%nat then Some (Z.of_nat n - 87)
  else if ((65 <=? n) && (n <=? 70))%nat then Some (Z.of_nat n - 55)
  else None.

Fixpoint digits_val (val : ascii -> option Z) (base acc : Z) (s : string)
  : option Z :=
  match s with
  | EmptyString => Some acc
  | String a t =>
      match val a with
      | Some d => digits_val val base (base * acc + d) t
      | None => None
      end
  end.

Definition number (val : ascii -> option Z) (base : Z) (s : string)
  : option Z :=
  match s with
  | EmptyString => None
  | _ => digits_val val base 0 s
  end.

Definition signed {A : Type} (neg : A -> A) (f : string -> option A)
    (s : string) : option A :=
  match s with
  | String "-"%char t => option_map neg (f t)
  | String "+"%char t => f t
  | _ => f s
  end.

Definition plain_int : string -> option Z := signed Z.opp (number digit_val 10).

Definition plain_int16 : string -> option Z :=
  signed Z.opp (fun s =>
    match s with
    | String "0"%char (String "x"%char t) => number hex_digit_val 16 t
    | String "0"%char (String "X"%char t) => number hex_digit_val 16 t
    | _ => number hex_digit_val 16 s
    end).

Definition plain_float : string -> option Q :=
  signed Qopp (fun s =>
    match split_on "."%char s with
    | [whole] => option_map inject_Z (number digit_val 10 whole)
    | [whole; frac] =>
        match number digit_val 10 whole, number digit_val 10 frac with
        | Some w, Some f =>
            Some (inject_Z w
                  + inject_Z f / inject_Z (10 ^ Z.of_nat (String.length frac)))%Q
        | _, _ => None
        end
    | _ => None
    end).

#[local] Instance plain_conv : PyConv := {
  py_float := plain_float;
  py_int := plain_int;
  py_int16 := plain_int16
}.

(** ** Vocabulary of the statements *)

(** Every key of the two tables is zero or a single bit. *)
Definition single_bit_or_zero (v : Z) : bool :=
  ((v =? 0) || existsb (fun k => v =? 2 ^ Z.of_nat k) (seq 0 32))%bool.

(** More than one bit set. *)
Definition multi_bit (v : Z) : Prop :=
  exists i j, i <> j /\ Z.testbit v i = true /\ Z.testbit v j = true.

(** The alarm fields the [Power Events] chain can write. *)
Definition power_event_alarms : list alarm_name :=
  [HighVoltage; LowVoltage; LowCellVoltage; HighTemperature;
   LowTemperature; LowSoc; HighDischargeCurrent; HighChargeCurrent;
   FuseBlown].

(** The alarm fields the cell block of the [bat] response can write. *)
Definition cell_alarms : list alarm_name :=
  [HighVoltage; LowCellVoltage; CellImbalance; LowTemperature;
   HighTemperature].





(** 1 when the cell voltages of all the records together spread over more
    than 0.1 V (the test of "Calculate system-level min/max voltages"). *)
Definition fleet_imbalance (l : list telemetry) : Z :=
  match flat_map Voltages l with
  | [] => 0
  | v0 :: vs =>
      if Qgtb (snd (max_by_snd v0 vs) - snd (min_by_snd v0 vs)) 0.1
      then 1 else 0
  end.


(** The part of a record the later aggregation steps do not write. *)
Definition summary (c : telemetry) : Z * Z * io :=
  (NrOfModulesOnline (System c), NrOfModulesOffline (System c), Io c).

Definition keeps {A : Type} (P : telemetry -> A)
    (f : telemetry -> telemetry) : Prop :=
  forall c, P (f c) = P c.

(** A port that delivers the text byte by byte, well before the
    deadline. *)
Fixpoint script_of (text : string) : list tick :=
  match text with
  | EmptyString => []
  | String b t => mk_tick (Byte b) false :: script_of t
  end.

Definition nl : string := String newline EmptyString.

(** Lines joined into the text of one response. *)
Definition text_of (lines : list string) : string :=
  fold_right (fun l acc => (l ++ nl ++ acc)%string) EmptyString lines.

(** *** [read_until] on whole lines

    The reader as section 4.1 of the design describes it, on the list of
    newline-terminated lines of a response: collecting begins at the first
    line that contains the start marker (at once for ['none'], and for
    ['true'], the value the loop itself gives [start]), and the lines are
    returned through the first line, from there on, that contains the stop
    marker.  It is compared with [read_loop] in [serial_read_on_lines]. *)
Fixpoint spec_collect (stop : string) (lines : list string)
  : read_end * list string :=
  match lines with
  | [] => (TimedOut, [])
  | l :: rest =>
      if contains stop l then (Completed, [l])
      else let (e, ls) := spec_collect stop rest in (e, l :: ls)
  end.

Fixpoint spec_await (start stop : string) (lines : list string)
  : read_end * list string :=
  match lines with
  | [] => (TimedOut, [])
  | l :: rest =>
      if (String.eqb start "none" || contains start l)%bool
      then spec_collect stop lines
      else spec_await start stop rest
  end.

Definition spec_read_until (start stop : string) (lines : list string)
  : read_end * list string :=
  if String.eqb start "true" then spec_collect stop lines
  else spec_await start stop lines.

Fixpoint no_newline (s : string) : bool :=
  match s with
  | EmptyString => true
  | String a t => (negb (Ascii.eqb a newline) && no_newline t)%bool
  end.

Definition terminated (l : string) : string :=
  (l ++ String newline EmptyString)%string.

(** ** Sample exchanges *)

Definition answers (lines : list string) : exchange :=
  mk_exchange (fun _ => true) (script_of (text_of lines)).

(** The bus is dead: every write attempt raises. *)
Definition unreachable : exchange := mk_exchange (fun _ => false) [].


Definition sample_globals : globals :=
  mk_globals 51.0 50.0 50.0 15 [1; 2] true None None None.

Definition start_state : process_state := mk_state 0 0 0.

Definition bat_header : string :=
  "Battery  Volt     Curr     Tempr    Base State   Volt. State  Curr. State  Temp. State  SOC          Coulomb      BAL"%string.

Definition pwr_reply (address : Z) (fields : list string) : exchange :=
  answers ([request "pwr" address] ++ fields
           ++ ["Command completed successfully"%string]).

Definition bat_reply (rows : list string) : exchange :=
  answers ([bat_header] ++ rows ++ ["Command completed successfully"%string]).

Definition healthy_pwr : list string :=
  [ "Voltage         : 49500      mV";
    "Current         : -5000      mA";
    "Temperature     : 20000      mC";
    "Coulomb         : 50         %";
    "Total Coulomb   : 50000      mAH";
    "Bat Events      : 0x0";
    "Power Events    : 0x0";
    "System Fault    : 0x0" ]%string.

Definition row (index mv : string) : string :=
  (index ++ "        " ++ mv
   ++ "     0        21000    Idle         Normal       Normal       Normal       50%          1000 mAH     N")%string.

Definition healthy_lines : list string :=
  received (pwr_reply 1 healthy_pwr) (request "pwr" 1).

(** Two cells, the second above 3.65 V. *)
Definition overvoltage_bat : exchange :=
  bat_reply [row "0" "3300"; row "1" "3700"].

Definition overvoltage_rows : list string :=
  received overvoltage_bat "Battery".

Definition overvoltage_unit : unit_io :=
  mk_unit_io (pwr_reply 1 healthy_pwr) overvoltage_bat.

(** The unit reported ["Max Charge Curr : 10260 mA"] at start-up. *)
Definition derated_globals : globals :=
  mk_globals 51.0 10.26 50.0 15 [1; 2] true (Some 10.26%Q) None None.

(** Soc 3 %, one cell at 2.4 V. *)
Definition depleted_pwr : list string :=
  [ "Voltage         : 44000      mV";
    "Current         : -1000      mA";
    "Temperature     : 20000      mC";
    "Coulomb         : 3          %" ]%string.

Definition depleted_lines : list string :=
  received (pwr_reply 1 depleted_pwr) (request "pwr" 1).

Definition depleted_rows : list string :=
  received (bat_reply [row "0" "2400"; row "1" "2900"]) "Battery".


Definition level_unit : unit_io :=
  mk_unit_io (pwr_reply 1 healthy_pwr)
    (bat_reply [row "0" "3300"; row "1" "3310"; row "2" "3320"]).

(** The first row of the response is damaged in transit (its voltage
    does not convert); the second row parses. *)
Definition damaged_rows : list string :=
  received (bat_reply [row "0" "33x0"; row "1" "3310"]) "Battery".

(** The unit reports the single-bit value 0x1 in [Bat Events]. *)
Definition flagged_pwr : list string :=
  [ "Coulomb         : 50         %";
    "Bat Events      : 0x1";
    "Power Events    : 0x0";
    "System Fault    : 0x0" ]%string.

Definition flagged_unit : unit_io :=
  mk_unit_io (pwr_reply 1 flagged_pwr)
    (bat_reply [row "0" "3300"; row "1" "3310"; row "2" "3320"]).


(** A short exchange: the text [ok] and a newline, read with start
    ['none'] and stop [ok]. *)
Definition ok_prefix : list tick := script_of "ok".
Definition newline_tick : tick := mk_tick (Byte newline) false.





(** The first unit answers, the second is unreachable. *)
Definition mixed_env : cycle_env :=
  mk_env (fun k => match k with
                   | O => level_unit
                   | _ => mk_unit_io unreachable unreachable
                   end)
    (fun _ => true) true None.

(** The first unit lists a sixteenth cell (row index 15) while the
    configured cell count is 15. *)
Definition sixteenth_cell_unit : unit_io :=
  mk_unit_io (pwr_reply 1 healthy_pwr) (bat_reply [row "15" "3300"]).

Definition sixteenth_cell_env : cycle_env :=
  mk_env (fun k => match k with
                   | O => sixteenth_cell_unit
                   | _ => mk_unit_io unreachable unreachable
                   end)
    (fun _ => true) true None.

(** The parts of a completed cycle. *)
Definition cycle_state (e : cycle_end) : process_state :=
  match e with CycleDone st _ _ _ => st | _ => start_state end.
Definition cycle_units (e : cycle_end) : list telemetry :=
  match e with CycleDone _ l _ _ => l | _ => [] end.
Definition cycle_consolidated (e : cycle_end) : telemetry :=
  match e with
  | CycleDone _ _ (Some c) _ => c
  | _ => offline_data sample_globals
  end.
Definition cycle_log (e : cycle_end) : list (topic * telemetry) :=
  match e with CycleDone _ _ _ log => log | _ => [] end.


Definition mixed_cycle : cycle_end :=
  polling_cycle sample_globals mixed_env start_state.



(** ** Link set-up: [initialize_serial] *)

(** What one attempt does to the port, in the order of the source.  The
    pauses ([time.sleep]) are left out: they cannot raise. *)
Inductive link_step :=
| Stty (baud : Z)            (* stty -F SERIAL_PORT <baud> raw -echo *)
| RawWrite (bytes : string)  (* f.write(bytes) on the device file *)
| OpenPort (baud : Z).       (* serial.Serial(port=SERIAL_PORT, ...) *)

Definition carriage_return : ascii := ascii_of_nat 13.

(** [b"~20014682C0048520FCC3\r"] *)
Definition wake_frame : string :=
  ("~20014682C0048520FCC3" ++ String carriage_return EmptyString)%string.

(** The body of the [try]. *)
Definition handshake : list link_step :=
  [ Stty 1200; RawWrite wake_frame;
    Stty 19200; RawWrite nl; RawWrite ("login debug" ++ nl)%string;
    OpenPort 19200 ].

(** The steps run in order until one raises; [step_ok i] tells whether
    step [i] runs through.  The result says whether all of them did, and
    [done] collects the steps carried out. *)
Fixpoint run_steps (step_ok : nat -> bool) (i : nat) (steps : list link_step)
    (done : list link_step) : bool * list link_step :=
  match steps with
  | [] => (true, done)
  | s :: rest =>
      if step_ok i then run_steps step_ok (S i) rest (done ++ [s])
      else (false, done)
  end.

(** [for attempt in range(max_attempts)], counted down in [remaining]. *)
Fixpoint init_loop (step_ok : nat -> nat -> bool) (attempt remaining : nat)
    (st : process_state) (done : list link_step)
  : bool * process_state * list link_step :=
  match remaining with
  | O => (false, st, done)
  | S k =>
      let (through, done) := run_steps (step_ok attempt) 0 handshake done in
      if through then (true, success st, done)
      else init_loop step_ok (S attempt) k (failure st) done
  end.

(** [initialize_serial()]: whether a session is returned ([ser], or
    [None]), the counters, and what was done to the port. *)
Definition initialize_serial (step_ok : nat -> nat -> bool)
    (st : process_state) : bool * process_state * list link_step :=
  init_loop step_ok 0 3 st [].

(** ** Start-up limits: [get_max_currents] and the barcode loop of [main] *)

(** The module-level variables [get_max_currents] updates: the
    configuration with [global_info], and [global_barcode]. *)
Record startup := mk_startup {
  config : globals;
  global_barcode : option string
}.

(** [MAX_CHARGE_CURRENT = min(MAX_CHARGE_CURRENT, float(value) / 1000)]
    and [global_info["MaxChargeCurrent"] = MAX_CHARGE_CURRENT]. *)
Definition learn_charge_current (x : Q) (g : globals) : globals :=
  let m := py_min (MAX_CHARGE_CURRENT g) (x / 1000) in
  mk_globals (MAX_CHARGE_VOLTAGE g) m (MAX_DISCHARGE_CURRENT g)
    (NUM_CELLS g) (BATTERY_ADDRESSES g) (MQTT_ACTIVE g)
    (Some m) (info_MaxDischargeCurrent g) (info_CellCount g).

(** [MAX_DISCHARGE_CURRENT = min(MAX_DISCHARGE_CURRENT,
    abs(float(value)) / 1000)] and
    [global_info["MaxDischargeCurrent"] = MAX_DISCHARGE_CURRENT]. *)
Definition learn_discharge_current (x : Q) (g : globals) : globals :=
  let m := py_min (MAX_DISCHARGE_CURRENT g) (Qabs x / 1000) in
  mk_globals (MAX_CHARGE_VOLTAGE g) (MAX_CHARGE_CURRENT g) m
    (NUM_CELLS g) (BATTERY_ADDRESSES g) (MQTT_ACTIVE g)
    (info_MaxChargeCurrent g) (Some m) (info_CellCount g).

(** [global_info["CellCount"] = int(value)] *)
Definition learn_cell_count (n : Z) (g : globals) : globals :=
  mk_globals (MAX_CHARGE_VOLTAGE g) (MAX_CHARGE_CURRENT g)
    (MAX_DISCHARGE_CURRENT g)
    (NUM_CELLS g) (BATTERY_ADDRESSES g) (MQTT_ACTIVE g)
    (info_MaxChargeCurrent g) (info_MaxDischargeCurrent g) (Some n).

Definition on_config (f : globals -> globals) (u : startup) : startup :=
  mk_startup (f (config u)) (global_barcode u).

Section Startup.

Context {conv : PyConv}.

(** The body of [for line in lines] of the [info] response, on the
    module-level variables and the local [barcode].  A conversion that
    raises leaves everything as it was (the handler logs and the loop goes
    on). *)
Definition decode_info_line (s : startup * option string) (line : string)
  : startup * option string :=
  match key_value line with
  | None => s
  | Some (key, value) =>
      if String.eqb key "Max Charge Curr" then
        match py_float value with
        | Some x => (on_config (learn_charge_current x) (fst s), snd s)
        | None => s
        end
      else if String.eqb key "Max Dischg Curr" then
        match py_float value with
        | Some x => (on_config (learn_discharge_current x) (fst s), snd s)
        | None => s
        end
      else if String.eqb key "Barcode" then
        let barcode := strip value in
        (mk_startup (config (fst s)) (Some barcode), Some barcode)
      else if String.eqb key "Cell Count" then
        match py_int value with
        | Some n => (on_config (learn_cell_count n) (fst s), snd s)
        | None => s
        end
      else s
  end.

(** [get_max_currents(ser, address)]: the barcode or [None], the
    module-level variables and the counters.  No statement outside the
    per-line [try] can raise, so the outer handler has no path of its
    own. *)
Definition get_max_currents (e : exchange) (address : Z) (u : startup)
    (st : process_state) : option string * startup * process_state :=
  if negb (address =? 1) then (global_barcode u, u, st)
  else
    let (write_success, st) := serial_write (write_attempts e) 2 st in
    if negb write_success then (None, u, st)
    else
      let (lines, st) :=
        serial_read (read_script e) (request "info" address)
          "Command completed" st in
      match lines with
      | [] => (None, u, st)
      | _ =>
          let (u, barcode) := fold_left decode_info_line lines (u, None) in
          (barcode, u, st)
      end.

(** [f"UNKNOWN_{address}"] *)
Definition unknown (address : Z) : string :=
  ("UNKNOWN_" ++ str_of_Z address)%string.

(** [barcode if barcode else f"UNKNOWN_{address}"]: [None] and the empty
    string are false. *)
Definition barcode_or_unknown (barcode : option string) (address : Z)
  : string :=
  match barcode with
  | Some (String a t) => String a t
  | _ => unknown address
  end.

(** "Fetch max currents and barcodes": [for address in BATTERY_ADDRESSES],
    from position [k] on; [info_bus k] is what the bus does while the
    [k]-th address is asked. *)
Fixpoint fetch_barcodes (info_bus : nat -> exchange) (k : nat)
    (addresses : list Z) (u : startup) (st : process_state)
    (barcodes : list (Z * string))
  : startup * process_state * list (Z * string) :=
  match addresses with
  | [] => (u, st, barcodes)
  | address :: rest =>
      let '(barcode, u, st) := get_max_currents (info_bus k) address u st in
      fetch_barcodes info_bus (S k) rest u st
        (dict_set address (barcode_or_unknown barcode address) barcodes)
  end.

(** ** The process: [main] *)

(** What happens around the process: the port during link set-up, the bus
    during the start-up loop, and the polling cycles that come due. *)
Record main_env := mk_main_env {
  link : nat -> nat -> bool;
  info_bus : nat -> exchange;
  cycles : list cycle_env
}.

(** How [main] stands after the cycles of the environment: it has left
    through [sys.exit], an exception has left it, or the loop is still
    running. *)
Inductive main_end :=
| Exit (status : Z)
| Uncaught (e : exn)
| Running (st : process_state).

(** [while True], one cycle per environment. *)
Fixpoint main_loop (g : globals) (envs : list cycle_env)
    (st : process_state) : main_end :=
  match envs with
  | [] => Running st
  | env :: rest =>
      match polling_cycle g env st with
      | CycleDone st _ _ _ => main_loop g rest st
      | ExitFailures => Exit 1
      | ExitInterrupt => Exit 0
      | Escaped e => Uncaught e
      end
  end.

(** The configuration as the module leaves it before [main] runs:
    [global_info = {}]. *)
Definition configured (g : globals) : globals :=
  mk_globals (MAX_CHARGE_VOLTAGE g) (MAX_CHARGE_CURRENT g)
    (MAX_DISCHARGE_CURRENT g) (NUM_CELLS g) (BATTERY_ADDRESSES g)
    (MQTT_ACTIVE g) None None None.

(** The state [main] enters its loop with: [None] when the link could
    not be set up. *)
Definition main_startup (g : globals) (env : main_env)
  : option (startup * process_state * list (Z * string)) :=
  let '(ser, st, _) := initialize_serial (link env) (mk_state 0 0 0) in
  if negb ser then None
  else Some (fetch_barcodes (info_bus env) 0 (BATTERY_ADDRESSES g)
               (mk_startup (configured g) None) st []).

Definition main (g : globals) (env : main_env) : main_end :=
  match main_startup g env with
  | None => Exit 1
  | Some (u, st, _) => main_loop (config u) (cycles env) st
  end.

End Startup.

(** ** Further vocabulary *)

(** The value the [bat] loop leaves under ["Cell<k>"]: that of the last
    row numbered [k]. *)
Definition last_voltage (k : Z) (rows : list cell_row) : option Q :=
  fold_left (fun acc r =>
               if k =? cell_num r then Some (py_round 3 (voltage r))
               else acc) rows None.

(** The number of records that satisfy a test. *)
Definition count_where (p : telemetry -> bool) (l : list telemetry) : Z :=
  Z.of_nat (List.length (filter p l)).

(** A synthetic offline record reports no module online. *)
Definition is_offline (d : telemetry) : bool :=
  NrOfModulesOnline (System d) =? 0.

(** A cycle's outcome apart from what reached the broker. *)
Definition without_log (e : cycle_end) : cycle_end :=
  match e with
  | CycleDone st l c _ => CycleDone st l c []
  | _ => e
  end.

(** The messages of a cycle all of whose publishes go through. *)
Definition full_log (addresses : list Z) (l : list telemetry)
    (c : option telemetry) : list (topic * telemetry) :=
  map (fun ad => (battery_topic (fst ad), snd ad)) (combine addresses l)
  ++ match c with Some c => [(pylon_topic, c)] | None => [] end.

(** [global_info] holds, for each current limit, nothing or the value of
    the module-level limit. *)
Definition limits_coherent (g : globals) : Prop :=
  (info_MaxChargeCurrent g = None
   \/ info_MaxChargeCurrent g = Some (MAX_CHARGE_CURRENT g)) /\
  (info_MaxDischargeCurrent g = None
   \/ info_MaxDischargeCurrent g = Some (MAX_DISCHARGE_CURRENT g)).

(** Every character of the text passes the test. *)
Fixpoint all_chars (p : ascii -> bool) (s : string) : bool :=
  match s with
  | EmptyString => true
  | String a t => (p a && all_chars p t)%bool
  end.

(** ** Sample start-up *)

(** The port answers at the second attempt: the first [stty] of the
    first attempt raises. *)
Definition second_attempt : nat -> nat -> bool :=
  fun attempt step => negb (Nat.eqb attempt 0).

Definition info_reply (fields : list string) : exchange :=
  answers ([request "info" 1] ++ fields
           ++ ["Command completed successfully"%string]).

Definition sample_info : list string :=
  [ "Device address      : 1";
    "Barcode             : PPTBH02400710208";
    "Cell Count          : 15";
    "Max Dischg Curr     : -30000 mA";
    "Max Charge Curr     : 25000 mA" ]%string.

Definition sample_main_env : main_env :=
  mk_main_env second_attempt (fun _ => info_reply sample_info) [mixed_env].

(** A complete line: its text and the newline that ends it. *)
Definition whole_line (l : string) : Prop :=
  exists body, no_newline body = true /\ l = terminated body.

(** What the loop of [serial_read] maintains between two passes, for a
    read that was called with the start marker [start0]. *)
Definition read_invariant (start0 stop : string) (s : read_state) : Prop :=
  no_newline (line_str s) = true /\
  Forall (fun l => whole_line l /\ contains stop l = false)
    (line_str_array s) /\
  (line_str_array s <> [] -> start s = "true"%string) /\
  (start0 <> "none"%string -> start0 <> "true"%string ->
   forall first rest, line_str_array s = first :: rest ->
                      contains start0 first = true) /\
  (start s = start0 \/ (start s = "true"%string /\ line_str_array s <> [])).

(** What a read returns, by the way it ends. *)
Definition read_result (start0 stop : string) (r : read_end * list string)
  : Prop :=
  Forall whole_line (snd r) /\
  (start0 <> "none"%string -> start0 <> "true"%string ->
   forall first rest, snd r = first :: rest ->
                      contains start0 first = true) /\
  match fst r with
  | Completed =>
      exists pre last,
        snd r = pre ++ [last] /\ contains stop last = true /\
        Forall (fun l => contains stop l = false) pre
  | TimedOut => Forall (fun l => contains stop l = false) (snd r)
  | Failed => snd r = []
  end.

(** The measurements of a record: what the [pwr] loop decodes and the
    fields derived from it. *)
Definition measured (d : telemetry) :=
  (Dc d, Soc d, InstalledCapacity d, Capacity d, ConsumedAmphours d,
   TimeToGo d, ChargeCycles d, Balancing d).

(** The four module counters of a record. *)
Definition module_counts (d : telemetry) : Z * Z * Z * Z :=
  (NrOfModulesOnline (System d), NrOfModulesOffline (System d),
   NrOfModulesBlockingCharge (System d),
   NrOfModulesBlockingDischarge (System d)).

(** The [Voltages] dict after the rows of a [bat] response. *)
Definition store_voltages (rows : list cell_row) (v : list (Z * Q))
  : list (Z * Q) :=
  fold_left (fun acc r => dict_set (cell_num r) (py_round 3 (voltage r)) acc)
    rows v.

(** What the limit stages and the alarm registers do not write. *)
Definition bystander (d : telemetry) :=
  (measured d, module_counts d, Voltages d).

(** The limit stages of [parse_battery_data], one after the other. *)
Definition limit_stages (g : globals) (d : telemetry) : telemetry :=
  discharge_policy
    (temperature_clamp (adjust_charge_current g (adjust_charge_voltage d))).

(** The cell part of [System]: the cell count, the four voltage extremes
    and the four temperature extremes. *)
Definition cell_summary (d : telemetry) :=
  let s := System d in
  (NrOfCellsPerBattery s,
   (MinVoltageCellId s, MinCellVoltage s, MaxVoltageCellId s,
    MaxCellVoltage s),
   (MinTemperatureCellId s, MinCellTemperature s, MaxTemperatureCellId s,
    MaxCellTemperature s)).

(** The rows a unit's record is built from: those of the [bat] response
    that parse, none when the [bat] request could not be written. *)
Definition rows_of {conv : PyConv} (bl : option (list string))
  : list cell_row :=
  match bl with
  | Some lines => parsed_rows lines
  | None => []
  end.

(** The per-unit messages of a cycle, from position [k] on: one for each
    address whose publish goes through. *)
Fixpoint unit_messages (env : cycle_env) (k : nat) (addresses : list Z)
    (l : list telemetry) : list (topic * telemetry) :=
  match addresses, l with
  | a :: rest, d :: ds =>
      (if unit_publish_ok env k then [(battery_topic a, d)] else [])
      ++ unit_messages env (S k) rest ds
  | _, _ => []
  end.

Definition consolidated_message (env : cycle_env) (c : option telemetry)
  : list (topic * telemetry) :=
  match c with
  | Some c => if consolidated_publish_ok env then [(pylon_topic, c)] else []
  | None => []
  end.

(** A record of the polling loop: parsed from a unit, or the synthetic
    offline record. *)
Definition polled_record (g : globals) (d : telemetry) : Prop :=
  module_counts d = (1, 0, 0, 0) \/ d = offline_data g.

(** The bus of [mixed_env] with a broker that refuses every message. *)
Definition mute_env : cycle_env :=
  mk_env (bus mixed_env) (fun _ => false) false None.

(** The operator interrupts while the second address is polled. *)
Definition interrupted_env : cycle_env :=
  mk_env (bus mixed_env) (fun _ => true) true (Some 1%nat).

(** The voltage extremes and the temperature extremes of [System]. *)
Definition voltage_extremes (d : telemetry) :=
  (MinVoltageCellId (System d), MinCellVoltage (System d),
   MaxVoltageCellId (System d), MaxCellVoltage (System d)).

Definition temperature_extremes (d : telemetry) :=
  (MinTemperatureCellId (System d), MinCellTemperature (System d),
   MaxTemperatureCellId (System d), MaxCellTemperature (System d)).

(** The units that block a direction. *)
Definition blocks_charge (d : telemetry) : bool := AllowToCharge (Io d) =? 0.
Definition blocks_discharge (d : telemetry) : bool :=
  AllowToDischarge (Io d) =? 0.

(** The consolidated record before the last step (the time to go). *)
Definition consolidated_stages (g : globals) (l : list telemetry)
    (cv : list (Z * list Q)) (cb : list (Z * list Z)) : telemetry :=
  fleet_metrics l
    (fleet_extremes l
       (fold_left (average_cell cb) cv
          (fold_left aggregate_unit l (initial_consolidated g l)))).

(** The values a dict holds under the key [k], and what the records hold
    for cell [k], in the order of the records. *)
Definition cell_values {V : Type} (k : Z) (items : list (Z * V)) : list V :=
  map snd (filter (fun kv => fst kv =? k) items).

Definition fleet_values {V : Type} (f : telemetry -> list (Z * V)) (k : Z)
    (l : list telemetry) : list V :=
  flat_map (fun d => cell_values k (f d)) l.

(** The entries of the consolidated [Voltages] and [Balances] for cell
    [k]: none when no record has a voltage for the cell. *)
Definition consolidated_voltage (l : list telemetry) (k : Z)
  : list (Z * Q) :=
  match fleet_values Voltages k l with
  | [] => []
  | vs => [(k, py_round 3 (Qmean vs))]
  end.

Definition consolidated_balance (l : list telemetry) (k : Z)
  : list (Z * Z) :=
  match fleet_values Voltages k l with
  | [] => []
  | _ => [(k, if any_nonzero (fleet_values Balances k l) then 1 else 0)]
  end.
(** * Properties *)

(** ** Comparisons *)

Lemma Qltb_lt (x y : Q) : Qltb x y = true <-> (x < y)%Q.
Proof.
  unfold Qltb. rewrite negb_true_iff. split; intro H.
  - apply Qnot_le_lt. intro L. apply Qle_bool_iff in L. congruence.
  - destruct (Qle_bool y x) eqn:E; [|reflexivity].
    apply Qle_bool_iff in E. exfalso. exact (Qlt_not_le _ _ H E).
Qed.

Lemma Qltb_ge (x y : Q) : Qltb x y = false <-> (y <= x)%Q.
Proof.
  unfold Qltb. rewrite negb_false_iff. apply Qle_bool_iff.
Qed.

Lemma Qgtb_gt (x y : Q) : Qgtb x y = true <-> (y < x)%Q.
Proof. apply Qltb_lt. Qed.


Lemma Qltb_true (x y : Q) : (x < y)%Q -> Qltb x y = true.
Proof. apply Qltb_lt. Qed.

Lemma Qltb_false (x y : Q) : (y <= x)%Q -> Qltb x y = false.
Proof. apply Qltb_ge. Qed.

Lemma Qgtb_true (x y : Q) : (y < x)%Q -> Qgtb x y = true.
Proof. apply Qltb_lt. Qed.

Lemma Qgtb_false (x y : Q) : (x <= y)%Q -> Qgtb x y = false.
Proof. apply Qltb_ge. Qed.

Lemma Qle_bool_true (x y : Q) : (x <= y)%Q -> Qle_bool x y = true.
Proof. apply Qle_bool_iff. Qed.

(** ** Alarm dict *)

Lemma alarm_raised (a : alarm_name) (v : Z) (d : telemetry) :
  Alarms (raise_alarm a v d) a = v.
Proof.
  unfold raise_alarm, set_alarm. simpl.
  destruct (alarm_name_eq_dec a a); congruence.
Qed.

Lemma alarm_kept (a b : alarm_name) (v : Z) (d : telemetry) :
  a <> b -> Alarms (raise_alarm a v d) b = Alarms d b.
Proof.
  intro N. unfold raise_alarm, set_alarm. simpl.
  destruct (alarm_name_eq_dec a b); congruence.
Qed.

Lemma alarm_stays_raised (a b : alarm_name) (d : telemetry) :
  Alarms d b = 1 -> Alarms (raise_alarm a 1 d) b = 1.
Proof.
  intro H. unfold raise_alarm, set_alarm. simpl.
  destruct (alarm_name_eq_dec a b); congruence.
Qed.

Lemma all_alarms_complete :
  List.length all_alarms = 13%nat /\ forall a, In a all_alarms.
Proof.
  split; [reflexivity|]. intro a. destruct a; simpl; tauto.
Qed.

(** ** Event tables *)

Lemma dict_get_In {V : Type} (k : Z) (v : V) (d : list (Z * V)) :
  dict_get k d = Some v -> In (k, v) d.
Proof.
  induction d as [|[k' v'] t IH]; simpl; [discriminate|].
  destruct (k =? k') eqn:E.
  - intro H. inversion H. apply Z.eqb_eq in E. subst. now left.
  - intro H. right. now apply IH.
Qed.

Lemma Zmem_In (x : Z) (l : list Z) : Zmem x l = true <-> In x l.
Proof.
  unfold Zmem. rewrite existsb_exists. split.
  - intros [y [Hy E]]. apply Z.eqb_eq in E. now subst.
  - intro H. exists x. split; [assumption|apply Z.eqb_refl].
Qed.


Lemma power_events_keys :
  forallb (fun kv => single_bit_or_zero (fst kv)) power_events_list = true.
Proof. vm_compute. reflexivity. Qed.

Lemma sys_events_keys :
  forallb (fun kv => single_bit_or_zero (fst kv)) sys_events_list = true.
Proof. vm_compute. reflexivity. Qed.


Lemma single_bit_not_multi (v : Z) :
  single_bit_or_zero v = true -> ~ multi_bit v.
Proof.
  unfold single_bit_or_zero. intros H [i [j [N [Bi Bj]]]].
  apply orb_true_iff in H. destruct H as [H|H].
  - apply Z.eqb_eq in H. subst. rewrite Z.bits_0 in Bi. discriminate.
  - apply existsb_exists in H. destruct H as [k [_ E]].
    apply Z.eqb_eq in E. subst v.
    assert (K : 0 <= Z.of_nat k) by lia.
    rewrite Z.pow2_bits_eqb in Bi, Bj by assumption.
    apply Z.eqb_eq in Bi, Bj. congruence.
Qed.

Lemma multi_bit_unknown (table : list (Z * event_class)) (v : Z) :
  forallb (fun kv => single_bit_or_zero (fst kv)) table = true ->
  multi_bit v -> dict_get v table = None.
Proof.
  intros K M. destruct (dict_get v table) as [e|] eqn:E; [|reflexivity].
  apply dict_get_In in E. rewrite forallb_forall in K.
  specialize (K _ E). simpl in K.
  exfalso. exact (single_bit_not_multi v K M).
Qed.

(** ** Register alarms *)


Ltac known_key E :=
  match type of E with
  | dict_get ?k _ = Some ?e =>
      vm_compute in E; injection E as E; subst e
  end.

Lemma power_events_alarm_cases (pw : Z) (d : telemetry) :
  power_events_alarm pw d = d \/
  exists a, In a power_event_alarms /\
            power_events_alarm pw d = raise_alarm a 1 d.
Proof.
  unfold power_events_alarm.
  destruct (negb (pw =? 0)); [|now left].
  destruct (dict_get pw power_events_list) as [e|] eqn:E; [|now left].
  repeat match goal with
  | |- context [if Zmem pw ?l then _ else _] =>
      let M := fresh "M" in
      destruct (Zmem pw l) eqn:M;
      [ apply Zmem_In in M; simpl in M;
        repeat (destruct M as [M|M]; [subst pw; known_key E|]);
        try contradiction
      | ]
  | |- context [if pw =? ?k then _ else _] =>
      let M := fresh "M" in
      destruct (pw =? k) eqn:M;
      [ apply Z.eqb_eq in M; subst pw; known_key E | ]
  end.
  all: try (now left).
  all: right; simpl severity_of.
  all: repeat match goal with
       | |- context [Z.eqb ?a ?b] =>
           let r := eval vm_compute in (Z.eqb a b) in
           change (Z.eqb a b) with r; cbv iota
       end.
  all: match goal with
  | |- exists a, _ /\ raise_alarm ?x 1 _ = _ =>
      exists x; split; [simpl; tauto|reflexivity]
  end.
Qed.

Lemma bat_events_alarm_cases (bat : Z) (d : telemetry) :
  bat_events_alarm bat d = d \/
  bat_events_alarm bat d = raise_alarm CellImbalance 1 d.
Proof.
  unfold bat_events_alarm.
  destruct (negb (bat =? 0)); [|now left].
  destruct (dict_get bat power_events_list) as [[|]|]; auto.
Qed.

Lemma sys_events_alarm_cases (sys : Z) (d : telemetry) :
  sys_events_alarm sys d = d \/
  sys_events_alarm sys d
  = raise_alarm FuseBlown (Z.max (Alarms d FuseBlown) 1) d.
Proof.
  unfold sys_events_alarm.
  destruct (negb (sys =? 0)); [|now left].
  destruct (dict_get sys sys_events_list) as [e|] eqn:E; [|now left].
  match goal with
  | |- context [if Zmem sys ?l then _ else _] =>
      destruct (Zmem sys l) eqn:M; [|now left]
  end.
  right. apply Zmem_In in M. simpl in M.
  repeat (destruct M as [M|M]; [subst sys; known_key E; reflexivity|]).
  contradiction.
Qed.

(** ** The [bat] loop *)

Section BatLoop.

Context {conv : PyConv}.

Lemma decode_bat_rows (lines : list string) (s : bat_state) :
  let s' := fold_left decode_bat_row lines s in
  cell_voltages s' = cell_voltages s ++ parsed_voltages lines /\
  cell_temperatures s'
  = cell_temperatures s
    ++ map (fun r => (cell_num r, temperature r)) (parsed_rows lines).
Proof.
  revert s. induction lines as [|line rest IH]; intro s; simpl.
  - now rewrite !app_nil_r.
  - destruct (IH (decode_bat_row s line)) as [V T].
    rewrite V, T. unfold decode_bat_row, parsed_voltages. simpl.
    destruct (decode_bat_line line); simpl.
    + now rewrite <- !app_assoc.
    + now split.
Qed.

(** The loop writes [Voltages] and nothing else of the record. *)
Lemma decode_bat_frame (lines : list string) (s : bat_state) :
  let d := bat_data s in
  let d' := bat_data (fold_left decode_bat_row lines s) in
  Info d' = Info d /\ Io d' = Io d /\ Alarms d' = Alarms d /\
  Balances d' = Balances d /\ System d' = System d /\
  Soc d' = Soc d /\ Dc d' = Dc d.
Proof.
  revert s. induction lines as [|line rest IH]; intro s; simpl.
  - repeat split.
  - destruct (IH (decode_bat_row s line)) as (A & B & D & E & F & G & H).
    rewrite A, B, D, E, F, G, H. unfold decode_bat_row.
    destruct (decode_bat_line line); simpl; repeat split.
Qed.

Lemma parsed_cells_have_temperatures (lines : list string) v0 vs :
  parsed_voltages lines = v0 :: vs ->
  exists t0 ts,
    map (fun r => (cell_num r, temperature r)) (parsed_rows lines)
    = t0 :: ts.
Proof.
  unfold parsed_voltages.
  destruct (parsed_rows lines) as [|r rs]; simpl; [discriminate|].
  intros _. eauto.
Qed.

End BatLoop.

(** ** Extremes *)

Lemma max_by_snd_greatest (l : list (Z * Q)) (x : Z * Q) :
  In (max_by_snd x l) (x :: l) /\
  forall c, In c (x :: l) -> (snd c <= snd (max_by_snd x l))%Q.
Proof.
  revert x. induction l as [|y t IH]; intro x; simpl.
  - split; [now left|]. intros c [E|[]]. subst. apply Qle_refl.
  - destruct (Qltb (snd x) (snd y)) eqn:E.
    + destruct (IH y) as [I G]. split.
      * right. exact I.
      * intros c [H|H].
        -- subst c. apply Qltb_lt in E.
           apply Qle_trans with (snd y); [now apply Qlt_le_weak|].
           apply G. now left.
        -- apply G. exact H.
    + destruct (IH x) as [I G]. split.
      * destruct I as [I|I]; [now left|right; now right].
      * intros c [H|[H|H]].
        -- apply G. now left.
        -- subst c. apply Qltb_ge in E.
           apply Qle_trans with (snd x); [exact E|]. apply G. now left.
        -- apply G. now right.
Qed.

Lemma min_by_snd_least (l : list (Z * Q)) (x : Z * Q) :
  In (min_by_snd x l) (x :: l) /\
  forall c, In c (x :: l) -> (snd (min_by_snd x l) <= snd c)%Q.
Proof.
  revert x. induction l as [|y t IH]; intro x; simpl.
  - split; [now left|]. intros c [E|[]]. subst. apply Qle_refl.
  - destruct (Qltb (snd y) (snd x)) eqn:E.
    + destruct (IH y) as [I G]. split.
      * right. exact I.
      * intros c [H|H].
        -- subst c. apply Qltb_lt in E.
           apply Qle_trans with (snd y); [apply G; now left|].
           now apply Qlt_le_weak.
        -- apply G. exact H.
    + destruct (IH x) as [I G]. split.
      * destruct I as [I|I]; [now left|right; now right].
      * intros c [H|[H|H]].
        -- apply G. now left.
        -- subst c. apply Qltb_ge in E.
           apply Qle_trans with (snd x); [apply G; now left|exact E].
        -- apply G. now right.
Qed.

(** ** Balance flags *)

Lemma dict_set_fresh {V : Type} (k : Z) (v : V) (d : list (Z * V)) :
  Forall (fun kv => fst kv <> k) d -> dict_set k v d = d ++ [(k, v)].
Proof.
  induction 1 as [|[k' v'] t N _ IH]; simpl; [reflexivity|].
  simpl in N. destruct (k =? k') eqn:E.
  - apply Z.eqb_eq in E. congruence.
  - now rewrite IH.
Qed.





(** ** The cell block *)

Ltac break_if :=
  match goal with
  | |- context [if ?c then _ else _] => destruct c eqn:?
  end.

Lemma cell_policy_effects (s : bat_state) v0 vs t0 ts :
  cell_voltages s = v0 :: vs ->
  cell_temperatures s = t0 :: ts ->
  let d := bat_data s in
  let lo := min_by_snd v0 vs in
  let hi := max_by_snd v0 vs in
  let r := cell_policy s in
  Info r = Info d /\ Soc r = Soc d /\ Dc r = Dc d /\
  AllowToCharge (Io r)
  = (if Qgtb (snd hi) 3.65 then 0 else AllowToCharge (Io d)) /\
  AllowToDischarge (Io r)
  = (if Qltb (snd lo) 2.5 then 0 else AllowToDischarge (Io d)) /\
  Balances r
  = (if balancing_fires lo hi then dict_set (fst hi) 1 (Balances d)
     else clear_balances (List.length (v0 :: vs)) (Balances d)).
Proof.
  intros V T. unfold cell_policy. rewrite V, T. cbv zeta.
  unfold cell_temperature_alarms, cell_imbalance_alarm, balancing_logic,
    cell_voltage_protection.
  repeat break_if; simpl; repeat split.
Qed.

Lemma cell_policy_alarms (s : bat_state) v0 vs t0 ts :
  cell_voltages s = v0 :: vs ->
  cell_temperatures s = t0 :: ts ->
  let d := bat_data s in
  let lo := min_by_snd v0 vs in
  let hi := max_by_snd v0 vs in
  let r := cell_policy s in
  (Qgtb (snd hi) 3.65 = true -> Alarms r HighVoltage = 1) /\
  (Qltb (snd lo) 2.5 = true -> Alarms r LowCellVoltage = 1) /\
  (forall a, Alarms d a = 1 -> Alarms r a = 1) /\
  (forall a, ~ In a cell_alarms -> Alarms r a = Alarms d a).
Proof.
  intros V T. unfold cell_policy. rewrite V, T. cbv zeta.
  unfold cell_temperature_alarms, cell_imbalance_alarm, balancing_logic,
    cell_voltage_protection.
  repeat split.
  - intro H. rewrite H. repeat break_if; reflexivity.
  - intro H. rewrite H. repeat break_if; reflexivity.
  - intros a H.
    repeat break_if; unfold raise_alarm, set_alarm; simpl;
      repeat match goal with
      | |- context [alarm_name_eq_dec ?x a] =>
          destruct (alarm_name_eq_dec x a)
      end; auto.
  - intros a H.
    repeat break_if; unfold raise_alarm, set_alarm; simpl;
      repeat match goal with
      | |- context [alarm_name_eq_dec ?x a] =>
          destruct (alarm_name_eq_dec x a);
          [subst a; exfalso; apply H; simpl; tauto|]
      end; auto.
Qed.

Section BatPolicy.

Context {conv : PyConv}.

(** What the [bat] phase does to a record when cells were parsed. *)
Lemma bat_policy_cells (d : telemetry) (lines : list string) v0 vs :
  parsed_voltages lines = v0 :: vs ->
  let lo := min_by_snd v0 vs in
  let hi := max_by_snd v0 vs in
  let r := bat_policy d lines in
  Info r = Info d /\ Soc r = Soc d /\ Dc r = Dc d /\
  AllowToCharge (Io r)
  = (if Qgtb (snd hi) 3.65 then 0 else AllowToCharge (Io d)) /\
  AllowToDischarge (Io r)
  = (if Qltb (snd lo) 2.5 then 0 else AllowToDischarge (Io d)) /\
  Balances r
  = (if balancing_fires lo hi then dict_set (fst hi) 1 (Balances d)
     else clear_balances (List.length (v0 :: vs)) (Balances d)) /\
  (Qgtb (snd hi) 3.65 = true -> Alarms r HighVoltage = 1) /\
  (Qltb (snd lo) 2.5 = true -> Alarms r LowCellVoltage = 1) /\
  (forall a, Alarms d a = 1 -> Alarms r a = 1) /\
  (forall a, ~ In a cell_alarms -> Alarms r a = Alarms d a).
Proof.
  intros P. unfold bat_policy, decode_bat.
  destruct (parsed_cells_have_temperatures lines v0 vs P) as (t0 & ts & T).
  destruct (decode_bat_rows lines (mk_bat d [] [] [])) as [V T'].
  destruct (decode_bat_frame lines (mk_bat d [] [] []))
    as (A & B & D & E & _ & G & H).
  simpl in V, T', A, B, D, E, G, H. rewrite P in V. rewrite T in T'.
  destruct (cell_policy_effects _ v0 vs t0 ts V T')
    as (A' & G' & H' & C' & D' & B').
  destruct (cell_policy_alarms _ v0 vs t0 ts V T')
    as (HV & LV & M & K).
  rewrite A', G', H', C', D', B', A, B, E, G, H.
  repeat split; auto.
  - intros a Ha. apply M. now rewrite D.
  - intros a Ha. rewrite K by assumption. now rewrite D.
Qed.

(** When no row parsed, the [bat] phase leaves limits, flags and alarms
    alone. *)
Lemma bat_policy_no_cells (d : telemetry) (lines : list string) :
  parsed_voltages lines = [] ->
  let r := bat_policy d lines in
  Info r = Info d /\ Soc r = Soc d /\ Dc r = Dc d /\ Io r = Io d /\
  Balances r = Balances d /\ Alarms r = Alarms d.
Proof.
  intros P. unfold bat_policy, decode_bat.
  destruct (decode_bat_rows lines (mk_bat d [] [] [])) as [V _].
  destruct (decode_bat_frame lines (mk_bat d [] [] []))
    as (A & B & D & E & _ & G & H).
  simpl in V, A, B, D, E, G, H. rewrite P in V.
  unfold cell_policy. rewrite V. repeat split; assumption.
Qed.

(** In every case the [bat] phase keeps the limits, never re-enables a
    direction and never clears an alarm. *)
Lemma bat_policy_frame (d : telemetry) (lines : list string) :
  let r := bat_policy d lines in
  Info r = Info d /\ Soc r = Soc d /\ Dc r = Dc d /\
  (AllowToCharge (Io d) = 0 -> AllowToCharge (Io r) = 0) /\
  (AllowToDischarge (Io d) = 0 -> AllowToDischarge (Io r) = 0) /\
  (forall a, Alarms d a = 1 -> Alarms r a = 1) /\
  (forall a, ~ In a cell_alarms -> Alarms r a = Alarms d a).
Proof.
  destruct (parsed_voltages lines) as [|v0 vs] eqn:P.
  - destruct (bat_policy_no_cells d lines P) as (A & B & D & E & _ & G).
    cbv zeta. rewrite A, B, D, E, G. repeat split; auto.
  - destruct (bat_policy_cells d lines v0 vs P)
      as (A & B & D & E & F & _ & _ & _ & M & K).
    cbv zeta. rewrite A, B, D, E, F. repeat split; auto.
    + intro Z0. rewrite Z0. now destruct (Qgtb _ _).
    + intro Z0. rewrite Z0. now destruct (Qltb _ _).
Qed.

End BatPolicy.

(** ** The [pwr] loop and the policy between the two requests *)

Section PwrPolicy.

Context {conv : PyConv}.

Ltac break_match :=
  match goal with
  | |- context [match ?x with _ => _ end] => destruct x eqn:?
  end.

(** The loop decodes fields; limits, flags, alarms and the cell dicts
    are not written. *)
Lemma decode_pwr_line_frame (s : pwr_state) (line : string) :
  let d := data s in
  let d' := data (decode_pwr_line s line) in
  Alarms d' = Alarms d /\ Info d' = Info d /\ Io d' = Io d /\
  Balances d' = Balances d /\ Voltages d' = Voltages d.
Proof.
  unfold decode_pwr_line, converted, on_data.
  repeat break_match; simpl; repeat split.
Qed.

Lemma decode_pwr_frame (g : globals) (lines : list string) :
  let d := data (decode_pwr g lines) in
  Alarms d = initial_alarms /\
  Info d = mk_info (MAX_CHARGE_VOLTAGE g) (learned_MaxChargeCurrent g)
             (learned_MaxDischargeCurrent g) /\
  Io d = mk_io 1 1 /\ Balances d = [] /\ Voltages d = [].
Proof.
  unfold decode_pwr.
  set (s0 := mk_pwr (initial_data g) 0 0 0).
  change initial_alarms with (Alarms (data s0)).
  change (mk_info _ _ _) with (Info (data s0)).
  change (mk_io 1 1) with (Io (data s0)).
  change (@nil (Z * Z)) with (Balances (data s0)).
  change (@nil (Z * Q)) with (Voltages (data s0)).
  generalize s0. clear s0.
  induction lines as [|line rest IH]; intro s; simpl.
  - repeat split.
  - destruct (IH (decode_pwr_line s line)) as (A & B & D & E & F).
    destruct (decode_pwr_line_frame s line) as (A' & B' & D' & E' & F').
    cbv zeta in *. rewrite A, B, D, E, F. repeat split; assumption.
Qed.

(** The derived fields. *)
Lemma derive_frame (d : telemetry) :
  let r := derive_time_to_go (derive_capacity (derive_power d)) in
  Alarms r = Alarms d /\ Info r = Info d /\ Io r = Io d /\
  Soc r = Soc d /\ Temperature (Dc r) = Temperature (Dc d) /\
  Balances r = Balances d /\ Voltages r = Voltages d.
Proof.
  unfold derive_time_to_go, derive_capacity, derive_power.
  repeat break_match; simpl; repeat split.
Qed.

(** The registers write alarms only. *)
Lemma register_alarms_frame (bat pw sys : Z) (d : telemetry) :
  let r := register_alarms bat pw sys d in
  Info r = Info d /\ Io r = Io d /\ Soc r = Soc d /\ Dc r = Dc d /\
  Balances r = Balances d /\ Voltages r = Voltages d.
Proof.
  unfold register_alarms.
  destruct (sys_events_alarm_cases sys
              (power_events_alarm pw (bat_events_alarm bat d))) as [S|S];
  destruct (power_events_alarm_cases pw (bat_events_alarm bat d))
    as [P|[a [_ P]]];
  destruct (bat_events_alarm_cases bat d) as [B|B];
  cbv zeta; rewrite S, P, B; simpl; repeat split.
Qed.

(** No register clears an alarm. *)
Lemma register_alarms_monotone (bat pw sys : Z) (d : telemetry)
    (a : alarm_name) :
  Alarms d a = 1 -> Alarms (register_alarms bat pw sys d) a = 1.
Proof.
  intro H. unfold register_alarms.
  assert (B : Alarms (bat_events_alarm bat d) a = 1).
  { destruct (bat_events_alarm_cases bat d) as [E|E]; rewrite E;
      [assumption|now apply alarm_stays_raised]. }
  assert (P : Alarms (power_events_alarm pw (bat_events_alarm bat d)) a = 1).
  { destruct (power_events_alarm_cases pw (bat_events_alarm bat d))
      as [E|[x [_ E]]]; rewrite E;
      [assumption|now apply alarm_stays_raised]. }
  destruct (sys_events_alarm_cases sys
              (power_events_alarm pw (bat_events_alarm bat d))) as [E|E];
    rewrite E; [assumption|].
  destruct (alarm_name_eq_dec FuseBlown a) as [F|F].
  - subst a. rewrite alarm_raised. rewrite P. reflexivity.
  - now rewrite alarm_kept.
Qed.

(** A register writes only [CellImbalance] or a field of
    [power_event_alarms]. *)
Lemma register_alarms_untouched (bat pw sys : Z) (d : telemetry)
    (a : alarm_name) :
  a <> CellImbalance -> ~ In a power_event_alarms ->
  Alarms (register_alarms bat pw sys d) a = Alarms d a.
Proof.
  intros NC NP. unfold register_alarms.
  assert (NF : FuseBlown <> a).
  { intro E. apply NP. subst a. simpl. tauto. }
  transitivity (Alarms (power_events_alarm pw (bat_events_alarm bat d)) a).
  { destruct (sys_events_alarm_cases sys
                (power_events_alarm pw (bat_events_alarm bat d))) as [E|E];
      rewrite E; [reflexivity|now apply alarm_kept]. }
  transitivity (Alarms (bat_events_alarm bat d) a).
  { destruct (power_events_alarm_cases pw (bat_events_alarm bat d))
      as [E|[x [I E]]]; rewrite E; [reflexivity|].
    apply alarm_kept. intro X. subst x. contradiction. }
  destruct (bat_events_alarm_cases bat d) as [E|E]; rewrite E;
    [reflexivity|]. apply alarm_kept. congruence.
Qed.

End PwrPolicy.

Section Limits.

Context {conv : PyConv}.

Ltac break_match :=
  match goal with
  | |- context [match ?x with _ => _ end] => destruct x eqn:?
  end.

(** The three charge stages leave the discharge side alone. *)
Lemma charge_stages_frame (g : globals) (d : telemetry) :
  let d3 := temperature_clamp
              (adjust_charge_current g (adjust_charge_voltage d)) in
  Soc d3 = Soc d /\ Dc d3 = Dc d /\
  MaxDischargeCurrent (Info d3) = MaxDischargeCurrent (Info d) /\
  AllowToDischarge (Io d3) = AllowToDischarge (Io d) /\
  Balances d3 = Balances d /\
  (forall a, a <> LowChargeTemperature -> a <> HighChargeTemperature ->
             Alarms d3 a = Alarms d a).
Proof.
  unfold temperature_clamp, adjust_charge_current, adjust_charge_voltage.
  destruct (Soc d) as [soc|] eqn:S.
  - destruct (soc <? 95); simpl; rewrite S; simpl;
      destruct (Temperature (Dc d)) as [t|]; simpl;
      repeat break_match; simpl; repeat split; auto;
      intros a N1 N2; unfold raise_alarm, set_alarm; simpl;
      repeat match goal with
      | |- context [alarm_name_eq_dec ?x a] =>
          destruct (alarm_name_eq_dec x a); [congruence|]
      end; reflexivity.
  - rewrite S. destruct (Temperature (Dc d)) as [t|]; simpl;
      repeat break_match; simpl; repeat split; auto;
      intros a N1 N2; unfold raise_alarm, set_alarm; simpl;
      repeat match goal with
      | |- context [alarm_name_eq_dec ?x a] =>
          destruct (alarm_name_eq_dec x a); [congruence|]
      end; reflexivity.
Qed.

(** The charge stages when Soc and Temperature were decoded. *)
Lemma charge_stages_effect (g : globals) (d : telemetry) (soc : Z) (t : Q) :
  Soc d = Some soc -> Temperature (Dc d) = Some t ->
  let base := base_charge_current g soc in
  let d3 := temperature_clamp
              (adjust_charge_current g (adjust_charge_voltage d)) in
  MaxChargeCurrent (Info d3)
  = (if Qltb t 0 then 0%Q
     else if (Qle_bool 0 t && Qltb t 5)%bool then Qmin base 10.0
     else if Qgtb t 45 then Qmin base 10.0 else base) /\
  AllowToCharge (Io d3)
  = (if Qltb t 0 then 0 else AllowToCharge (Io d)) /\
  Alarms d3 LowChargeTemperature
  = (if Qltb t 0 then 1 else Alarms d LowChargeTemperature) /\
  Alarms d3 HighChargeTemperature
  = (if Qltb t 0 then Alarms d HighChargeTemperature
     else if (Qle_bool 0 t && Qltb t 5)%bool
          then Alarms d HighChargeTemperature
     else if Qgtb t 45 then 1 else Alarms d HighChargeTemperature).
Proof.
  intros S T.
  unfold temperature_clamp, adjust_charge_current, adjust_charge_voltage.
  rewrite S. destruct (soc <? 95); simpl; rewrite S; simpl; rewrite T;
    repeat break_match; simpl; repeat split; reflexivity.
Qed.

(** The discharge stage. *)
Lemma discharge_policy_frame (d : telemetry) :
  let d4 := discharge_policy d in
  Soc d4 = Soc d /\ Dc d4 = Dc d /\
  MaxChargeCurrent (Info d4) = MaxChargeCurrent (Info d) /\
  AllowToCharge (Io d4) = AllowToCharge (Io d) /\
  Balances d4 = Balances d /\
  (forall a, a <> LowSoc -> Alarms d4 a = Alarms d a).
Proof.
  unfold discharge_policy.
  repeat break_match; simpl; repeat split; auto;
    intros a N; unfold raise_alarm, set_alarm; simpl;
    destruct (alarm_name_eq_dec LowSoc a); congruence.
Qed.

Lemma discharge_policy_effect (d : telemetry) (soc : Z) :
  Soc d = Some soc ->
  let d4 := discharge_policy d in
  MaxDischargeCurrent (Info d4)
  = (if soc <? 5 then 0%Q
     else if soc <? 10 then Qmin (MaxDischargeCurrent (Info d)) 10.0
     else MaxDischargeCurrent (Info d)) /\
  AllowToDischarge (Io d4)
  = (if soc <? 5 then 0 else AllowToDischarge (Io d)) /\
  (soc < 10 -> Alarms d4 LowSoc = 1).
Proof.
  intros S. unfold discharge_policy. rewrite S.
  destruct (soc <? 5) eqn:E5; [|destruct (soc <? 10) eqn:E10];
    simpl; repeat split; try reflexivity.
  intro L. apply Z.ltb_ge in E5, E10. lia.
Qed.

(** The record before the [bat] request, seen from the decoded fields. *)
Lemma pwr_policy_frame (g : globals) (s : pwr_state) :
  let d := data s in
  let d3 := temperature_clamp
              (adjust_charge_current g (adjust_charge_voltage d)) in
  let d4 := discharge_policy d3 in
  let r := pwr_policy g s in
  Info r = Info d4 /\ Io r = Io d4 /\ Soc r = Soc d /\
  Balances r = Balances d /\
  (forall a, Alarms d4 a = 1 -> Alarms r a = 1) /\
  (forall a, a <> CellImbalance -> ~ In a power_event_alarms ->
             Alarms r a = Alarms d4 a).
Proof.
  cbv zeta. unfold pwr_policy.
  set (d3 := temperature_clamp _).
  set (d4 := discharge_policy d3).
  set (d7 := derive_time_to_go _).
  destruct (register_alarms_frame (bat_events s) (power_events s)
              (sys_events s) d7) as (A & B & D & _ & E & _).
  destruct (derive_frame d4) as (A' & B' & D' & E' & _ & F' & _).
  fold d7 in A', B', D', E', F'.
  destruct (discharge_policy_frame d3) as (S4 & _ & _ & _ & B4 & _).
  destruct (charge_stages_frame g (data s)) as (S3 & _ & _ & _ & B3 & _).
  fold d3 in S3, B3. fold d4 in S4, B4.
  rewrite A, B, D, E, B', D', E', F', S4, S3, B4, B3.
  repeat split; auto.
  - intros a H. apply register_alarms_monotone. now rewrite A'.
  - intros a N1 N2. rewrite register_alarms_untouched by assumption.
    now rewrite A'.
Qed.

(** The record with and without the [bat] phase. *)
Lemma unit_record_frame (g : globals) (pl : list string)
    (bl : option (list string)) :
  let d := unit_record g pl None in
  let r := unit_record g pl bl in
  Info r = Info d /\ Soc r = Soc d /\ Dc r = Dc d /\
  (AllowToCharge (Io d) = 0 -> AllowToCharge (Io r) = 0) /\
  (AllowToDischarge (Io d) = 0 -> AllowToDischarge (Io r) = 0) /\
  (forall a, Alarms d a = 1 -> Alarms r a = 1) /\
  (forall a, ~ In a cell_alarms -> Alarms r a = Alarms d a).
Proof.
  destruct bl as [lines|]; simpl.
  - apply bat_policy_frame.
  - repeat split; auto.
Qed.

End Limits.

(** * The claims *)

Section UnitClaims.

Context {conv : PyConv}.

(** C1 (as the code has it).  When a parsed cell of the [bat] response is
    above 3.65 V, the record has [Io.AllowToCharge = 0] and
    [Alarms.HighVoltage = 1]; [Info.MaxChargeCurrent] is not written by
    the cell-voltage clamp and keeps the value the [pwr] phase gave it. *)
Theorem cell_overvoltage_blocks_charging (g : globals)
    (pl lines : list string) (c : Z * Q) :
  In c (parsed_voltages lines) -> (3.65 < snd c)%Q ->
  let r := unit_record g pl (Some lines) in
  AllowToCharge (Io r) = 0 /\
  Alarms r HighVoltage = 1 /\
  MaxChargeCurrent (Info r)
  = MaxChargeCurrent (Info (unit_record g pl None)).
Proof.
  intros I H.
  destruct (parsed_voltages lines) as [|v0 vs] eqn:P; [contradiction|].
  destruct (max_by_snd_greatest vs v0) as [_ G].
  assert (M : Qgtb (snd (max_by_snd v0 vs)) 3.65 = true).
  { apply Qgtb_gt. eapply Qlt_le_trans; [exact H|]. now apply G. }
  unfold unit_record.
  destruct (bat_policy_cells (pwr_policy g (decode_pwr g pl)) lines v0 vs P)
    as (A & _ & _ & B & _ & _ & HV & _).
  cbv zeta. rewrite A, B, M. repeat split. now apply HV.
Qed.

(** C2 (as the code has it).  With Soc and Dc.Temperature decoded, the
    base limit is 7.0 A above 90 % and otherwise 0.8 times the learned
    MaxChargeCurrent rounded to one decimal; below 0 degrees the record has
    MaxChargeCurrent 0, AllowToCharge 0 and LowChargeTemperature 1; from
    0 to below 5 degrees MaxChargeCurrent is min(base, 10); above 45
    degrees it is min(base, 10) with HighChargeTemperature 1; from 5 to 45
    degrees (20 degrees for one) MaxChargeCurrent is the base and neither
    temperature alarm is set. *)
Theorem charge_current_policy (g : globals) (pl : list string)
    (bl : option (list string)) (soc : Z) (t : Q) :
  let d0 := data (decode_pwr g pl) in
  Soc d0 = Some soc -> Temperature (Dc d0) = Some t ->
  let r := unit_record g pl bl in
  let base := if soc >? 90 then 7.0%Q
              else py_round 1 (learned_MaxChargeCurrent g * 0.8) in
  ((t < 0)%Q ->
     MaxChargeCurrent (Info r) = 0%Q /\ AllowToCharge (Io r) = 0 /\
     Alarms r LowChargeTemperature = 1) /\
  ((0 <= t)%Q /\ (t < 5)%Q ->
     MaxChargeCurrent (Info r) = Qmin base 10.0) /\
  ((45 < t)%Q ->
     MaxChargeCurrent (Info r) = Qmin base 10.0 /\
     Alarms r HighChargeTemperature = 1) /\
  ((5 <= t)%Q /\ (t <= 45)%Q ->
     MaxChargeCurrent (Info r) = base /\
     Alarms r LowChargeTemperature = 0 /\
     Alarms r HighChargeTemperature = 0).
Proof.
  intros d0 S T r base.
  destruct (unit_record_frame g pl bl) as (RI & _ & _ & RC & _ & RM & RK).
  fold r in RI, RC, RM, RK.
  destruct (pwr_policy_frame g (decode_pwr g pl))
    as (PI & PO & _ & _ & PM & PK).
  fold d0 in PI, PO, PM, PK.
  change (pwr_policy g (decode_pwr g pl)) with (unit_record g pl None)
    in PI, PO, PM, PK.
  set (d3 := temperature_clamp
               (adjust_charge_current g (adjust_charge_voltage d0))) in *.
  destruct (discharge_policy_frame d3) as (_ & _ & DC & DA & _ & DK).
  destruct (charge_stages_effect g d0 soc t S T) as (EC & EA & EL & EH).
  fold d3 in EC, EA, EL, EH.
  change (base_charge_current g soc) with base in EC.
  destruct (decode_pwr_frame g pl) as (A0 & _).
  fold d0 in A0.
  assert (KL : Alarms r LowChargeTemperature = Alarms d3 LowChargeTemperature).
  { rewrite RK by (simpl; intuition discriminate).
    rewrite PK by (simpl; intuition discriminate).
    apply DK. discriminate. }
  assert (KH : Alarms r HighChargeTemperature
               = Alarms d3 HighChargeTemperature).
  { rewrite RK by (simpl; intuition discriminate).
    rewrite PK by (simpl; intuition discriminate).
    apply DK. discriminate. }
  assert (KC : MaxChargeCurrent (Info r) = MaxChargeCurrent (Info d3)).
  { now rewrite RI, PI, DC. }
  rewrite KC, KL, KH, EC, EL, EH, A0. unfold initial_alarms.
  split; [intro H|split; [intros [L U]|split; [intro H|intros [L U]]]].
  - rewrite (Qltb_true t 0) by assumption. repeat split.
    apply RC. rewrite PO, DA, EA.
    rewrite (Qltb_true t 0) by assumption. reflexivity.
  - rewrite (Qltb_false t 0), (Qle_bool_true 0 t), (Qltb_true t 5)
      by assumption.
    reflexivity.
  - rewrite (Qltb_false t 0), (Qltb_false t 5), (Qgtb_true t 45) by lra.
    rewrite andb_false_r. split; reflexivity.
  - rewrite (Qltb_false t 0), (Qltb_false t 5), (Qgtb_false t 45) by lra.
    rewrite andb_false_r. repeat split.
Qed.

(** C3.  With Soc decoded: below 5 % the record has MaxDischargeCurrent 0,
    AllowToDischarge 0 and LowSoc 1; from 5 % to below 10 % it has
    MaxDischargeCurrent min(limit, 10) and LowSoc 1, the limit being the
    learned MaxDischargeCurrent.  And when a parsed cell is below 2.5 V the
    record has AllowToDischarge 0 and LowCellVoltage 1. *)
Theorem discharge_current_policy (g : globals) (pl : list string)
    (bl : option (list string)) :
  let d0 := data (decode_pwr g pl) in
  let r := unit_record g pl bl in
  (forall soc, Soc d0 = Some soc ->
     (soc < 5 ->
        MaxDischargeCurrent (Info r) = 0%Q /\
        AllowToDischarge (Io r) = 0 /\ Alarms r LowSoc = 1) /\
     (5 <= soc < 10 ->
        MaxDischargeCurrent (Info r)
        = Qmin (learned_MaxDischargeCurrent g) 10.0 /\
        Alarms r LowSoc = 1)) /\
  (forall lines c, bl = Some lines ->
     In c (parsed_voltages lines) -> (snd c < 2.5)%Q ->
     AllowToDischarge (Io r) = 0 /\ Alarms r LowCellVoltage = 1).
Proof.
  intros d0 r. split.
  - intros soc S.
    destruct (unit_record_frame g pl bl) as (RI & _ & _ & _ & RD & RM & _).
    fold r in RI, RD, RM.
    destruct (pwr_policy_frame g (decode_pwr g pl))
      as (PI & PO & _ & _ & PM & _).
    fold d0 in PI, PO, PM.
    change (pwr_policy g (decode_pwr g pl)) with (unit_record g pl None)
      in PI, PO, PM.
    set (d3 := temperature_clamp
                 (adjust_charge_current g (adjust_charge_voltage d0))) in *.
    destruct (charge_stages_frame g d0) as (S3 & _ & M3 & _).
    fold d3 in S3, M3. rewrite S in S3.
    destruct (discharge_policy_effect d3 soc S3) as (EM & EA & EL).
    destruct (decode_pwr_frame g pl) as (_ & I0 & _).
    fold d0 in I0. rewrite I0 in M3. simpl in M3. rewrite M3 in EM.
    rewrite RI, PI, EM.
    split; intro H.
    + assert (E : (soc <? 5) = true) by (apply Z.ltb_lt; lia).
      rewrite E. repeat split.
      * apply RD. rewrite PO, EA, E. reflexivity.
      * apply RM, PM, EL. lia.
    + assert (E : (soc <? 5) = false) by (apply Z.ltb_ge; lia).
      assert (E' : (soc <? 10) = true) by (apply Z.ltb_lt; lia).
      rewrite E, E'. split; [reflexivity|].
      apply RM, PM, EL. lia.
  - intros lines c B I H. subst bl.
    destruct (parsed_voltages lines) as [|v0 vs] eqn:P; [contradiction|].
    destruct (min_by_snd_least vs v0) as [_ G].
    assert (M : Qltb (snd (min_by_snd v0 vs)) 2.5 = true).
    { apply Qltb_lt. eapply Qle_lt_trans; [|exact H]. now apply G. }
    unfold r, unit_record.
    destruct (bat_policy_cells (pwr_policy g (decode_pwr g pl)) lines
                v0 vs P) as (_ & _ & _ & _ & A & _ & _ & LV & _).
    cbv zeta. rewrite A, M. split; [reflexivity|now apply LV].
Qed.


End UnitClaims.

(** ** The unit claims on sample responses *)

Lemma cell_overvoltage_blocks_charging_witness :
  let c := (2, (3700 # 1000)%Q) in
  let r := unit_record sample_globals healthy_lines (Some overvoltage_rows) in
  In c (parsed_voltages overvoltage_rows) /\ (3.65 < snd c)%Q /\
  AllowToCharge (Io r) = 0 /\
  Alarms r HighVoltage = 1 /\
  MaxChargeCurrent (Info r)
  = MaxChargeCurrent (Info (unit_record sample_globals healthy_lines None)).
Proof.
  assert (I : In (2, (3700 # 1000)%Q) (parsed_voltages overvoltage_rows))
    by (vm_compute; right; left; reflexivity).
  assert (H : (3.65 < snd (2, (3700 # 1000)%Q))%Q) by reflexivity.
  split; [exact I|split; [exact H|]].
  exact (cell_overvoltage_blocks_charging sample_globals healthy_lines
           overvoltage_rows _ I H).
Defined.

(** C1 as stated fails: a unit at 50 % with a cell at 3.7 V is polled;
    its record blocks charging and still carries MaxChargeCurrent 40 A. *)
Lemma cell_overvoltage_keeps_charge_current :
  exists r,
    fst (parse_battery_data sample_globals overvoltage_unit 1 start_state)
    = Some r /\
    MaxCellVoltage (System r) = Some 3.7%Q /\ (3.65 < 3.7)%Q /\
    AllowToCharge (Io r) = 0 /\
    MaxChargeCurrent (Info r) = 40%Q /\
    ~ (MaxChargeCurrent (Info r) == 0)%Q.
Proof.
  eexists. split; [vm_compute; reflexivity|].
  repeat split; try reflexivity. vm_compute. discriminate.
Qed.

Lemma charge_current_policy_witness :
  let d0 := data (decode_pwr sample_globals healthy_lines) in
  let r := unit_record sample_globals healthy_lines (Some overvoltage_rows) in
  Soc d0 = Some 50 /\ Temperature (Dc d0) = Some 20%Q /\
  MaxChargeCurrent (Info r) = 40%Q /\
  Alarms r LowChargeTemperature = 0 /\
  Alarms r HighChargeTemperature = 0.
Proof.
  assert (S : Soc (data (decode_pwr sample_globals healthy_lines)) = Some 50)
    by (vm_compute; reflexivity).
  assert (T : Temperature (Dc (data (decode_pwr sample_globals healthy_lines)))
              = Some 20%Q) by (vm_compute; reflexivity).
  split; [exact S|split; [exact T|]].
  destruct (charge_current_policy sample_globals healthy_lines
              (Some overvoltage_rows) 50 20 S T) as (_ & _ & _ & H).
  apply H. split; unfold Qle; simpl; lia.
Defined.

(** C2 as stated fails: with a learned limit of 10.26 A, Soc 50 % and
    20 degrees the record carries 8.2 A, not 0.8 x 10.26 = 8.208 A. *)
Lemma charge_base_is_rounded :
  exists r,
    fst (parse_battery_data derated_globals level_unit 1 start_state)
    = Some r /\
    Soc r = Some 50 /\ Temperature (Dc r) = Some 20%Q /\
    learned_MaxChargeCurrent derated_globals = 10.26%Q /\
    (MaxChargeCurrent (Info r) == 8.2)%Q /\
    ~ (MaxChargeCurrent (Info r) == 0.8 * 10.26)%Q.
Proof.
  eexists. split; [vm_compute; reflexivity|].
  repeat split; try reflexivity. vm_compute. discriminate.
Qed.

Lemma discharge_current_policy_witness :
  let d0 := data (decode_pwr sample_globals depleted_lines) in
  let r := unit_record sample_globals depleted_lines (Some depleted_rows) in
  let c := (1, (2400 # 1000)%Q) in
  Soc d0 = Some 3 /\
  In c (parsed_voltages depleted_rows) /\ (snd c < 2.5)%Q /\
  MaxDischargeCurrent (Info r) = 0%Q /\
  AllowToDischarge (Io r) = 0 /\ Alarms r LowSoc = 1 /\
  Alarms r LowCellVoltage = 1.
Proof.
  assert (S : Soc (data (decode_pwr sample_globals depleted_lines)) = Some 3)
    by (vm_compute; reflexivity).
  assert (I : In (1, (2400 # 1000)%Q) (parsed_voltages depleted_rows))
    by (vm_compute; left; reflexivity).
  assert (H : (snd (1, (2400 # 1000)%Q) < 2.5)%Q) by reflexivity.
  destruct (discharge_current_policy sample_globals depleted_lines
              (Some depleted_rows)) as [A B].
  destruct (A 3 S) as [A5 _].
  destruct (A5 ltac:(lia)) as (M & D & L).
  destruct (B depleted_rows _ eq_refl I H) as [_ LV].
  exact (conj S (conj I (conj H (conj M (conj D (conj L LV)))))).
Defined.


(** The flags cleared when balancing does not fire are those of Cell1 ..
    CellN with N the number of rows that parsed: here the row of cell 1
    does not parse, [Voltages] holds Cell2 and [Balances] holds Cell1. *)
Example cleared_flags_follow_the_row_count :
  let r := unit_record sample_globals healthy_lines (Some damaged_rows) in
  map fst (Voltages r) = [2] /\ Balances r = [(1, 0)].
Proof. vm_compute. split; reflexivity. Qed.

(** The record published for an address that gave no data. *)
Example offline_synthesis :
  let d := offline_data sample_globals in
  AllowToCharge (Io d) = 0 /\ AllowToDischarge (Io d) = 0 /\
  NrOfModulesOffline (System d) = 1 /\ Alarms d LowSoc = 1.
Proof. repeat split. Qed.

(** The round trip of the specification's example lines. *)
Example decode_round_trip :
  let r := unit_record sample_globals
             ["Voltage:51200 mV"; "Current:-5000 mA"; "Coulomb:80 %"]%string
             None in
  Voltage (Dc r) = Some (256 # 5)%Q /\ (256 # 5 == 51.2)%Q /\
  Current (Dc r) = Some (-5)%Q /\ Power (Dc r) = Some (-256)%Q /\
  Soc r = Some 80.
Proof. vm_compute. repeat split; reflexivity. Qed.

(** ** Registers *)

(** C7 (as the code has it).  A register value is looked up as a whole
    in its table, so a value with more than one bit set changes nothing.
    A matched warning value of [Bat Events] sets [CellImbalance]; a
    matched value of [Power Events] sets only fields of
    [power_event_alarms]; a matched value of [System Fault] writes only
    [FuseBlown], as the maximum of its old value and the severity. *)
Theorem register_alarm_mapping (bat pw sys : Z) (d : telemetry) :
  (multi_bit bat -> bat_events_alarm bat d = d) /\
  (multi_bit pw -> power_events_alarm pw d = d) /\
  (multi_bit sys -> sys_events_alarm sys d = d) /\
  (forall a, a <> CellImbalance ->
             Alarms (bat_events_alarm bat d) a = Alarms d a) /\
  (bat <> 0 -> dict_get bat power_events_list = Some warning_class ->
   Alarms (bat_events_alarm bat d) CellImbalance = 1) /\
  (forall a, ~ In a power_event_alarms ->
             Alarms (power_events_alarm pw d) a = Alarms d a) /\
  (forall a, a <> FuseBlown ->
             Alarms (sys_events_alarm sys d) a = Alarms d a) /\
  (forall e, sys <> 0 -> dict_get sys sys_events_list = Some e ->
   Alarms (sys_events_alarm sys d) FuseBlown
   = Z.max (Alarms d FuseBlown) (severity_of e)) /\
  (forall a, a <> CellImbalance -> ~ In a power_event_alarms ->
             Alarms (register_alarms bat pw sys d) a = Alarms d a).
Proof.
  repeat split.
  - intro M. unfold bat_events_alarm.
    rewrite (multi_bit_unknown _ _ power_events_keys M).
    now destruct (negb (bat =? 0)).
  - intro M. unfold power_events_alarm.
    rewrite (multi_bit_unknown _ _ power_events_keys M).
    now destruct (negb (pw =? 0)).
  - intro M. unfold sys_events_alarm.
    rewrite (multi_bit_unknown _ _ sys_events_keys M).
    now destruct (negb (sys =? 0)).
  - intros a N.
    destruct (bat_events_alarm_cases bat d) as [E|E]; rewrite E;
      [reflexivity|]. apply alarm_kept. congruence.
  - intros N E. unfold bat_events_alarm. rewrite E.
    apply Z.eqb_neq in N. rewrite N. simpl. apply alarm_raised.
  - intros a N.
    destruct (power_events_alarm_cases pw d) as [E|[x [I E]]]; rewrite E;
      [reflexivity|]. apply alarm_kept. intro X. subst x. contradiction.
  - intros a N.
    destruct (sys_events_alarm_cases sys d) as [E|E]; rewrite E;
      [reflexivity|]. apply alarm_kept. congruence.
  - intros e N E. unfold sys_events_alarm. rewrite E.
    assert (N' := N). apply Z.eqb_neq in N'. rewrite N'.
    simpl negb. cbv iota. clear N'.
    apply dict_get_In in E. simpl in E.
    repeat (destruct E as [E|E];
            [injection E as E1 E2; subst sys e;
             first [congruence
                   | simpl (Zmem _ _); cbv iota; apply alarm_raised]|]).
    contradiction.
  - intros a N1 N2. now apply register_alarms_untouched.
Qed.

Lemma register_alarm_mapping_witness :
  multi_bit 3 /\
  power_events_alarm 3 (initial_data sample_globals)
  = initial_data sample_globals.
Proof.
  assert (M : multi_bit 3).
  { exists 0, 1. repeat split. discriminate. }
  split; [exact M|].
  exact (proj1 (proj2 (register_alarm_mapping 3 3 3
                         (initial_data sample_globals))) M).
Defined.

(** C7 as stated fails: [Bat Events = 0x1] is a matched warning value and
    the record gets [CellImbalance], which is not among the nine listed
    fields; the cells of this unit are within 20 mV of each other. *)
Lemma bat_events_raise_cell_imbalance :
  exists r,
    fst (parse_battery_data sample_globals flagged_unit 1 start_state)
    = Some r /\
    dict_get 1 power_events_list = Some warning_class /\
    ~ In CellImbalance power_event_alarms /\
    Alarms r CellImbalance = 1 /\
    Alarms (initial_data sample_globals) CellImbalance = 0.
Proof.
  eexists. split; [vm_compute; reflexivity|].
  repeat split; try reflexivity.
  simpl. intuition discriminate.
Qed.

(** ** Serial reader *)

Lemma read_loop_passes (stop : string) (pre rest : list tick)
    (s s' : read_state) :
  passes stop s pre = Some s' ->
  read_loop stop s (pre ++ rest) = read_loop stop s' rest.
Proof.
  revert s. induction pre as [|t pre IH]; intros s H; simpl in *.
  - now injection H as ->.
  - destruct (read_pass stop s t) as [s1|r]; [|discriminate].
    now apply IH.
Qed.

Lemma read_loop_end (stop : string) (pre : list tick) (s s' : read_state) :
  passes stop s pre = Some s' ->
  read_loop stop s pre = (TimedOut, line_str_array s').
Proof.
  intro H. rewrite <- (app_nil_r pre).
  now rewrite (read_loop_passes stop pre [] s s' H).
Qed.

(** C6.  Let the loop have run through [pre] without returning, with
    variables [s], and let [t] be the next pass.  If [t] completes a line
    that contains the stop marker once the start condition holds, the
    read returns at once the lines collected, that line included, and
    resets the failure counter.  If the deadline has passed (at [t], or
    because the script ends), it returns the lines collected so far and
    counts one failure.  If the port raises, it returns the empty list and
    counts one failure. *)
Theorem serial_read_returns (pre : list tick) (t : tick) (rest : list tick)
    (start0 stop : string) (st : process_state) (s : read_state) :
  passes stop (mk_read start0 EmptyString []) pre = Some s ->
  let line := (line_str s ++ String newline EmptyString)%string in
  let start' := start_after (start s) line in
  (port t = Byte newline -> String.eqb start' "true" = true ->
   contains stop line = true ->
   serial_read (pre ++ t :: rest) start0 stop st
   = (line_str_array s ++ [line], success st)) /\
  serial_read pre start0 stop st = (line_str_array s, failure st) /\
  (deadline_passed t = true ->
   port t = Idle \/ (exists b, port t = Byte b /\ b <> newline) ->
   serial_read (pre ++ t :: rest) start0 stop st
   = (line_str_array s, failure st)) /\
  (deadline_passed t = true -> port t = Byte newline ->
   (String.eqb start' "true" && contains stop line)%bool = false ->
   serial_read (pre ++ t :: rest) start0 stop st
   = (if String.eqb start' "true" then line_str_array s ++ [line]
      else line_str_array s, failure st)) /\
  (port t = PortError ->
   serial_read (pre ++ t :: rest) start0 stop st = ([], failure st)).
Proof.
  intros P line start'. unfold serial_read.
  rewrite (read_loop_end stop pre _ s P).
  rewrite (read_loop_passes stop pre (t :: rest) _ s P).
  simpl read_loop. unfold read_pass.
  repeat split.
  - intros B S C. rewrite B. cbv zeta. fold line. fold start'.
    rewrite Ascii.eqb_refl, S, C. reflexivity.
  - intros D [I|[b [B N]]].
    + rewrite I, D. reflexivity.
    + rewrite B, D. apply Ascii.eqb_neq in N. cbv zeta. rewrite N.
      reflexivity.
  - intros D B N. rewrite B. cbv zeta. fold line. fold start'.
    rewrite Ascii.eqb_refl, N, D.
    destruct (String.eqb start' "true"); reflexivity.
  - intros E. rewrite E. reflexivity.
Qed.

Lemma serial_read_returns_witness :
  passes "ok" (mk_read "none" EmptyString []) ok_prefix
  = Some (mk_read "none" "ok" []) /\
  serial_read (ok_prefix ++ newline_tick :: []) "none" "ok" start_state
  = ([("ok" ++ String newline EmptyString)%string], start_state).
Proof.
  assert (P : passes "ok" (mk_read "none" EmptyString []) ok_prefix
              = Some (mk_read "none" "ok" [])) by reflexivity.
  split; [exact P|].
  exact (proj1 (serial_read_returns ok_prefix newline_tick [] "none" "ok"
                  start_state _ P) eq_refl eq_refl eq_refl).
Defined.

(** ** The reader on whole lines *)

Lemma append_assoc (a b c : string) :
  ((a ++ b) ++ c)%string = (a ++ (b ++ c))%string.
Proof. induction a as [|x a IH]; simpl; [reflexivity|now rewrite IH]. Qed.

Lemma script_of_app (a b : string) :
  script_of (a ++ b) = script_of a ++ script_of b.
Proof. induction a as [|x a IH]; simpl; [reflexivity|now rewrite IH]. Qed.

(** The bytes of a line before its newline only grow [line_str]. *)
Lemma read_loop_line (stop : string) (l : string) (st cur : string)
    (acc : list string) (rest : list tick) :
  no_newline l = true ->
  read_loop stop (mk_read st cur acc) (script_of l ++ rest)
  = read_loop stop (mk_read st (cur ++ l) acc) rest.
Proof.
  revert cur. induction l as [|b l IH]; intros cur N; simpl in *.
  - replace (cur ++ "")%string with cur; [reflexivity|].
    clear. induction cur; simpl; congruence.
  - apply andb_true_iff in N. destruct N as [B N].
    apply negb_true_iff in B.
    unfold read_pass. simpl. rewrite B.
    rewrite IH by assumption.
    now rewrite append_assoc.
Qed.

Lemma read_pass_newline (stop : string) (s : read_state) :
  read_pass stop s (mk_tick (Byte newline) false)
  = let line := terminated (line_str s) in
    let start' := start_after (start s) line in
    let collected :=
      if String.eqb start' "true"
      then line_str_array s ++ [line] else line_str_array s in
    if (String.eqb start' "true" && contains stop line)%bool
    then inr (Completed, collected)
    else inl (mk_read start' EmptyString collected).
Proof.
  unfold read_pass. cbn [port deadline_passed].
  rewrite Ascii.eqb_refl. reflexivity.
Qed.

Lemma text_of_cons (l : string) (lines : list string) :
  script_of (text_of (l :: lines))
  = script_of l ++ mk_tick (Byte newline) false :: script_of (text_of lines).
Proof.
  cbn [text_of fold_right]. rewrite script_of_app. reflexivity.
Qed.

Lemma read_loop_collecting (stop : string) (lines : list string)
    (acc : list string) :
  forallb no_newline lines = true ->
  read_loop stop (mk_read "true" EmptyString acc)
    (script_of (text_of lines))
  = (fst (spec_collect stop (map terminated lines)),
     acc ++ snd (spec_collect stop (map terminated lines))).
Proof.
  revert acc. induction lines as [|l lines IH]; intros acc N.
  - simpl. now rewrite app_nil_r.
  - cbn [forallb] in N. apply andb_true_iff in N. destruct N as [Nl N].
    rewrite text_of_cons, read_loop_line by assumption.
    cbn [read_loop]. rewrite read_pass_newline.
    cbn [line_str start line_str_array append].
    assert (S : start_after "true" (terminated l) = "true"%string).
    { unfold start_after. now destruct (_ || _)%bool. }
    cbv zeta. rewrite S. rewrite String.eqb_refl. cbn [andb].
    cbn [map spec_collect].
    destruct (contains stop (terminated l)).
    + reflexivity.
    + rewrite IH by assumption.
      destruct (spec_collect stop (map terminated lines)) as [e ls].
      cbn [fst snd]. now rewrite <- app_assoc.
Qed.

Lemma read_loop_awaiting (start0 stop : string) (lines : list string) :
  String.eqb start0 "true" = false ->
  forallb no_newline lines = true ->
  read_loop stop (mk_read start0 EmptyString []) (script_of (text_of lines))
  = spec_await start0 stop (map terminated lines).
Proof.
  intros T. induction lines as [|l lines IH]; intros N.
  - reflexivity.
  - cbn [forallb] in N. apply andb_true_iff in N. destruct N as [Nl N].
    rewrite text_of_cons, read_loop_line by assumption.
    cbn [read_loop]. rewrite read_pass_newline.
    cbn [line_str start line_str_array append].
    cbv zeta. unfold start_after.
    cbn [map spec_await spec_collect].
    destruct (String.eqb start0 "none" || contains start0 (terminated l))%bool.
    + rewrite String.eqb_refl. cbn [andb app].
      destruct (contains stop (terminated l)); [reflexivity|].
      rewrite read_loop_collecting by assumption.
      destruct (spec_collect stop (map terminated lines)); reflexivity.
    + rewrite T. cbn [andb]. now apply IH.
Qed.

Lemma spec_collect_ending (stop : string) (lines : list string) :
  fst (spec_collect stop lines) <> Failed.
Proof.
  induction lines as [|l lines IH]; simpl; [discriminate|].
  destruct (contains stop l); [discriminate|].
  now destruct (spec_collect stop lines).
Qed.

Lemma spec_await_ending (start0 stop : string) (lines : list string) :
  fst (spec_await start0 stop lines) <> Failed.
Proof.
  induction lines as [|l lines IH]; [discriminate|].
  cbn [spec_await].
  destruct (_ || _)%bool; [apply spec_collect_ending|exact IH].
Qed.

(** On a response that arrives in time as whole lines, the loop returns
    what the description of [read_until] says, and the counter follows
    the ending. *)
Lemma serial_read_on_lines (start0 stop : string) (lines : list string)
    (st : process_state) :
  forallb no_newline lines = true ->
  let r := spec_read_until start0 stop (map terminated lines) in
  serial_read (script_of (text_of lines)) start0 stop st
  = (snd r, match fst r with Completed => success st | _ => failure st end).
Proof.
  intro N. unfold serial_read, spec_read_until.
  destruct (String.eqb start0 "true") eqn:T.
  - apply String.eqb_eq in T. subst start0.
    rewrite read_loop_collecting by assumption.
    assert (E := spec_collect_ending stop (map terminated lines)).
    destruct (spec_collect stop (map terminated lines)) as [[| |] ls];
      simpl in *; congruence.
  - rewrite read_loop_awaiting by assumption.
    assert (E := spec_await_ending start0 stop (map terminated lines)).
    destruct (spec_await start0 stop (map terminated lines)) as [[| |] ls];
      simpl in *; congruence.
Qed.

(** ** Failure counter *)



Lemma serial_read_counter (script : list tick) (start0 stop : string)
    (st : process_state) :
  consecutive_serial_failures (snd (serial_read script start0 stop st))
  = match read_ending script start0 stop with
    | Completed => O
    | _ => S (consecutive_serial_failures st)
    end.
Proof.
  unfold serial_read, read_ending.
  destruct (read_loop stop _ script) as [[| |] lines]; reflexivity.
Qed.


Section Breaker.

Context {conv : PyConv}.



End Breaker.

Section Tracker.

Context {conv : PyConv}.


(** Inside [parse_battery_data] a read only follows a write that
    succeeded, which has just reset the counter: when the writes go
    through, the counter is at most one afterwards, whatever the reads
    do. *)
Lemma reads_follow_a_reset (g : globals) (u : unit_io) (address : Z)
    (st : process_state) :
  write_attempts (pwr_io u) O = true ->
  write_attempts (bat_io u) O = true ->
  (consecutive_serial_failures (snd (parse_battery_data g u address st))
   <= 1)%nat.
Proof.
  intros W1 W2. unfold parse_battery_data, serial_write. simpl write_loop.
  rewrite W1. simpl negb. cbv iota.
  destruct (serial_read (read_script (pwr_io u)) _ _ (success st))
    as [lines st1] eqn:R1.
  assert (C1 : (consecutive_serial_failures st1 <= 1)%nat).
  { replace st1 with (snd (serial_read (read_script (pwr_io u))
                             (request "pwr" address) "Command completed"
                             (success st))) by now rewrite R1.
    rewrite serial_read_counter. destruct (read_ending _ _ _); simpl; lia. }
  destruct lines as [|l ls]; [exact C1|].
  rewrite W2.
  destruct (serial_read (read_script (bat_io u)) _ _ (success st1))
    as [lines2 st2] eqn:R2.
  simpl snd.
  replace st2 with (snd (serial_read (read_script (bat_io u))
                           "Battery" "Command completed" (success st1)))
    by now rewrite R2.
  rewrite serial_read_counter. destruct (read_ending _ _ _); simpl; lia.
Qed.

End Tracker.


(** ** Aggregation *)

Lemma aggregate_unit_step (c d : telemetry) :
  let c' := aggregate_unit c d in
  (forall a, Alarms c' a = Z.max (Alarms c a) (Alarms d a)) /\
  AllowToCharge (Io c')
  = Z.min (AllowToCharge (Io c)) (AllowToCharge (Io d)) /\
  AllowToDischarge (Io c')
  = Z.min (AllowToDischarge (Io c)) (AllowToDischarge (Io d)) /\
  NrOfModulesOnline (System c') = NrOfModulesOnline (System c) /\
  NrOfModulesOffline (System c') = NrOfModulesOffline (System c).
Proof.
  unfold aggregate_unit.
  destruct (AllowToCharge (Io d) =? 0);
    destruct (AllowToDischarge (Io d) =? 0); simpl; repeat split.
Qed.

Lemma aggregate_units (l : list telemetry) (c : telemetry) :
  let c' := fold_left aggregate_unit l c in
  (forall a, Alarms c' a
             = fold_left Z.max (map (fun d => Alarms d a) l) (Alarms c a)) /\
  AllowToCharge (Io c')
  = fold_left Z.min (map (fun d => AllowToCharge (Io d)) l)
      (AllowToCharge (Io c)) /\
  AllowToDischarge (Io c')
  = fold_left Z.min (map (fun d => AllowToDischarge (Io d)) l)
      (AllowToDischarge (Io c)) /\
  NrOfModulesOnline (System c') = NrOfModulesOnline (System c) /\
  NrOfModulesOffline (System c') = NrOfModulesOffline (System c).
Proof.
  revert c. induction l as [|d l IH]; intro c; simpl.
  - repeat split.
  - destruct (IH (aggregate_unit c d)) as (A & B & D & E & F).
    destruct (aggregate_unit_step c d) as (A' & B' & D' & E' & F').
    cbv zeta in *. rewrite B, D, E, F, B', D', E', F'.
    repeat split. intro a. now rewrite A, A'.
Qed.

Lemma average_cell_keeps (cb : list (Z * list Z)) (bucket : Z * list Q) :
  keeps (fun c => (summary c, Alarms c)) (fun c => average_cell cb c bucket).
Proof.
  intro c. unfold average_cell. now destruct (snd bucket).
Qed.

Lemma average_cells_keep (cb : list (Z * list Z)) (cv : list (Z * list Q)) :
  keeps (fun c => (summary c, Alarms c)) (fold_left (average_cell cb) cv).
Proof.
  induction cv as [|b cv IH]; intro c; simpl; [reflexivity|].
  rewrite IH. apply average_cell_keeps.
Qed.

Lemma when_present_keeps {A B : Type} (P : telemetry -> A) (xs : list B)
    (f : telemetry -> telemetry) :
  keeps P f -> keeps P (when_present xs f).
Proof.
  intros K c. unfold when_present. destruct xs; [reflexivity|apply K].
Qed.

Lemma fleet_metrics_keeps (l : list telemetry) :
  keeps (fun c => (summary c, Alarms c)) (fleet_metrics l).
Proof.
  intro c. unfold fleet_metrics. cbv zeta.
  repeat (rewrite when_present_keeps; [|intro; reflexivity]).
  reflexivity.
Qed.

Lemma derive_time_to_go_keeps :
  keeps (fun c => (summary c, Alarms c)) derive_time_to_go.
Proof.
  intro c. unfold derive_time_to_go.
  destruct (Capacity c); [|reflexivity].
  destruct (Current (Dc c)) as [i|]; [|reflexivity].
  now destruct (Qltb i 0).
Qed.

Lemma fleet_extremes_effect (l : list telemetry) (c : telemetry) :
  let c' := fleet_extremes l c in
  summary c' = summary c /\
  (forall a, a <> CellImbalance -> Alarms c' a = Alarms c a) /\
  Alarms c' CellImbalance
  = (if fleet_imbalance l =? 1 then 1 else Alarms c CellImbalance).
Proof.
  unfold fleet_extremes, fleet_imbalance.
  destruct (flat_map Voltages l) as [|v0 vs]; [repeat split|].
  destruct (Qgtb _ _); simpl; repeat split.
  intros a N. unfold raise_alarm, set_alarm. simpl.
  destruct (alarm_name_eq_dec CellImbalance a); congruence.
Qed.

(** The consolidated record, flag by flag. *)
Lemma consolidated_view_flags (g : globals) (l : list telemetry)
    (c : telemetry) :
  create_consolidated_view g l = Some (Ok c) ->
  (forall a, a <> CellImbalance ->
     Alarms c a = fold_left Z.max (map (fun d => Alarms d a) l) 0) /\
  Alarms c CellImbalance
  = (if fleet_imbalance l =? 1 then 1
     else fold_left Z.max (map (fun d => Alarms d CellImbalance) l) 0) /\
  AllowToCharge (Io c)
  = fold_left Z.min (map (fun d => AllowToCharge (Io d)) l) 1 /\
  AllowToDischarge (Io c)
  = fold_left Z.min (map (fun d => AllowToDischarge (Io d)) l) 1 /\
  NrOfModulesOnline (System c) = Z.of_nat (List.length l) /\
  NrOfModulesOffline (System c)
  = Z.of_nat (List.length (BATTERY_ADDRESSES g)) - Z.of_nat (List.length l).
Proof.
  unfold create_consolidated_view.
  destruct l as [|d0 ds] eqn:L; [discriminate|]. rewrite <- L. clear L d0 ds.
  destruct (collect_cells l _ _) as [[cv cb]|e]; [|discriminate].
  intro H. injection H as <-.
  set (c1 := fold_left aggregate_unit l (initial_consolidated g l)).
  set (c2 := fold_left (average_cell cb) cv c1).
  set (c3 := fleet_extremes l c2).
  set (c4 := fleet_metrics l c3).
  assert (K5 := derive_time_to_go_keeps c4).
  assert (K4 := fleet_metrics_keeps l c3). fold c4 in K4.
  destruct (fleet_extremes_effect l c2) as (S3 & A3 & I3).
  fold c3 in S3, A3, I3.
  assert (K2 := average_cells_keep cb cv c1). fold c2 in K2.
  destruct (aggregate_units l (initial_consolidated g l))
    as (A1 & B1 & D1 & E1 & F1).
  fold c1 in A1, B1, D1, E1, F1.
  cbv beta in K5, K4, K2.
  assert (S5 := f_equal fst K5). assert (A5 := f_equal snd K5).
  assert (S4 := f_equal fst K4). assert (A4 := f_equal snd K4).
  assert (S2 := f_equal fst K2). assert (A2 := f_equal snd K2).
  cbn [fst snd] in S5, A5, S4, A4, S2, A2.
  assert (S : summary (derive_time_to_go c4) = summary c1)
    by congruence.
  assert (A : Alarms (derive_time_to_go c4) = Alarms c3) by congruence.
  unfold summary in S. injection S as S S' S''.
  rewrite A, S, S', S'', B1, D1, E1, F1.
  repeat split.
  - intros a N. now rewrite A3, A2, A1.
  - now rewrite I3, A2, A1.
Qed.

(** ** Flags are 0 or 1 *)




Section Flags.

Context {conv : PyConv}.










(** Lines and write results do not depend on the counters. *)
Lemma serial_read_lines (script : list tick) (start0 stop : string)
    (st st' : process_state) :
  fst (serial_read script start0 stop st)
  = fst (serial_read script start0 stop st').
Proof.
  unfold serial_read.
  destruct (read_loop stop _ script) as [[| |] lines]; reflexivity.
Qed.

Lemma write_loop_result (ok : nat -> bool) (n k : nat)
    (st st' : process_state) :
  fst (write_loop ok k n st) = fst (write_loop ok k n st').
Proof.
  revert k st st'. induction n as [|n IH]; intros k st st'; simpl.
  - reflexivity.
  - destruct (ok k); [reflexivity|apply IH].
Qed.

(** What [parse_battery_data] returns: no record when the [pwr] write
    fails or the [pwr] read returns no line, and otherwise the
    [unit_record] of the lines read. *)
Lemma parse_battery_data_record (g : globals) (u : unit_io) (address : Z)
    (st : process_state) :
  fst (parse_battery_data g u address st)
  = if written (pwr_io u) then
      match received (pwr_io u) (request "pwr" address) with
      | [] => None
      | pl =>
          Some (unit_record g pl
                  (if written (bat_io u)
                   then Some (received (bat_io u) "Battery") else None))
      end
    else None.
Proof.
  assert (WP : forall s, fst (serial_write (write_attempts (pwr_io u)) 2 s)
                         = written (pwr_io u))
    by (intro; apply write_loop_result).
  assert (WB : forall s, fst (serial_write (write_attempts (bat_io u)) 2 s)
                         = written (bat_io u))
    by (intro; apply write_loop_result).
  assert (RP : forall s,
             fst (serial_read (read_script (pwr_io u))
                    (request "pwr" address) "Command completed" s)
             = received (pwr_io u) (request "pwr" address))
    by (intro; apply serial_read_lines).
  assert (RB : forall s,
             fst (serial_read (read_script (bat_io u)) "Battery"
                    "Command completed" s)
             = received (bat_io u) "Battery")
    by (intro; apply serial_read_lines).
  unfold parse_battery_data.
  rewrite <- (WP st).
  destruct (serial_write (write_attempts (pwr_io u)) 2 st) as [w1 st1].
  cbn [fst]. destruct w1; cbn [negb]; [|reflexivity].
  rewrite <- (RP st1).
  destruct (serial_read (read_script (pwr_io u)) _ _ st1) as [lines st2].
  cbn [fst]. destruct lines as [|l ls]; [reflexivity|].
  rewrite <- (WB st2).
  destruct (serial_write (write_attempts (bat_io u)) 2 st2) as [w2 st3].
  cbn [fst]. destruct w2; [|reflexivity].
  rewrite <- (RB st3).
  destruct (serial_read (read_script (bat_io u)) _ _ st3) as [bl st4].
  reflexivity.
Qed.

End Flags.

(** ** The aggregator returns when the cell keys are in range *)

Lemma range1_In (n k : Z) : In k (range1 n) <-> 1 <= k <= n.
Proof.
  unfold range1. rewrite in_map_iff. split.
  - intros [i [E I]]. apply in_seq in I. lia.
  - intro H. exists (Z.to_nat k). split; [lia|]. apply in_seq. lia.
Qed.

Lemma empty_buckets_keys (V : Type) (g : globals) :
  map fst (empty_buckets V g) = range1 (learned_CellCount g).
Proof.
  unfold empty_buckets. rewrite map_map. simpl. apply map_id.
Qed.

Lemma bucket_append_known {V : Type} (k : Z) (v : V)
    (b : list (Z * list V)) :
  In k (map fst b) ->
  exists b', bucket_append k v b = Some b' /\ map fst b' = map fst b.
Proof.
  induction b as [|[k' vs] t IH]; simpl; [contradiction|].
  intro H. destruct (k =? k') eqn:E.
  - eexists. split; reflexivity.
  - destruct IH as [t' [A B]].
    + destruct H as [H|H]; [|exact H].
      apply Z.eqb_neq in E. congruence.
    + rewrite A. eexists. split; [reflexivity|]. simpl. now rewrite B.
Qed.

Lemma bucket_append_unknown {V : Type} (k : Z) (v : V)
    (b : list (Z * list V)) :
  ~ In k (map fst b) -> bucket_append k v b = None.
Proof.
  induction b as [|[k' vs] t IH]; simpl; [reflexivity|].
  intro H. destruct (k =? k') eqn:E.
  - apply Z.eqb_eq in E. exfalso. apply H. now left.
  - rewrite IH; [reflexivity|]. intro I. apply H. now right.
Qed.




Lemma fill_buckets_raises {V : Type} (items : list (Z * V))
    (b : list (Z * list V)) (e : exn) :
  fill_buckets items b = Raise e ->
  exists k, e = KeyError (Cell k) /\ In k (map fst items) /\
            ~ In k (map fst b).
Proof.
  revert b. induction items as [|[k v] t IH]; intros b; simpl.
  - discriminate.
  - destruct (bucket_append k v b) as [b1|] eqn:A.
    + intro H. destruct (IH b1 H) as [k' [E [I N]]].
      exists k'. split; [exact E|split; [now right|]].
      destruct (in_dec Z.eq_dec k (map fst b)) as [K|K].
      * destruct (bucket_append_known k v b K) as [b2 [A2 M]].
        rewrite A in A2. injection A2 as <-. now rewrite <- M.
      * now rewrite (bucket_append_unknown k v b K) in A.
    + intro H. injection H as <-. exists k.
      split; [reflexivity|split; [now left|]].
      intro K. destruct (bucket_append_known k v b K) as [b2 [A2 _]].
      congruence.
Qed.

Lemma fill_buckets_keys {V : Type} (items : list (Z * V))
    (b b' : list (Z * list V)) :
  fill_buckets items b = Ok b' -> map fst b' = map fst b.
Proof.
  revert b. induction items as [|[k v] t IH]; intros b; simpl.
  - intro H. now injection H as <-.
  - destruct (bucket_append k v b) as [b1|] eqn:A; [|discriminate].
    intro H. rewrite (IH b1 H).
    destruct (in_dec Z.eq_dec k (map fst b)) as [K|K].
    + destruct (bucket_append_known k v b K) as [b2 [A2 M]]. congruence.
    + now rewrite (bucket_append_unknown k v b K) in A.
Qed.

(** The aggregator raises only on a cell key outside Cell1 ..
    Cell<CellCount>. *)
Lemma collect_cells_raises (g : globals) (l : list telemetry)
    (cv : list (Z * list Q)) (cb : list (Z * list Z)) (e : exn) :
  map fst cv = range1 (learned_CellCount g) ->
  map fst cb = range1 (learned_CellCount g) ->
  collect_cells l cv cb = Raise e ->
  exists k, e = KeyError (Cell k) /\ ~ (1 <= k <= learned_CellCount g).
Proof.
  revert cv cb. induction l as [|d l IH]; intros cv cb V B; simpl.
  - discriminate.
  - destruct (fill_buckets (Voltages d) cv) as [cv'|e1] eqn:F1.
    + destruct (fill_buckets (Balances d) cb) as [cb'|e2] eqn:F2.
      * apply IH.
        -- now rewrite (fill_buckets_keys _ _ _ F1).
        -- now rewrite (fill_buckets_keys _ _ _ F2).
      * intro H. injection H as <-.
        destruct (fill_buckets_raises _ _ _ F2) as [k [E [_ N]]].
        exists k. split; [exact E|]. rewrite B in N.
        now rewrite <- range1_In.
    + intro H. injection H as <-.
      destruct (fill_buckets_raises _ _ _ F1) as [k [E [_ N]]].
      exists k. split; [exact E|]. rewrite V in N.
      now rewrite <- range1_In.
Qed.

(** ** The polling cycle *)

Section CycleFacts.

Context {conv : PyConv}.

Lemma poll_units_length (g : globals) (env : cycle_env)
    (addresses : list Z) (k : nat) (st st' : process_state)
    (acc l : list telemetry) (log log' : list (topic * telemetry)) :
  poll_units g env k addresses st acc log = Some (st', l, log') ->
  List.length l = (List.length acc + List.length addresses)%nat.
Proof.
  revert k st acc log.
  induction addresses as [|a rest IH]; intros k st acc log; simpl.
  - intro H. injection H as _ <- _. lia.
  - destruct (interrupted env k); [discriminate|].
    destruct (parse_battery_data g (bus env k) a st) as [r st1].
    intro H. apply IH in H. rewrite H, length_app. simpl. lia.
Qed.

(** C10.  In the consolidated record a cycle produces,
    [NrOfModulesOnline] is the number of configured addresses and
    [NrOfModulesOffline] is 0, whichever units answered: the list handed
    to the aggregator holds one record per address, a synthetic offline
    record standing in for each unit that gave none. *)
Theorem consolidated_module_counts (g : globals) (env : cycle_env)
    (st st' : process_state) (l : list telemetry) (c : telemetry)
    (log : list (topic * telemetry)) :
  polling_cycle g env st = CycleDone st' l (Some c) log ->
  List.length l = List.length (BATTERY_ADDRESSES g) /\
  NrOfModulesOnline (System c)
  = Z.of_nat (List.length (BATTERY_ADDRESSES g)) /\
  NrOfModulesOffline (System c) = 0.
Proof.
  unfold polling_cycle.
  destruct (MAX_CONSECUTIVE_FAILURES <=? _)%nat; [discriminate|].
  destruct (poll_units g env 0 (BATTERY_ADDRESSES g) (count_loop st) [] [])
    as [[[st1 l1] log1]|] eqn:P; [|discriminate].
  apply poll_units_length in P. simpl in P.
  destruct (MQTT_ACTIVE g); [|discriminate].
  destruct (create_consolidated_view g l1) as [[c1|e]|] eqn:V;
    try discriminate.
  intro H. injection H as _ <- <- _.
  destruct (consolidated_view_flags g l1 c1 V) as (_ & _ & _ & _ & A & B).
  rewrite A, B, P. repeat split. lia.
Qed.

(** An exception leaves a cycle only that way. *)
Lemma cycle_escape_cause (g : globals) (env : cycle_env)
    (st : process_state) (e : exn) :
  polling_cycle g env st = Escaped e ->
  exists k, e = KeyError (Cell k) /\ ~ (1 <= k <= learned_CellCount g).
Proof.
  unfold polling_cycle.
  destruct (MAX_CONSECUTIVE_FAILURES <=? _)%nat; [discriminate|].
  destruct (poll_units g env 0 (BATTERY_ADDRESSES g) (count_loop st) [] [])
    as [[[st1 l1] log1]|]; [|discriminate].
  destruct (MQTT_ACTIVE g); [|discriminate].
  unfold create_consolidated_view.
  destruct l1 as [|d0 ds] eqn:L; [discriminate|]. rewrite <- L. clear L.
  destruct (collect_cells l1 _ _) as [[cv cb]|e1] eqn:K; [discriminate|].
  intro H. injection H as <-.
  apply (collect_cells_raises g l1 _ _ e1
           (empty_buckets_keys Q g) (empty_buckets_keys Z g) K).
Qed.

End CycleFacts.

Lemma consolidated_module_counts_witness :
  polling_cycle sample_globals mixed_env start_state
  = CycleDone (cycle_state mixed_cycle) (cycle_units mixed_cycle)
      (Some (cycle_consolidated mixed_cycle)) (cycle_log mixed_cycle) /\
  map (fun d => NrOfModulesOffline (System d)) (cycle_units mixed_cycle)
  = [0; 1] /\
  NrOfModulesOnline (System (cycle_consolidated mixed_cycle)) = 2 /\
  NrOfModulesOffline (System (cycle_consolidated mixed_cycle)) = 0.
Proof.
  assert (E : polling_cycle sample_globals mixed_env start_state
              = CycleDone (cycle_state mixed_cycle) (cycle_units mixed_cycle)
                  (Some (cycle_consolidated mixed_cycle))
                  (cycle_log mixed_cycle))
    by (vm_compute; reflexivity).
  split; [exact E|].
  split; [vm_compute; reflexivity|].
  destruct (consolidated_module_counts sample_globals mixed_env start_state
              (cycle_state mixed_cycle) (cycle_units mixed_cycle)
              (cycle_consolidated mixed_cycle) (cycle_log mixed_cycle) E)
    as (_ & A & B).
  split; [exact A|exact B].
Defined.

(** C8 fails on the code.  A [bat] row numbered 15 makes the per-unit
    record carry the key Cell16; with 15 cells configured the aggregator
    has no such bucket, [cell_voltages[cell]] raises [KeyError], nothing
    between there and the top of [main] catches it, and the exception
    leaves the loop. *)
Theorem cell_key_out_of_range_escapes :
  polling_cycle sample_globals sixteenth_cell_env start_state
  = Escaped (KeyError (Cell 16)).
Proof. vm_compute. reflexivity. Qed.

(** ** Consolidated flags *)





(** ** The write loop *)

Lemma write_loop_outcome (ok : nat -> bool) (n k : nat)
    (st : process_state) :
  let r := write_loop ok k n st in
  (fst r = true <-> exists i, (k <= i < k + n)%nat /\ ok i = true) /\
  (fst r = true -> consecutive_serial_failures (snd r) = O) /\
  (fst r = false ->
   consecutive_serial_failures (snd r)
   = (consecutive_serial_failures st + n)%nat) /\
  errors_no (snd r) = errors_no st /\ loops_no (snd r) = loops_no st.
Proof.
  revert k st. induction n as [|n IH]; intros k st; simpl.
  - split; [|split; [discriminate|split; [intros _; lia|split; reflexivity]]].
    split; [discriminate|]. intros [i [L _]]. lia.
  - destruct (ok k) eqn:E.
    + simpl. split; [|split; [reflexivity|split; [discriminate|split; reflexivity]]].
      split; [|reflexivity]. intros _. exists k. split; [lia|exact E].
    + destruct (IH (S k) (failure st)) as (A & B & C & D & F).
      cbv zeta in A, B, C, D, F.
      split; [|split; [exact B|split; [|split; [exact D|exact F]]]].
      * rewrite A. split; intros [i [L O]]; exists i; split; try exact O; try lia.
        destruct (Nat.eq_dec i k) as [->|N]; [congruence|lia].
      * intro H. rewrite (C H). simpl. lia.
Qed.

(** X1.  [serial_write] returns [True] exactly when one of its [retries]
    attempts runs through.  It then leaves the failure counter at 0;
    otherwise the counter has grown by [retries].  It never touches
    [errors_no] or [loops_no]. *)
Theorem serial_write_outcome (ok : nat -> bool) (retries : nat)
    (st : process_state) :
  let r := serial_write ok retries st in
  (fst r = true <-> exists i, (i < retries)%nat /\ ok i = true) /\
  (fst r = true -> consecutive_serial_failures (snd r) = O) /\
  (fst r = false ->
   consecutive_serial_failures (snd r)
   = (consecutive_serial_failures st + retries)%nat) /\
  errors_no (snd r) = errors_no st /\ loops_no (snd r) = loops_no st.
Proof.
  unfold serial_write.
  destruct (write_loop_outcome ok retries 0 st) as (A & B & C & D & F).
  cbv zeta in *.
  split; [|split; [exact B|split; [exact C|split; [exact D|exact F]]]].
  rewrite A. split; intros [i [L O]]; exists i; split; try exact O; lia.
Qed.

(** ** The read loop *)

Lemma no_newline_app (a b : string) :
  no_newline (a ++ b) = (no_newline a && no_newline b)%bool.
Proof.
  induction a as [|x a IH]; simpl; [reflexivity|].
  rewrite IH. now rewrite andb_assoc.
Qed.

Lemma start_after_true (line : string) :
  start_after "true" line = "true"%string.
Proof. unfold start_after. now destruct (_ || _)%bool. Qed.

Lemma start_after_cases (st line : string) :
  (start_after st line = "true"%string
   /\ (st = "none"%string \/ contains st line = true))
  \/ start_after st line = st.
Proof.
  unfold start_after.
  destruct (String.eqb st "none") eqn:E; simpl.
  - left. split; [reflexivity|left]. now apply String.eqb_eq.
  - destruct (contains st line) eqn:C; [left|right]; auto.
Qed.

Lemma read_pass_invariant (start0 stop : string) (s : read_state) (t : tick) :
  read_invariant start0 stop s ->
  match read_pass stop s t with
  | inl s' => read_invariant start0 stop s'
  | inr r => read_result start0 stop r
  end.
Proof.
  intros (N & F & T & H & S).
  assert (FW : Forall whole_line (line_str_array s)).
  { eapply Forall_impl; [|exact F]. now intros l [W _]. }
  assert (FS : Forall (fun l => contains stop l = false) (line_str_array s)).
  { eapply Forall_impl; [|exact F]. now intros l [_ W]. }
  assert (TO : read_result start0 stop (TimedOut, line_str_array s)).
  { split; [exact FW|split; [exact H|exact FS]]. }
  unfold read_pass. destruct (port t) as [|b|].
  - destruct (deadline_passed t); [exact TO|].
    split; [exact N|split; [exact F|split; [exact T|split; [exact H|exact S]]]].
  - cbv zeta. destruct (Ascii.eqb b newline) eqn:B.
    + apply Ascii.eqb_eq in B. subst b.
      set (line := (line_str s ++ String newline EmptyString)%string).
      assert (W : whole_line line) by (exists (line_str s); split; auto).
      destruct (String.eqb (start_after (start s) line) "true") eqn:E.
      * apply String.eqb_eq in E.
        assert (H' : start0 <> "none"%string -> start0 <> "true"%string ->
                     forall first rest,
                       line_str_array s ++ [line] = first :: rest ->
                       contains start0 first = true).
        { intros N1 N2 first rest L.
          destruct (line_str_array s) as [|a0 arr] eqn:A.
          - simpl in L. injection L as <- _.
            destruct S as [S|[_ S]]; [|congruence].
            rewrite S in E.
            destruct (start_after_cases start0 line) as [[_ [C|C]]|C];
              congruence.
          - simpl in L. injection L as <- _. now apply (H N1 N2 a0 arr). }
        simpl andb. destruct (contains stop line) eqn:C.
        -- split; [|split; [exact H'|]].
           ++ apply Forall_app. split; [exact FW|]. now constructor.
           ++ exists (line_str_array s), line. simpl. auto.
        -- assert (F' : Forall (fun l => whole_line l
                                         /\ contains stop l = false)
                          (line_str_array s ++ [line])).
           { apply Forall_app. split; [exact F|]. now constructor. }
           destruct (deadline_passed t).
           ++ split; [|split; [exact H'|]].
              ** apply Forall_app. split; [exact FW|]. now constructor.
              ** simpl. apply Forall_app. split; [exact FS|]. now constructor.
           ++ split; [reflexivity|split; [exact F'|]]. simpl.
              split; [intros _; exact E|split; [exact H'|]].
              right. split; [exact E|]. now destruct (line_str_array s).
      * simpl andb.
        assert (A : line_str_array s = []).
        { destruct (line_str_array s) as [|a0 arr] eqn:A; [reflexivity|].
          rewrite T in E by discriminate.
          now rewrite start_after_true in E. }
        assert (S' : start_after (start s) line = start0).
        { destruct (start_after_cases (start s) line) as [[C _]|C].
          - rewrite C in E. discriminate.
          - rewrite C. destruct S as [S|[_ S]]; [exact S|congruence]. }
        destruct (deadline_passed t); [exact TO|].
        split; [reflexivity|split; [exact F|]]. simpl.
        split; [intro X; congruence|split; [exact H|now left]].
    + destruct (deadline_passed t); [exact TO|].
      split; [|split; [exact F|split; [exact T|split; [exact H|exact S]]]].
      simpl. rewrite no_newline_app, N. simpl. now rewrite B.
  - split; [constructor|split; [|reflexivity]]. intros _ _ ? ? X. discriminate.
Qed.

Lemma read_loop_invariant (start0 stop : string) (script : list tick)
    (s : read_state) :
  read_invariant start0 stop s ->
  read_result start0 stop (read_loop stop s script).
Proof.
  revert s. induction script as [|t rest IH]; intros s I; simpl.
  - destruct I as (N & F & T & H & S).
    split; [|split; [exact H|]]; simpl;
      (eapply Forall_impl; [|exact F]); now intros l [? ?].
  - pose proof (read_pass_invariant start0 stop s t I) as P.
    destruct (read_pass stop s t) as [s'|r]; [now apply IH|exact P].
Qed.

(** X2.  The lines [serial_read] returns are complete lines, each ending
    with its newline.  When the read is called with a start marker other
    than ['none'] and ['true'], the first line returned contains the
    marker.  When the read completes, the last line returned contains the
    stop marker and no earlier one does; when it times out, no line
    returned contains the stop marker; when the port raises, nothing is
    returned. *)
Theorem serial_read_lines_shape (script : list tick) (start0 stop : string)
    (st : process_state) :
  let lines := fst (serial_read script start0 stop st) in
  Forall whole_line lines /\
  (start0 <> "none"%string -> start0 <> "true"%string ->
   forall first rest, lines = first :: rest ->
                      contains start0 first = true) /\
  match read_ending script start0 stop with
  | Completed =>
      exists pre last,
        lines = pre ++ [last] /\ contains stop last = true /\
        Forall (fun l => contains stop l = false) pre
  | TimedOut => Forall (fun l => contains stop l = false) lines
  | Failed => lines = []
  end.
Proof.
  assert (I : read_invariant start0 stop (mk_read start0 EmptyString [])).
  { split; [reflexivity|split; [constructor|]]. simpl.
    split; [congruence|split; [|now left]]. intros _ _ ? ? X. discriminate. }
  pose proof (read_loop_invariant start0 stop script _ I) as (W & H & E).
  unfold serial_read, read_ending.
  destruct (read_loop stop (mk_read start0 EmptyString []) script)
    as [e lines].
  cbn [fst snd] in *.
  destruct e; cbn [fst]; auto.
  subst lines. split; [constructor|split; [|reflexivity]].
  intros _ _ ? ? X. discriminate.
Qed.
(** ** Rounding *)

Lemma round_half_even_bounds (q : Q) :
  Qfloor q <= round_half_even q <= Qfloor q + 1.
Proof.
  unfold round_half_even.
  destruct (Qcompare _ _); [destruct (Z.even _)| |]; lia.
Qed.

Lemma round_half_even_comp (x y : Q) :
  (x == y)%Q -> round_half_even x = round_half_even y.
Proof.
  intros E. unfold round_half_even.
  rewrite (Qfloor_comp _ _ E).
  assert (C : (x - inject_Z (Qfloor y) ?= 1 # 2)%Q
              = (y - inject_Z (Qfloor y) ?= 1 # 2)%Q).
  { apply Qcompare_comp; [rewrite E|]; reflexivity. }
  rewrite C. reflexivity.
Qed.

Lemma round_half_even_mono (x y : Q) :
  (x <= y)%Q -> round_half_even x <= round_half_even y.
Proof.
  intros L.
  pose proof (Qfloor_resp_le _ _ L) as F.
  destruct (Z.eq_dec (Qfloor x) (Qfloor y)) as [E|N].
  - unfold round_half_even. rewrite E.
    destruct (Qcompare_spec (x - inject_Z (Qfloor y)) (1 # 2)) as [A|A|A];
      destruct (Qcompare_spec (y - inject_Z (Qfloor y)) (1 # 2)) as [B|B|B];
      try (destruct (Z.even (Qfloor y))); try lia; exfalso; lra.
  - pose proof (round_half_even_bounds x).
    pose proof (round_half_even_bounds y). lia.
Qed.

Lemma round_half_even_Z (n : Z) : round_half_even (inject_Z n) = n.
Proof.
  unfold round_half_even. rewrite Qfloor_Z.
  destruct (Qcompare_spec (inject_Z n - inject_Z n) (1 # 2)) as [A|A|A];
    try reflexivity; exfalso; lra.
Qed.

Lemma scale_pos (nd : nat) : (0 < inject_Z (10 ^ Z.of_nat nd))%Q.
Proof.
  change 0%Q with (inject_Z 0). rewrite <- Zlt_Qlt.
  apply Z.pow_pos_nonneg; lia.
Qed.

Lemma py_round_value (nd : nat) (q : Q) :
  (py_round nd q ==
   inject_Z (round_half_even (q * inject_Z (10 ^ Z.of_nat nd)))
   / inject_Z (10 ^ Z.of_nat nd))%Q.
Proof. unfold py_round. cbv zeta. apply Qred_correct. Qed.

(** [round(x, nd)] is monotone. *)
Lemma py_round_mono (nd : nat) (x y : Q) :
  (x <= y)%Q -> (py_round nd x <= py_round nd y)%Q.
Proof.
  intros L. rewrite !py_round_value.
  pose proof (scale_pos nd) as P.
  set (s := inject_Z (10 ^ Z.of_nat nd)) in *.
  apply Qmult_le_compat_r.
  - rewrite <- Zle_Qle. apply round_half_even_mono.
    apply Qmult_le_compat_r; [exact L|apply Qlt_le_weak; exact P].
  - apply Qlt_le_weak, Qinv_lt_0_compat, P.
Qed.

(** Rounding a rounded value changes nothing. *)
Lemma py_round_idempotent (nd : nat) (q : Q) :
  py_round nd (py_round nd q) = py_round nd q.
Proof.
  pose proof (scale_pos nd) as P.
  assert (R : round_half_even (py_round nd q * inject_Z (10 ^ Z.of_nat nd))
              = round_half_even (q * inject_Z (10 ^ Z.of_nat nd))).
  { rewrite <- (round_half_even_Z
                  (round_half_even (q * inject_Z (10 ^ Z.of_nat nd)))).
    apply round_half_even_comp.
    rewrite py_round_value.
    field. intros Z0. rewrite Z0 in P. apply (Qlt_irrefl 0), P. }
  unfold py_round at 1. cbv zeta. rewrite R. reflexivity.
Qed.

(** ** Dicts *)

Lemma dict_get_set {V : Type} (k k' : Z) (v : V) (d : list (Z * V)) :
  dict_get k (dict_set k' v d)
  = if k =? k' then Some v else dict_get k d.
Proof.
  induction d as [|[k0 v0] d IH]; simpl.
  - reflexivity.
  - destruct (k' =? k0) eqn:E; simpl.
    + apply Z.eqb_eq in E. subst k0. now destruct (k =? k').
    + destruct (k =? k0) eqn:E0.
      * apply Z.eqb_eq in E0. subst k0.
        rewrite Z.eqb_sym in E. now rewrite E.
      * exact IH.
Qed.

Lemma dict_set_keys {V : Type} (k : Z) (v : V) (d : list (Z * V)) :
  map fst (dict_set k v d)
  = if Zmem k (map fst d) then map fst d else map fst d ++ [k].
Proof.
  unfold Zmem. induction d as [|[k0 v0] d IH]; simpl; [reflexivity|].
  destruct (k =? k0) eqn:E; simpl.
  - apply Z.eqb_eq in E. now subst k0.
  - rewrite IH. now destruct (existsb (Z.eqb k) (map fst d)).
Qed.

Lemma dict_set_NoDup {V : Type} (k : Z) (v : V) (d : list (Z * V)) :
  NoDup (map fst d) -> NoDup (map fst (dict_set k v d)).
Proof.
  intro N. rewrite dict_set_keys.
  destruct (Zmem k (map fst d)) eqn:M; [exact N|].
  apply NoDup_app; [exact N|repeat constructor; intros []|].
  intros x I [<-|[]]. apply Zmem_In in I. congruence.
Qed.

Lemma dict_set_In {V : Type} (k : Z) (v : V) (d : list (Z * V)) kv :
  In kv (dict_set k v d) -> kv = (k, v) \/ In kv d.
Proof.
  induction d as [|[k0 v0] d IH]; simpl.
  - intros [<-|[]]. now left.
  - destruct (k =? k0); simpl.
    + intros [<-|I]; auto.
    + intros [<-|I]; auto. destruct (IH I); auto.
Qed.

Lemma dict_In_get {V : Type} (k : Z) (v : V) (d : list (Z * V)) :
  NoDup (map fst d) -> In (k, v) d -> dict_get k d = Some v.
Proof.
  induction d as [|[k0 v0] d IH]; simpl; [contradiction|].
  intros N [E|I].
  - injection E as -> ->. now rewrite Z.eqb_refl.
  - inversion N as [|? ? NI N']. subst.
    destruct (k =? k0) eqn:E; [|now apply IH].
    apply Z.eqb_eq in E. subst k0. exfalso. apply NI.
    apply in_map_iff. now exists (k, v).
Qed.
(** ** The per-unit record, part by part *)

Section UnitRecord.

Context {conv : PyConv}.

Ltac break_match :=
  match goal with
  | |- context [match ?x with _ => _ end] => destruct x eqn:?
  end.

Lemma adjust_charge_voltage_keeps :
  keeps (fun d => (bystander d, MaxChargeCurrent (Info d)))
    adjust_charge_voltage.
Proof.
  intro d. unfold adjust_charge_voltage. repeat break_match; reflexivity.
Qed.

Lemma adjust_charge_current_keeps (g : globals) :
  keeps (fun d => (bystander d, MaxChargeVoltage (Info d)))
    (adjust_charge_current g).
Proof.
  intro d. unfold adjust_charge_current. repeat break_match; reflexivity.
Qed.

Lemma temperature_clamp_keeps :
  keeps (fun d => (bystander d, MaxChargeVoltage (Info d))) temperature_clamp.
Proof.
  intro d. unfold temperature_clamp. repeat break_match; reflexivity.
Qed.

Lemma discharge_policy_keeps :
  keeps (fun d => (bystander d, MaxChargeVoltage (Info d))) discharge_policy.
Proof.
  intro d. unfold discharge_policy. repeat break_match; reflexivity.
Qed.

Lemma register_alarms_keeps (bat pw sys : Z) :
  keeps (fun d => (bystander d, Info d)) (register_alarms bat pw sys).
Proof.
  intro d. unfold register_alarms.
  destruct (sys_events_alarm_cases sys
              (power_events_alarm pw (bat_events_alarm bat d))) as [S|S];
  destruct (power_events_alarm_cases pw (bat_events_alarm bat d))
    as [P|[a [_ P]]];
  destruct (bat_events_alarm_cases bat d) as [B|B];
  rewrite S, P, B; reflexivity.
Qed.

Lemma derive_keeps :
  keeps (fun d => (module_counts d, Voltages d, Info d))
    (fun d => derive_time_to_go (derive_capacity (derive_power d))).
Proof.
  intro d. unfold derive_time_to_go, derive_capacity, derive_power.
  repeat break_match; reflexivity.
Qed.

Lemma limit_stages_keep (g : globals) :
  keeps bystander (limit_stages g).
Proof.
  intro d. unfold limit_stages.
  pose proof (f_equal fst (discharge_policy_keeps
    (temperature_clamp (adjust_charge_current g (adjust_charge_voltage d)))))
    as A.
  pose proof (f_equal fst (temperature_clamp_keeps
    (adjust_charge_current g (adjust_charge_voltage d)))) as B.
  pose proof (f_equal fst (adjust_charge_current_keeps g
    (adjust_charge_voltage d))) as C.
  pose proof (f_equal fst (adjust_charge_voltage_keeps d)) as D.
  cbn [fst] in A, B, C, D. congruence.
Qed.

Lemma limit_stages_voltage (g : globals) (d : telemetry) :
  MaxChargeVoltage (Info (limit_stages g d))
  = match Soc d with
    | Some soc => if soc <? 95 then 52.5%Q else 51.0%Q
    | None => MaxChargeVoltage (Info d)
    end.
Proof.
  unfold limit_stages.
  pose proof (f_equal snd (discharge_policy_keeps
    (temperature_clamp (adjust_charge_current g (adjust_charge_voltage d)))))
    as A.
  pose proof (f_equal snd (temperature_clamp_keeps
    (adjust_charge_current g (adjust_charge_voltage d)))) as B.
  pose proof (f_equal snd (adjust_charge_current_keeps g
    (adjust_charge_voltage d))) as C.
  cbn [snd] in A, B, C. rewrite A, B, C.
  unfold adjust_charge_voltage. repeat break_match; reflexivity.
Qed.

(** The [pwr] loop leaves the derived fields and the counters as the
    initial record has them. *)
Lemma decode_pwr_line_keeps (s : pwr_state) (line : string) :
  let d := data s in
  let d' := data (decode_pwr_line s line) in
  Power (Dc d') = Power (Dc d) /\ Capacity d' = Capacity d /\
  ConsumedAmphours d' = ConsumedAmphours d /\ TimeToGo d' = TimeToGo d /\
  module_counts d' = module_counts d.
Proof.
  unfold decode_pwr_line, converted, on_data.
  repeat break_match; simpl; repeat split.
Qed.

Lemma decode_pwr_keeps (g : globals) (lines : list string) :
  let d := data (decode_pwr g lines) in
  Power (Dc d) = None /\ Capacity d = None /\ ConsumedAmphours d = None /\
  TimeToGo d = None /\ module_counts d = (1, 0, 0, 0).
Proof.
  unfold decode_pwr.
  set (s0 := mk_pwr (initial_data g) 0 0 0).
  change (@None Q) with (Power (Dc (data s0))) at 1.
  change (@None Q) with (Capacity (data s0)) at 1.
  change (@None Q) with (ConsumedAmphours (data s0)).
  change (@None Z) with (TimeToGo (data s0)).
  change (1, 0, 0, 0) with (module_counts (data s0)).
  generalize s0. clear s0.
  induction lines as [|line rest IH]; intro s; simpl.
  - repeat split.
  - destruct (IH (decode_pwr_line s line)) as (A & B & D & E & F).
    destruct (decode_pwr_line_keeps s line) as (A' & B' & D' & E' & F').
    cbv zeta in *. rewrite A, B, D, E, F. repeat split; assumption.
Qed.

(** The [bat] loop stores voltages and nothing else. *)
Lemma decode_bat_data (lines : list string) (s : bat_state) :
  let d' := bat_data (fold_left decode_bat_row lines s) in
  Voltages d' = store_voltages (parsed_rows lines) (Voltages (bat_data s)) /\
  measured d' = measured (bat_data s) /\
  module_counts d' = module_counts (bat_data s).
Proof.
  revert s. induction lines as [|line rest IH]; intro s; simpl.
  - repeat split.
  - destruct (IH (decode_bat_row s line)) as (A & B & D).
    rewrite A, B, D. unfold decode_bat_row, parsed_rows. simpl.
    destruct (decode_bat_line line); simpl; repeat split.
Qed.

Lemma cell_policy_keeps (s : bat_state) :
  bystander (cell_policy s) = bystander (bat_data s).
Proof.
  unfold cell_policy.
  destruct (cell_voltages s) as [|v0 vs]; [reflexivity|].
  destruct (cell_temperatures s) as [|t0 ts]; [reflexivity|].
  cbv zeta.
  unfold cell_temperature_alarms, cell_imbalance_alarm, balancing_logic,
    cell_voltage_protection.
  repeat break_if; reflexivity.
Qed.


Lemma pwr_policy_parts (g : globals) (s : pwr_state) :
  let d4 := limit_stages g (data s) in
  let d7 := derive_time_to_go (derive_capacity (derive_power d4)) in
  let r := pwr_policy g s in
  measured r = measured d7 /\ measured d4 = measured (data s) /\
  module_counts r = module_counts (data s) /\
  Voltages r = Voltages (data s) /\
  MaxChargeVoltage (Info r) = MaxChargeVoltage (Info d4).
Proof.
  cbv zeta. unfold pwr_policy. fold (limit_stages g (data s)).
  set (d4 := limit_stages g (data s)).
  set (d7 := derive_time_to_go (derive_capacity (derive_power d4))).
  pose proof (register_alarms_keeps (bat_events s) (power_events s)
                (sys_events s) d7) as R.
  pose proof (derive_keeps d4) as D. cbv beta in D. fold d7 in D.
  pose proof (limit_stages_keep g (data s)) as L. fold d4 in L.
  unfold bystander in R, L. cbv beta in R.
  pose proof (f_equal (fun x => fst (fst (fst x))) R) as R1.
  pose proof (f_equal (fun x => snd (fst (fst x))) R) as R2.
  pose proof (f_equal (fun x => snd (fst x)) R) as R3.
  pose proof (f_equal snd R) as R4.
  pose proof (f_equal (fun x => fst (fst x)) D) as D1.
  pose proof (f_equal (fun x => snd (fst x)) D) as D2.
  pose proof (f_equal snd D) as D3.
  pose proof (f_equal (fun x => fst (fst x)) L) as L1.
  pose proof (f_equal (fun x => snd (fst x)) L) as L2.
  pose proof (f_equal snd L) as L3.
  cbn [fst snd] in R1, R2, R3, R4, D1, D2, D3, L1, L2, L3.
  rewrite R2, R3, R4, D1, D2, D3, L2, L3.
  repeat split; assumption.
Qed.

Lemma bat_policy_parts (d : telemetry) (lines : list string) :
  let r := bat_policy d lines in
  measured r = measured d /\ module_counts r = module_counts d /\
  Voltages r = store_voltages (parsed_rows lines) (Voltages d).
Proof.
  cbv zeta. unfold bat_policy, decode_bat.
  pose proof (cell_policy_keeps
                (fold_left decode_bat_row lines (mk_bat d [] [] []))) as K.
  destruct (decode_bat_data lines (mk_bat d [] [] [])) as (A & B & D).
  cbn [bat_data] in A, B, D. unfold bystander in K.
  pose proof (f_equal (fun x => fst (fst x)) K) as K1.
  pose proof (f_equal (fun x => snd (fst x)) K) as K2.
  pose proof (f_equal snd K) as K3.
  cbn [fst snd] in K1, K2, K3.
  rewrite K1, K2, K3. auto.
Qed.

End UnitRecord.
Section UnitFacts.

Context {conv : PyConv}.

Ltac break_match :=
  match goal with
  | |- context [match ?x with _ => _ end] => destruct x eqn:?
  end.

Lemma unit_record_parts (g : globals) (pl : list string)
    (bl : option (list string)) :
  let d0 := data (decode_pwr g pl) in
  let d4 := limit_stages g d0 in
  let d7 := derive_time_to_go (derive_capacity (derive_power d4)) in
  let r := unit_record g pl bl in
  measured r = measured d7 /\ measured d4 = measured d0 /\
  module_counts r = (1, 0, 0, 0) /\
  Voltages r = match bl with
               | Some lines => store_voltages (parsed_rows lines) []
               | None => []
               end /\
  MaxChargeVoltage (Info r) = MaxChargeVoltage (Info d4).
Proof.
  cbv zeta.
  destruct (pwr_policy_parts g (decode_pwr g pl)) as (A & B & C & D & E).
  destruct (decode_pwr_keeps g pl) as (_ & _ & _ & _ & K).
  destruct (decode_pwr_frame g pl) as (_ & _ & _ & _ & V).
  cbv zeta in A, B, C, D, E, K, V. rewrite K in C. rewrite V in D.
  unfold unit_record. destruct bl as [lines|].
  - destruct (bat_policy_parts (pwr_policy g (decode_pwr g pl)) lines)
      as (A' & C' & D').
    destruct (bat_policy_frame (pwr_policy g (decode_pwr g pl)) lines)
      as (I & _).
    cbv zeta in A', C', D', I. rewrite A', C', D', I, D, E. auto.
  - auto.
Qed.

(** X3.  [MaxChargeVoltage] of a unit's record follows the state of
    charge alone: 52.5 V below 95 %, 51.0 V from 95 % on.  The configured
    [MAX_CHARGE_VOLTAGE] is published only when the [pwr] response gave no
    state of charge. *)
Theorem charge_voltage_schedule (g : globals) (pl : list string)
    (bl : option (list string)) :
  MaxChargeVoltage (Info (unit_record g pl bl))
  = match Soc (data (decode_pwr g pl)) with
    | Some soc => if soc <? 95 then 52.5%Q else 51.0%Q
    | None => MAX_CHARGE_VOLTAGE g
    end.
Proof.
  destruct (unit_record_parts g pl bl) as (_ & _ & _ & _ & E).
  cbv zeta in E. rewrite E, limit_stages_voltage.
  destruct (decode_pwr_frame g pl) as (_ & I & _). cbv zeta in I.
  now rewrite I.
Qed.

Lemma derive_measured (d : telemetry) :
  Power (Dc d) = None -> Capacity d = None ->
  ConsumedAmphours d = None -> TimeToGo d = None ->
  let r := derive_time_to_go (derive_capacity (derive_power d)) in
  Voltage (Dc r) = Voltage (Dc d) /\ Current (Dc r) = Current (Dc d) /\
  Temperature (Dc r) = Temperature (Dc d) /\ Soc r = Soc d /\
  InstalledCapacity r = InstalledCapacity d /\
  Power (Dc r)
  = match Current (Dc d), Voltage (Dc d) with
    | Some i, Some v => Some (py_round 1 (v * i))
    | _, _ => None
    end /\
  Capacity r
  = match Soc d, InstalledCapacity d with
    | Some soc, Some installed =>
        Some (py_round 1 (inject_Z soc / 100 * installed))
    | _, _ => None
    end /\
  ConsumedAmphours r
  = match InstalledCapacity d, Capacity r with
    | Some installed, Some capacity =>
        Some (py_round 1 (installed - capacity))
    | _, _ => None
    end /\
  TimeToGo r
  = match Capacity r, Current (Dc d) with
    | Some capacity, Some i =>
        if Qltb i 0 then Some (time_to_go capacity i) else None
    | _, _ => None
    end.
Proof.
  destruct d as [[v i t p] al inf cc sy vo ba io soc ic cap ca ttg bal].
  simpl. intros -> -> -> ->.
  unfold derive_time_to_go, derive_capacity, derive_power. simpl.
  destruct i as [i|], v as [v|], soc as [soc|], ic as [ic|]; simpl;
    try destruct (Qltb i 0); simpl; repeat split.
Qed.

(** X4.  The decoded measurements pass into the record unchanged, and
    the derived fields are present exactly when their inputs were decoded:
    [Power] needs current and voltage, [Capacity] and [ConsumedAmphours]
    need the state of charge and the installed capacity, and [TimeToGo]
    needs a capacity and a negative current, so the division by the
    current never has a zero divisor. *)
Theorem derived_fields (g : globals) (pl : list string)
    (bl : option (list string)) :
  let d0 := data (decode_pwr g pl) in
  let r := unit_record g pl bl in
  (Voltage (Dc r) = Voltage (Dc d0) /\ Current (Dc r) = Current (Dc d0) /\
   Temperature (Dc r) = Temperature (Dc d0) /\ Soc r = Soc d0 /\
   InstalledCapacity r = InstalledCapacity d0) /\
  Power (Dc r)
  = match Current (Dc d0), Voltage (Dc d0) with
    | Some i, Some v => Some (py_round 1 (v * i))
    | _, _ => None
    end /\
  Capacity r
  = match Soc d0, InstalledCapacity d0 with
    | Some soc, Some installed =>
        Some (py_round 1 (inject_Z soc / 100 * installed))
    | _, _ => None
    end /\
  ConsumedAmphours r
  = match InstalledCapacity d0, Capacity r with
    | Some installed, Some capacity =>
        Some (py_round 1 (installed - capacity))
    | _, _ => None
    end /\
  TimeToGo r
  = match Capacity r, Current (Dc d0) with
    | Some capacity, Some i =>
        if Qltb i 0 then Some (time_to_go capacity i) else None
    | _, _ => None
    end /\
  (forall t, TimeToGo r = Some t ->
     exists capacity i,
       Capacity r = Some capacity /\ Current (Dc r) = Some i /\
       (i < 0)%Q /\ ~ (Qabs i == 0)%Q /\ t = time_to_go capacity i).
Proof.
  cbv zeta.
  destruct (unit_record_parts g pl bl) as (A & B & _).
  destruct (decode_pwr_keeps g pl) as (P & C & CA & T & _).
  cbv zeta in A, B, P, C, CA, T.
  set (d0 := data (decode_pwr g pl)) in *.
  set (d4 := limit_stages g d0) in *.
  set (r := unit_record g pl bl) in *.
  unfold measured in B.
  assert (B1 : Dc d4 = Dc d0)
    by exact (f_equal (fun x => fst (fst (fst (fst (fst (fst (fst x))))))) B).
  assert (B2 : Soc d4 = Soc d0)
    by exact (f_equal (fun x => snd (fst (fst (fst (fst (fst (fst x))))))) B).
  assert (B3 : InstalledCapacity d4 = InstalledCapacity d0)
    by exact (f_equal (fun x => snd (fst (fst (fst (fst (fst x)))))) B).
  assert (B4 : Capacity d4 = Capacity d0)
    by exact (f_equal (fun x => snd (fst (fst (fst (fst x))))) B).
  assert (B5 : ConsumedAmphours d4 = ConsumedAmphours d0)
    by exact (f_equal (fun x => snd (fst (fst (fst x)))) B).
  assert (B6 : TimeToGo d4 = TimeToGo d0)
    by exact (f_equal (fun x => snd (fst (fst x))) B).
  destruct (derive_measured d4) as (V7 & I7 & T7 & S7 & IC7 & P7 & C7 & CA7 & TG7);
    try congruence.
  cbv zeta in V7, I7, T7, S7, IC7, P7, C7, CA7, TG7.
  set (d7 := derive_time_to_go (derive_capacity (derive_power d4))) in *.
  unfold measured in A.
  assert (A1 : Dc r = Dc d7)
    by exact (f_equal (fun x => fst (fst (fst (fst (fst (fst (fst x))))))) A).
  assert (A2 : Soc r = Soc d7)
    by exact (f_equal (fun x => snd (fst (fst (fst (fst (fst (fst x))))))) A).
  assert (A3 : InstalledCapacity r = InstalledCapacity d7)
    by exact (f_equal (fun x => snd (fst (fst (fst (fst (fst x)))))) A).
  assert (A4 : Capacity r = Capacity d7)
    by exact (f_equal (fun x => snd (fst (fst (fst (fst x))))) A).
  assert (A5 : ConsumedAmphours r = ConsumedAmphours d7)
    by exact (f_equal (fun x => snd (fst (fst (fst x)))) A).
  assert (A6 : TimeToGo r = TimeToGo d7)
    by exact (f_equal (fun x => snd (fst (fst x))) A).
  rewrite B1, B2, B3 in *.
  rewrite A1, A2, A3, A4, A5, A6.
  split; [repeat split; assumption|].
  split; [exact P7|split; [exact C7|split; [exact CA7|split; [exact TG7|]]]].
  intros t H. rewrite TG7 in H.
  destruct (Capacity d7) as [capacity|]; [|discriminate].
  rewrite I7.
  destruct (Current (Dc d0)) as [i|]; [|discriminate].
  destruct (Qltb i 0) eqn:L; [|discriminate].
  injection H as <-. apply Qltb_lt in L.
  exists capacity, i. repeat split; auto.
  intro Z0. revert Z0. apply Qabs_case; intros; lra.
Qed.

Lemma serial_read_counters (script : list tick) (start0 stop : string)
    (st : process_state) :
  errors_no (snd (serial_read script start0 stop st)) = errors_no st /\
  loops_no (snd (serial_read script start0 stop st)) = loops_no st.
Proof.
  unfold serial_read.
  destruct (read_loop stop _ script) as [[| |] lines]; split; reflexivity.
Qed.

(** X5.  [parse_battery_data] counts one error exactly when it returns
    no record, never counts a loop, and every record it returns reports
    one module online, none offline and none blocking, whatever its own
    Io flags say. *)
Theorem parse_battery_data_accounting (g : globals) (u : unit_io)
    (address : Z) (st : process_state) :
  let r := parse_battery_data g u address st in
  loops_no (snd r) = loops_no st /\
  match fst r with
  | Some d =>
      errors_no (snd r) = errors_no st /\ module_counts d = (1, 0, 0, 0)
  | None => errors_no (snd r) = S (errors_no st)
  end.
Proof.
  cbv zeta. unfold parse_battery_data.
  destruct (write_loop_outcome (write_attempts (pwr_io u)) 2 0 st)
    as (_ & _ & _ & E1 & L1).
  cbv zeta in E1, L1. unfold serial_write.
  destruct (write_loop (write_attempts (pwr_io u)) 0 2 st) as [w1 st1].
  cbn [fst snd] in E1, L1.
  destruct w1; cbn [negb]; [|simpl; split; congruence].
  destruct (serial_read_counters (read_script (pwr_io u))
              (request "pwr" address) "Command completed" st1) as (E2 & L2).
  destruct (serial_read (read_script (pwr_io u)) _ _ st1) as [lines st2].
  cbn [fst snd] in E2, L2.
  destruct lines as [|l ls]; [simpl; split; congruence|].
  destruct (write_loop_outcome (write_attempts (bat_io u)) 2 0 st2)
    as (_ & _ & _ & E3 & L3).
  cbv zeta in E3, L3.
  destruct (write_loop (write_attempts (bat_io u)) 0 2 st2) as [w2 st3].
  cbn [fst snd] in E3, L3.
  destruct w2.
  - destruct (serial_read_counters (read_script (bat_io u))
                "Battery" "Command completed" st3) as (E4 & L4).
    destruct (serial_read (read_script (bat_io u)) _ _ st3) as [bl st4].
    cbn [fst snd] in *.
    split; [congruence|split; [congruence|]].
    destruct (unit_record_parts g (l :: ls) (Some bl)) as (_ & _ & M & _).
    exact M.
  - cbn [fst snd].
    split; [congruence|split; [congruence|]].
    destruct (unit_record_parts g (l :: ls) None) as (_ & _ & M & _).
    exact M.
Qed.

End UnitFacts.
(** ** The cell dicts of a unit *)

Lemma store_voltages_get (k : Z) (rows : list cell_row) (v : list (Z * Q)) :
  dict_get k (store_voltages rows v)
  = fold_left (fun acc r =>
                 if k =? cell_num r then Some (py_round 3 (voltage r))
                 else acc) rows (dict_get k v).
Proof.
  unfold store_voltages. revert v.
  induction rows as [|r rows IH]; intro v; simpl; [reflexivity|].
  rewrite IH, dict_get_set. reflexivity.
Qed.

Lemma store_voltages_NoDup (rows : list cell_row) (v : list (Z * Q)) :
  NoDup (map fst v) -> NoDup (map fst (store_voltages rows v)).
Proof.
  unfold store_voltages. revert v.
  induction rows as [|r rows IH]; intros v N; simpl; [exact N|].
  apply IH. now apply dict_set_NoDup.
Qed.

Lemma store_voltages_keys (k : Z) (rows : list cell_row) (v : list (Z * Q)) :
  In k (map fst (store_voltages rows v))
  <-> In k (map fst v) \/ exists r, In r rows /\ cell_num r = k.
Proof.
  unfold store_voltages. revert v.
  induction rows as [|r rows IH]; intro v; simpl.
  - split; [now left|]. intros [H|[r [[] _]]]. exact H.
  - rewrite IH, dict_set_keys. split.
    + intros [H|[r' [I E]]].
      * destruct (Zmem (cell_num r) (map fst v)); [now left|].
        apply in_app_or in H. destruct H as [H|[<-|[]]]; [now left|].
        right. exists r. auto.
      * right. exists r'. auto.
    + intros [H|[r' [[<-|I] E]]].
      * left. destruct (Zmem (cell_num r) (map fst v)); [exact H|].
        apply in_or_app. now left.
      * left. destruct (Zmem (cell_num r) (map fst v)) eqn:M.
        -- apply Zmem_In in M. now rewrite <- E.
        -- apply in_or_app. right. left. exact E.
      * right. exists r'. auto.
Qed.

Lemma store_voltages_In (rows : list cell_row) (v : list (Z * Q)) kv :
  In kv (store_voltages rows v) ->
  In kv v \/
  exists r, In r rows /\ kv = (cell_num r, py_round 3 (voltage r)).
Proof.
  unfold store_voltages. revert v.
  induction rows as [|r rows IH]; intros v H; simpl in H; [now left|].
  destruct (IH _ H) as [I|[r' [I E]]].
  - destruct (dict_set_In _ _ _ _ I) as [E|I']; [|now left].
    right. exists r. split; [now left|exact E].
  - right. exists r'. split; [now right|exact E].
Qed.

Section CellFacts.

Context {conv : PyConv}.

(** X6.  The [Voltages] dict of a unit's record has one entry per cell
    number that occurs in a parsed row of the [bat] response, under
    distinct keys, and the entry holds the voltage of the last such row,
    rounded to a millivolt.  It is empty when the [bat] request could not
    be written. *)
Theorem unit_voltages (g : globals) (pl : list string) :
  Voltages (unit_record g pl None) = [] /\
  forall lines,
    let r := unit_record g pl (Some lines) in
    NoDup (map fst (Voltages r)) /\
    (forall k, In k (map fst (Voltages r))
               <-> exists row, In row (parsed_rows lines)
                               /\ cell_num row = k) /\
    (forall k, dict_get k (Voltages r)
               = last_voltage k (parsed_rows lines)).
Proof.
  split.
  - destruct (unit_record_parts g pl None) as (_ & _ & _ & V & _). exact V.
  - intros lines.
    destruct (unit_record_parts g pl (Some lines)) as (_ & _ & _ & V & _).
    cbv zeta in *. rewrite V. split; [|split].
    + apply store_voltages_NoDup. constructor.
    + intro k. rewrite store_voltages_keys. simpl. tauto.
    + intro k. apply store_voltages_get.
Qed.

Lemma cell_policy_system (s : bat_state) v0 vs t0 ts :
  cell_voltages s = v0 :: vs ->
  cell_temperatures s = t0 :: ts ->
  let lo := min_by_snd v0 vs in
  let hi := max_by_snd v0 vs in
  let tlo := min_by_snd t0 ts in
  let thi := max_by_snd t0 ts in
  let d := bat_data s in
  let r := cell_policy s in
  NrOfCellsPerBattery (System r) = Z.of_nat (List.length (v0 :: vs)) /\
  (MinVoltageCellId (System r) = Some (C (fst lo)) /\
   MinCellVoltage (System r) = Some (py_round 3 (snd lo)) /\
   MaxVoltageCellId (System r) = Some (C (fst hi)) /\
   MaxCellVoltage (System r) = Some (py_round 3 (snd hi))) /\
  (MinTemperatureCellId (System r) = Some (C (fst tlo)) /\
   MinCellTemperature (System r) = Some (py_round 1 (snd tlo)) /\
   MaxTemperatureCellId (System r) = Some (C (fst thi)) /\
   MaxCellTemperature (System r) = Some (py_round 1 (snd thi))) /\
  Alarms r CellImbalance
  = (if Qgtb (snd hi - snd lo) 0.1 then 1 else Alarms d CellImbalance) /\
  Alarms r LowTemperature
  = (if Qltb (snd tlo) 0 then 1 else Alarms d LowTemperature) /\
  Alarms r HighTemperature
  = (if Qgtb (snd thi) 45 then 1 else Alarms d HighTemperature).
Proof.
  intros V T. unfold cell_policy. rewrite V, T. cbv zeta.
  unfold cell_temperature_alarms, cell_imbalance_alarm, balancing_logic,
    cell_voltage_protection.
  repeat break_if; repeat split; reflexivity.
Qed.

Lemma bat_policy_system (d : telemetry) (lines : list string) r0 rs :
  parsed_rows lines = r0 :: rs ->
  let vs := map (fun r => (cell_num r, voltage r)) rs in
  let ts := map (fun r => (cell_num r, temperature r)) rs in
  let lo := min_by_snd (cell_num r0, voltage r0) vs in
  let hi := max_by_snd (cell_num r0, voltage r0) vs in
  let tlo := min_by_snd (cell_num r0, temperature r0) ts in
  let thi := max_by_snd (cell_num r0, temperature r0) ts in
  let r := bat_policy d lines in
  NrOfCellsPerBattery (System r) = Z.of_nat (List.length (r0 :: rs)) /\
  (MinVoltageCellId (System r) = Some (C (fst lo)) /\
   MinCellVoltage (System r) = Some (py_round 3 (snd lo)) /\
   MaxVoltageCellId (System r) = Some (C (fst hi)) /\
   MaxCellVoltage (System r) = Some (py_round 3 (snd hi))) /\
  (MinTemperatureCellId (System r) = Some (C (fst tlo)) /\
   MinCellTemperature (System r) = Some (py_round 1 (snd tlo)) /\
   MaxTemperatureCellId (System r) = Some (C (fst thi)) /\
   MaxCellTemperature (System r) = Some (py_round 1 (snd thi))) /\
  Alarms r CellImbalance
  = (if Qgtb (snd hi - snd lo) 0.1 then 1 else Alarms d CellImbalance) /\
  Alarms r LowTemperature
  = (if Qltb (snd tlo) 0 then 1 else Alarms d LowTemperature) /\
  Alarms r HighTemperature
  = (if Qgtb (snd thi) 45 then 1 else Alarms d HighTemperature).
Proof.
  intros P. unfold bat_policy, decode_bat.
  destruct (decode_bat_rows lines (mk_bat d [] [] [])) as [V T].
  destruct (decode_bat_frame lines (mk_bat d [] [] []))
    as (_ & _ & A & _).
  cbv zeta in V, T, A. cbn [cell_voltages cell_temperatures bat_data] in V, T, A.
  unfold parsed_voltages in V. rewrite P in V, T. simpl in V, T.
  destruct (cell_policy_system _ _ _ _ _ V T) as (N & E & TE & A1 & A2 & A3).
  cbv zeta in N, E, TE, A1, A2, A3. rewrite A in A1, A2, A3.
  cbv zeta. simpl List.length in *. rewrite length_map in N.
  split; [exact N|split; [exact E|split; [exact TE|]]].
  split; [exact A1|split; [exact A2|exact A3]].
Qed.

End CellFacts.
Section CellExtremes.

Context {conv : PyConv}.

Ltac break_match :=
  match goal with
  | |- context [match ?x with _ => _ end] => destruct x eqn:?
  end.

Lemma decode_pwr_line_cells (s : pwr_state) (line : string) :
  cell_summary (data (decode_pwr_line s line)) = cell_summary (data s).
Proof.
  unfold decode_pwr_line, converted, on_data.
  repeat break_match; reflexivity.
Qed.

Lemma decode_pwr_cells (g : globals) (lines : list string) :
  cell_summary (data (decode_pwr g lines))
  = (learned_CellCount g, (None, None, None, None), (None, None, None, None)).
Proof.
  unfold decode_pwr.
  set (s0 := mk_pwr (initial_data g) 0 0 0).
  change (learned_CellCount g, (@None cell_label, @None Q, @None cell_label,
                                @None Q),
          (@None cell_label, @None Q, @None cell_label, @None Q))
    with (cell_summary (data s0)).
  generalize s0. clear s0.
  induction lines as [|line rest IH]; intro s; simpl; [reflexivity|].
  rewrite IH. apply decode_pwr_line_cells.
Qed.

Lemma limit_stages_cells (g : globals) :
  keeps cell_summary (limit_stages g).
Proof.
  assert (A : keeps cell_summary adjust_charge_voltage).
  { intro d. unfold adjust_charge_voltage. repeat break_match; reflexivity. }
  assert (B : keeps cell_summary (adjust_charge_current g)).
  { intro d. unfold adjust_charge_current. repeat break_match; reflexivity. }
  assert (C : keeps cell_summary temperature_clamp).
  { intro d. unfold temperature_clamp. repeat break_match; reflexivity. }
  assert (D : keeps cell_summary discharge_policy).
  { intro d. unfold discharge_policy. repeat break_match; reflexivity. }
  intro d. unfold limit_stages. now rewrite D, C, B, A.
Qed.

Lemma pwr_policy_cells (g : globals) (s : pwr_state) :
  cell_summary (pwr_policy g s) = cell_summary (data s).
Proof.
  unfold pwr_policy. fold (limit_stages g (data s)).
  assert (R : forall bat pw sys d,
             cell_summary (register_alarms bat pw sys d) = cell_summary d).
  { intros bat pw sys x. unfold register_alarms.
    destruct (sys_events_alarm_cases sys
                (power_events_alarm pw (bat_events_alarm bat x))) as [S|S];
    destruct (power_events_alarm_cases pw (bat_events_alarm bat x))
      as [P|[a [_ P]]];
    destruct (bat_events_alarm_cases bat x) as [B|B];
    rewrite S, P, B; reflexivity. }
  assert (D : keeps cell_summary
                (fun d => derive_time_to_go (derive_capacity (derive_power d)))).
  { intro d. unfold derive_time_to_go, derive_capacity, derive_power.
    repeat break_match; reflexivity. }
  rewrite R. rewrite (D (limit_stages g (data s))).
  apply limit_stages_cells.
Qed.

Lemma min_max_rows (f : cell_row -> Q) (r0 : cell_row) (rs : list cell_row) :
  let ps := map (fun r => (cell_num r, f r)) rs in
  let lo := min_by_snd (cell_num r0, f r0) ps in
  let hi := max_by_snd (cell_num r0, f r0) ps in
  exists rlo rhi,
    In rlo (r0 :: rs) /\ In rhi (r0 :: rs) /\
    lo = (cell_num rlo, f rlo) /\ hi = (cell_num rhi, f rhi) /\
    forall row, In row (r0 :: rs) -> (f rlo <= f row <= f rhi)%Q.
Proof.
  cbv zeta.
  set (ps := map (fun r => (cell_num r, f r)) rs).
  destruct (min_by_snd_least ps (cell_num r0, f r0)) as [IL LL].
  destruct (max_by_snd_greatest ps (cell_num r0, f r0)) as [IH LH].
  change ((cell_num r0, f r0) :: ps)
    with (map (fun r => (cell_num r, f r)) (r0 :: rs)) in IL, IH, LL, LH.
  apply in_map_iff in IL. destruct IL as [rlo [EL IL]].
  apply in_map_iff in IH. destruct IH as [rhi [EH IH]].
  exists rlo, rhi. split; [exact IL|split; [exact IH|]].
  split; [now rewrite <- EL|split; [now rewrite <- EH|]].
  intros row I.
  assert (I' : In (cell_num row, f row)
                 (map (fun r => (cell_num r, f r)) (r0 :: rs)))
    by (apply in_map_iff; now exists row).
  pose proof (LL _ I') as A. pose proof (LH _ I') as B.
  rewrite <- EL in A. rewrite <- EH in B. simpl in A, B. split; assumption.
Qed.

(** X7.  When the [bat] response has no row that parses (or the [bat]
    request could not be written) the record carries no cell extreme and
    the configured cell count.  Otherwise [NrOfCellsPerBattery] is the
    number of rows parsed, the voltage extremes name a row of least and a
    row of greatest voltage and hold their voltages rounded to a
    millivolt, every value of [Voltages] lies between the two, and the
    temperature extremes do the same to a tenth of a degree. *)
Theorem unit_cell_extremes (g : globals) (pl : list string)
    (bl : option (list string)) :
  let r := unit_record g pl bl in
  match rows_of bl with
  | [] =>
      cell_summary r
      = (learned_CellCount g, (None, None, None, None),
         (None, None, None, None))
  | r0 :: rs =>
      NrOfCellsPerBattery (System r) = Z.of_nat (List.length (r0 :: rs)) /\
      (exists lo hi,
         In lo (r0 :: rs) /\ In hi (r0 :: rs) /\
         (forall row, In row (r0 :: rs) ->
                      (voltage lo <= voltage row <= voltage hi)%Q) /\
         MinVoltageCellId (System r) = Some (C (cell_num lo)) /\
         MinCellVoltage (System r) = Some (py_round 3 (voltage lo)) /\
         MaxVoltageCellId (System r) = Some (C (cell_num hi)) /\
         MaxCellVoltage (System r) = Some (py_round 3 (voltage hi)) /\
         (forall k v, In (k, v) (Voltages r) ->
                      (py_round 3 (voltage lo) <= v
                       <= py_round 3 (voltage hi))%Q)) /\
      (exists lo hi,
         In lo (r0 :: rs) /\ In hi (r0 :: rs) /\
         (forall row, In row (r0 :: rs) ->
                      (temperature lo <= temperature row
                       <= temperature hi)%Q) /\
         MinTemperatureCellId (System r) = Some (C (cell_num lo)) /\
         MinCellTemperature (System r) = Some (py_round 1 (temperature lo)) /\
         MaxTemperatureCellId (System r) = Some (C (cell_num hi)) /\
         MaxCellTemperature (System r)
         = Some (py_round 1 (temperature hi)))
  end.
Proof.
  cbv zeta.
  assert (NC : cell_summary (unit_record g pl None)
               = (learned_CellCount g, (None, None, None, None),
                  (None, None, None, None))).
  { unfold unit_record. rewrite pwr_policy_cells. apply decode_pwr_cells. }
  destruct bl as [lines|]; [|exact NC]. unfold rows_of.
  destruct (parsed_rows lines) as [|r0 rs] eqn:P.
  - rewrite <- NC. unfold unit_record, bat_policy, decode_bat.
    destruct (decode_bat_rows lines
                (mk_bat (pwr_policy g (decode_pwr g pl)) [] [] []))
      as [V _].
    destruct (decode_bat_frame lines
                (mk_bat (pwr_policy g (decode_pwr g pl)) [] [] []))
      as (_ & _ & _ & _ & S & _).
    cbv zeta in V, S. cbn [cell_voltages bat_data] in V, S.
    unfold parsed_voltages in V. rewrite P in V. simpl in V.
    unfold cell_policy. rewrite V. unfold cell_summary. now rewrite S.
  - destruct (bat_policy_system (pwr_policy g (decode_pwr g pl)) lines
                r0 rs P) as (N & (E1 & E2 & E3 & E4) & (T1 & T2 & T3 & T4) & _).
    cbv zeta in N, E1, E2, E3, E4, T1, T2, T3, T4.
    destruct (min_max_rows voltage r0 rs) as (lo & hi & IL & IH & EL & EH & B).
    destruct (min_max_rows temperature r0 rs)
      as (tlo & thi & ITL & ITH & ETL & ETH & TB).
    cbv zeta in EL, EH, ETL, ETH.
    rewrite EL in E1, E2. rewrite EH in E3, E4.
    rewrite ETL in T1, T2. rewrite ETH in T3, T4.
    cbn [fst snd] in E1, E2, E3, E4, T1, T2, T3, T4.
    change (bat_policy (pwr_policy g (decode_pwr g pl)) lines)
      with (unit_record g pl (Some lines)) in *.
    split; [exact N|split].
    + exists lo, hi.
      split; [exact IL|split; [exact IH|split; [exact B|]]].
      split; [exact E1|split; [exact E2|split; [exact E3|split; [exact E4|]]]].
      intros k v I.
      destruct (unit_record_parts g pl (Some lines)) as (_ & _ & _ & V & _).
      cbv zeta in V. rewrite V, P in I.
      destruct (store_voltages_In _ _ _ I) as [[]|[row [IR E]]].
      injection E as _ ->.
      destruct (B row IR) as [L H].
      split; apply py_round_mono; assumption.
    + exists tlo, thi.
      split; [exact ITL|split; [exact ITH|split; [exact TB|]]].
      split; [exact T1|split; [exact T2|split; [exact T3|exact T4]]].
Qed.

(** X8.  What the cell block does to the alarms.  [CellImbalance] is
    raised when two parsed rows differ by more than 0.1 V and is otherwise
    left as the [pwr] phase had it; [LowTemperature] is raised when a
    parsed row is below 0 degrees, [HighTemperature] when one is above 45
    degrees, and each is otherwise left alone. *)
Theorem cell_block_alarms (g : globals) (pl lines : list string) :
  let d := unit_record g pl None in
  let r := unit_record g pl (Some lines) in
  let rows := parsed_rows lines in
  ((exists a b, In a rows /\ In b rows /\ (0.1 < voltage a - voltage b)%Q) ->
   Alarms r CellImbalance = 1) /\
  ((forall a b, In a rows -> In b rows ->
                (voltage a - voltage b <= 0.1)%Q) ->
   Alarms r CellImbalance = Alarms d CellImbalance) /\
  ((exists a, In a rows /\ (temperature a < 0)%Q) ->
   Alarms r LowTemperature = 1) /\
  ((forall a, In a rows -> (0 <= temperature a)%Q) ->
   Alarms r LowTemperature = Alarms d LowTemperature) /\
  ((exists a, In a rows /\ (45 < temperature a)%Q) ->
   Alarms r HighTemperature = 1) /\
  ((forall a, In a rows -> (temperature a <= 45)%Q) ->
   Alarms r HighTemperature = Alarms d HighTemperature).
Proof.
  cbv zeta. unfold unit_record.
  set (d := pwr_policy g (decode_pwr g pl)).
  destruct (parsed_rows lines) as [|r0 rs] eqn:P.
  - assert (PV : parsed_voltages lines = [])
      by (unfold parsed_voltages; now rewrite P).
    destruct (bat_policy_no_cells d lines PV) as (_ & _ & _ & _ & _ & A).
    cbv zeta in A. rewrite A.
    split; [intros (a & _ & [] & _)|split; [reflexivity|]].
    split; [intros (a & [] & _)|split; [reflexivity|]].
    split; [intros (a & [] & _)|reflexivity].
  - destruct (bat_policy_system d lines r0 rs P)
      as (_ & _ & _ & A1 & A2 & A3).
    destruct (min_max_rows voltage r0 rs) as (lo & hi & IL & IH & EL & EH & B).
    destruct (min_max_rows temperature r0 rs)
      as (tlo & thi & ITL & ITH & ETL & ETH & TB).
    cbv zeta in A1, A2, A3, EL, EH, ETL, ETH.
    rewrite EL, EH in A1. rewrite ETL in A2. rewrite ETH in A3.
    cbn [snd] in A1, A2, A3. rewrite A1, A2, A3.
    split; [|split; [|split; [|split; [|split]]]].
    + intros (a & b & Ia & Ib & L).
      destruct (B a Ia) as [_ U]. destruct (B b Ib) as [U' _].
      rewrite Qgtb_true; [reflexivity|lra].
    + intros H. rewrite Qgtb_false; [reflexivity|]. now apply H.
    + intros (a & Ia & L). destruct (TB a Ia) as [U _].
      rewrite Qltb_true; [reflexivity|lra].
    + intros H. rewrite Qltb_false; [reflexivity|]. now apply H.
    + intros (a & Ia & L). destruct (TB a Ia) as [_ U].
      rewrite Qgtb_true; [reflexivity|lra].
    + intros H. rewrite Qgtb_false; [reflexivity|]. now apply H.
Qed.

End CellExtremes.
(** ** Field lines: [key_value] *)

Lemma all_chars_app (p : ascii -> bool) (a b : string) :
  all_chars p (a ++ b) = (all_chars p a && all_chars p b)%bool.
Proof.
  induction a as [|x a IH]; simpl; [reflexivity|].
  rewrite IH. now rewrite andb_assoc.
Qed.

Lemma split_ws_aux_tokens (s cur : string) :
  all_chars (fun a => negb (is_space a)) cur = true ->
  Forall (fun tok => tok <> EmptyString
                     /\ all_chars (fun a => negb (is_space a)) tok = true)
    (split_ws_aux cur s).
Proof.
  revert cur. induction s as [|a t IH]; intros cur H; simpl.
  - destruct cur; constructor; [split; [discriminate|exact H]|constructor].
  - destruct (is_space a) eqn:E.
    + destruct cur as [|c cur].
      * now apply IH.
      * constructor; [split; [discriminate|exact H]|now apply IH].
    + apply IH. rewrite all_chars_app, H. simpl. now rewrite E.
Qed.

Lemma split_on_single (sep : ascii) (s : string) :
  all_chars (fun a => negb (Ascii.eqb a sep)) s = true ->
  split_on sep s = [s].
Proof.
  induction s as [|a t IH]; simpl; [reflexivity|].
  intro H. apply andb_prop in H. destruct H as [N H].
  apply negb_true_iff in N. rewrite N, (IH H). reflexivity.
Qed.

Lemma split_on_head (sep : ascii) (s : string) :
  all_chars (fun a => negb (Ascii.eqb a sep)) (hd EmptyString (split_on sep s))
  = true.
Proof.
  induction s as [|a t IH]; simpl; [reflexivity|].
  destruct (Ascii.eqb a sep) eqn:E; [reflexivity|].
  destruct (split_on sep t) as [|p ps]; simpl in *; now rewrite E.
Qed.

Lemma lstrip_chars (p : ascii -> bool) (s : string) :
  all_chars p s = true -> all_chars p (lstrip s) = true.
Proof.
  induction s as [|a t IH]; simpl; [reflexivity|].
  intro H. destruct (is_space a); [|exact H].
  apply andb_prop in H. now apply IH.
Qed.

Lemma rstrip_if_chars (p q : ascii -> bool) (s : string) :
  all_chars p s = true -> all_chars p (rstrip_if q s) = true.
Proof.
  induction s as [|a t IH]; simpl; [reflexivity|].
  intro H. apply andb_prop in H. destruct H as [A H].
  specialize (IH H).
  destruct (rstrip_if q t) as [|b t'].
  - destruct (q a); simpl; [reflexivity|now rewrite A].
  - simpl in *. now rewrite A, IH.
Qed.

Lemma lstrip_blank (s : string) :
  all_chars is_space s = true -> lstrip s = EmptyString.
Proof.
  induction s as [|a t IH]; simpl; [reflexivity|].
  intro H. apply andb_prop in H. destruct H as [A H]. now rewrite A, IH.
Qed.

Lemma key_value_token (line key value : string) :
  key_value line = Some (key, value) ->
  value <> EmptyString /\
  all_chars (fun a => negb (is_space a)) value = true /\
  all_chars (fun a => negb (Ascii.eqb a ":"%char)) key = true.
Proof.
  unfold key_value.
  pose proof (split_on_head ":"%char line) as K.
  destruct (split_on ":"%char line) as [|p0 [|p1 ps]]; try discriminate.
  simpl in K.
  pose proof (split_ws_aux_tokens (strip p1) EmptyString eq_refl) as T.
  unfold split_ws.
  destruct (split_ws_aux EmptyString (strip p1)) as [|v vs];
    [discriminate|].
  intro E. injection E as <- <-.
  inversion T as [|? ? [N A] _]. subst.
  split; [exact N|split; [exact A|]].
  unfold strip. now apply rstrip_if_chars, lstrip_chars.
Qed.

(** X9.  A line is taken as a field when it has a colon and a token
    after it.  A line without a colon is skipped, and so is one with
    nothing but white space between its first colon and its second (or
    the end).  The value of a field is never empty and has no white space
    in it, and the key has no colon. *)
Theorem key_value_shape (line : string) :
  (all_chars (fun a => negb (Ascii.eqb a ":"%char)) line = true ->
   key_value line = None) /\
  (forall p0 p1 ps, split_on ":"%char line = p0 :: p1 :: ps ->
     all_chars is_space p1 = true -> key_value line = None) /\
  (forall key value, key_value line = Some (key, value) ->
     value <> EmptyString /\
     all_chars (fun a => negb (is_space a)) value = true /\
     all_chars (fun a => negb (Ascii.eqb a ":"%char)) key = true).
Proof.
  split; [|split].
  - intro H. unfold key_value. now rewrite (split_on_single _ _ H).
  - intros p0 p1 ps E B. unfold key_value. rewrite E. unfold strip.
    now rewrite (lstrip_blank _ B).
  - intros key value. apply key_value_token.
Qed.
(** ** One cycle *)

Section CycleAccounts.

Context {conv : PyConv}.

Lemma poll_units_result (g : globals) (env : cycle_env) (addresses : list Z)
    (k : nat) (st st' : process_state) (acc l : list telemetry)
    (log log' : list (topic * telemetry)) :
  poll_units g env k addresses st acc log = Some (st', l, log') ->
  exists new,
    l = acc ++ new /\ List.length new = List.length addresses /\
    loops_no st' = loops_no st /\
    errors_no st' = (errors_no st + List.length (filter is_offline new))%nat /\
    Forall (polled_record g) new /\
    log' = log ++ (if MQTT_ACTIVE g
                   then unit_messages env k addresses new else []).
Proof.
  revert k st acc log.
  induction addresses as [|a rest IH]; intros k st acc log; simpl.
  - intro H. injection H as <- <- <-. exists [].
    rewrite app_nil_r. simpl.
    split; [reflexivity|split; [reflexivity|split; [reflexivity|]]].
    split; [lia|split; [constructor|]].
    destruct (MQTT_ACTIVE g); now rewrite app_nil_r.
  - destruct (interrupted env k); [discriminate|].
    pose proof (parse_battery_data_accounting g (bus env k) a st) as P.
    cbv zeta in P.
    destruct (parse_battery_data g (bus env k) a st) as [r st1].
    cbn [fst snd] in P. destruct P as [L P].
    intro H. apply IH in H.
    destruct H as (new & E & N & L' & ER & F & LG).
    set (d := match r with Some d => d | None => offline_data g end) in *.
    exists (d :: new).
    assert (D : polled_record g d
                /\ (errors_no st1 + (if is_offline d then 0 else 1)
                    = S (errors_no st))%nat).
    { unfold d. destruct r as [x|].
      - destruct P as [P M]. split; [now left|].
        unfold is_offline. unfold module_counts in M.
        injection M as M _ _ _. rewrite M. simpl. lia.
      - split; [now right|]. simpl. lia. }
    destruct D as [D DE].
    split; [now rewrite E, <- app_assoc|].
    split; [simpl; now rewrite N|].
    split; [congruence|].
    split; [|split; [now constructor|]].
    + rewrite ER. simpl. destruct (is_offline d); simpl; lia.
    + rewrite LG. destruct (MQTT_ACTIVE g); [|reflexivity].
      unfold mqtt_publish. simpl.
      destruct (unit_publish_ok env k); simpl; [|reflexivity].
      now rewrite <- app_assoc.
Qed.

(** X10.  A cycle that completes started with fewer than ten consecutive
    failures, adds one to [loops_no], holds one record per configured
    address, each either parsed from a unit or the synthetic offline
    record, and adds to [errors_no] the number of offline records: the
    error count grows by up to the number of addresses per loop. *)
Theorem cycle_accounting (g : globals) (env : cycle_env)
    (st st' : process_state) (l : list telemetry) (c : option telemetry)
    (log : list (topic * telemetry)) :
  polling_cycle g env st = CycleDone st' l c log ->
  (consecutive_serial_failures st < MAX_CONSECUTIVE_FAILURES)%nat /\
  List.length l = List.length (BATTERY_ADDRESSES g) /\
  Forall (polled_record g) l /\
  loops_no st' = S (loops_no st) /\
  errors_no st' = (errors_no st + List.length (filter is_offline l))%nat.
Proof.
  unfold polling_cycle.
  destruct (MAX_CONSECUTIVE_FAILURES <=? _)%nat eqn:B; [discriminate|].
  apply Nat.leb_gt in B. simpl in B.
  destruct (poll_units g env 0 (BATTERY_ADDRESSES g) (count_loop st) [] [])
    as [[[st1 l1] log1]|] eqn:P; [|discriminate].
  apply poll_units_result in P.
  destruct P as (new & E & N & L & ER & F & _). simpl in E, L, ER. subst l1.
  intro H.
  assert (H' : st1 = st' /\ new = l).
  { destruct (MQTT_ACTIVE g); [|now injection H as <- <- _ _].
    destruct (create_consolidated_view g new) as [[x|e]|];
      try discriminate; now injection H as <- <- _ _. }
  destruct H' as [<- <-]. auto.
Qed.

(** X11.  What a completed cycle has sent.  With MQTT inactive nothing is
    sent and no consolidated record is built.  With MQTT active the
    per-unit messages go out in the order of the addresses, each carrying
    the record polled for its address, the consolidated record is what
    [create_consolidated_view] returns for the records of the cycle, and
    its message comes last; a publish that fails drops its own message
    and nothing else. *)
Theorem cycle_messages (g : globals) (env : cycle_env)
    (st st' : process_state) (l : list telemetry) (c : option telemetry)
    (log : list (topic * telemetry)) :
  polling_cycle g env st = CycleDone st' l c log ->
  (MQTT_ACTIVE g = false -> c = None /\ log = []) /\
  (MQTT_ACTIVE g = true ->
   c = match create_consolidated_view g l with
       | Some (Ok x) => Some x
       | _ => None
       end /\
   log = unit_messages env 0 (BATTERY_ADDRESSES g) l
         ++ consolidated_message env c).
Proof.
  unfold polling_cycle.
  destruct (MAX_CONSECUTIVE_FAILURES <=? _)%nat; [discriminate|].
  destruct (poll_units g env 0 (BATTERY_ADDRESSES g) (count_loop st) [] [])
    as [[[st1 l1] log1]|] eqn:P; [|discriminate].
  apply poll_units_result in P.
  destruct P as (new & E & _ & _ & _ & _ & LG). simpl in E, LG. subst l1.
  destruct (MQTT_ACTIVE g).
  - destruct (create_consolidated_view g new) as [[x|e]|] eqn:V;
      try discriminate; intro H; injection H as <- <- <- <-;
      (split; [discriminate|]); intros _; rewrite V, LG;
      (split; [reflexivity|]).
    + unfold mqtt_publish, consolidated_message.
      destruct (consolidated_publish_ok env); [reflexivity|].
      now rewrite app_nil_r.
    + simpl. now rewrite app_nil_r.
  - intro H. injection H as <- <- <- <-.
    split; [intros _; now rewrite LG|discriminate].
Qed.

Lemma poll_units_publish_free (g : globals) (env env' : cycle_env)
    (addresses : list Z) (k : nat) (st : process_state)
    (acc : list telemetry) (log log' : list (topic * telemetry)) :
  (forall i, bus env i = bus env' i) ->
  interrupt_at env = interrupt_at env' ->
  option_map fst (poll_units g env k addresses st acc log)
  = option_map fst (poll_units g env' k addresses st acc log').
Proof.
  intros B I. revert k st acc log log'.
  induction addresses as [|a rest IH]; intros k st acc log log'; simpl.
  - reflexivity.
  - unfold interrupted. rewrite <- I, <- B.
    destruct (match interrupt_at env with
              | Some i => Nat.eqb i k | None => false end); [reflexivity|].
    destruct (parse_battery_data g (bus env k) a st) as [r st1].
    apply IH.
Qed.

(** X12.  The broker has no say in what is measured: two cycles that
    differ only in which publishes go through end the same way, with the
    same counters, the same records and the same consolidated record. *)
Theorem publish_outcomes_change_nothing (g : globals) (env env' : cycle_env)
    (st : process_state) :
  (forall i, bus env i = bus env' i) ->
  interrupt_at env = interrupt_at env' ->
  without_log (polling_cycle g env st)
  = without_log (polling_cycle g env' st).
Proof.
  intros B I. unfold polling_cycle.
  destruct (MAX_CONSECUTIVE_FAILURES <=? _)%nat; [reflexivity|].
  pose proof (poll_units_publish_free g env env' (BATTERY_ADDRESSES g) 0
                (count_loop st) [] [] [] B I) as P.
  destruct (poll_units g env 0 (BATTERY_ADDRESSES g) (count_loop st) [] [])
    as [[[st1 l1] log1]|];
  destruct (poll_units g env' 0 (BATTERY_ADDRESSES g) (count_loop st) [] [])
    as [[[st2 l2] log2]|]; simpl in P; try discriminate; [|reflexivity].
  injection P as <- <-.
  destruct (MQTT_ACTIVE g); [|reflexivity].
  destruct (create_consolidated_view g l1) as [[x|e]|]; reflexivity.
Qed.

Lemma poll_units_interrupted (g : globals) (env : cycle_env)
    (addresses : list Z) (k : nat) (st : process_state)
    (acc : list telemetry) (log : list (topic * telemetry)) :
  poll_units g env k addresses st acc log = None
  <-> exists i, interrupt_at env = Some i
                /\ (k <= i < k + List.length addresses)%nat.
Proof.
  revert k st acc log.
  induction addresses as [|a rest IH]; intros k st acc log; simpl.
  - split; [discriminate|]. intros (i & _ & L). lia.
  - unfold interrupted.
    destruct (interrupt_at env) as [j|] eqn:J.
    + destruct (Nat.eqb j k) eqn:E.
      * apply Nat.eqb_eq in E. subst j. split; [|reflexivity].
        intros _. exists k. split; [reflexivity|lia].
      * apply Nat.eqb_neq in E.
        destruct (parse_battery_data g (bus env k) a st) as [r st1].
        rewrite IH; try rewrite J; split; intros (i & S & L); exists i; split; auto;
          injection S as <-; lia.
    + destruct (parse_battery_data g (bus env k) a st) as [r st1].
      rewrite IH; try rewrite J; split; intros (i & S & _); discriminate.
Qed.

(** X13.  A cycle ends in [sys.exit(0)] exactly when it started with
    fewer than ten consecutive failures and the operator interrupts while
    one of the configured addresses is being polled; with ten failures or
    more the exit status is 1 whatever the operator does. *)
Theorem cycle_interrupt (g : globals) (env : cycle_env)
    (st : process_state) :
  (polling_cycle g env st = ExitInterrupt
   <-> (consecutive_serial_failures st < MAX_CONSECUTIVE_FAILURES)%nat
       /\ exists i, interrupt_at env = Some i
                    /\ (i < List.length (BATTERY_ADDRESSES g))%nat) /\
  (polling_cycle g env st = ExitFailures
   <-> (MAX_CONSECUTIVE_FAILURES <= consecutive_serial_failures st)%nat).
Proof.
  unfold polling_cycle.
  destruct (MAX_CONSECUTIVE_FAILURES <=? _)%nat eqn:B.
  - apply Nat.leb_le in B. simpl in B. split; split; auto; try discriminate.
    intros [L _]. lia.
  - apply Nat.leb_gt in B. simpl in B.
    pose proof (poll_units_interrupted g env (BATTERY_ADDRESSES g) 0
                  (count_loop st) [] []) as P.
    destruct (poll_units g env 0 (BATTERY_ADDRESSES g) (count_loop st) [] [])
      as [[[st1 l1] log1]|].
    + split; split.
      * destruct (MQTT_ACTIVE g);
          [destruct (create_consolidated_view g l1) as [[x|e]|]|];
          discriminate.
      * intros [_ (i & J & L)].
        exfalso.
        assert (N : Some (st1, l1, log1) = None).
        { apply P. exists i. split; [exact J|lia]. }
        discriminate.
      * destruct (MQTT_ACTIVE g);
          [destruct (create_consolidated_view g l1) as [[x|e]|]|];
          discriminate.
      * intro L. lia.
    + split; split; auto; try discriminate; try (intro; lia).
      intros _. split; [exact B|].
      destruct (proj1 P eq_refl) as (i & J & L). exists i.
      split; [exact J|lia].
Qed.

End CycleAccounts.
(** ** The consolidated record, part by part *)

Lemma consolidated_view_stages (g : globals) (l : list telemetry)
    (c : telemetry) :
  create_consolidated_view g l = Some (Ok c) ->
  l <> [] /\
  exists cv cb,
    collect_cells l (empty_buckets Q g) (empty_buckets Z g) = Ok (cv, cb) /\
    c = derive_time_to_go (consolidated_stages g l cv cb).
Proof.
  unfold create_consolidated_view.
  destruct l as [|d0 ds] eqn:L; [discriminate|]. rewrite <- L.
  destruct (collect_cells l _ _) as [[cv cb]|e]; [|discriminate].
  intro H. injection H as <-.
  split; [rewrite L; discriminate|]. exists cv, cb. now split.
Qed.

Lemma count_where_cons (p : telemetry -> bool) (d : telemetry)
    (l : list telemetry) :
  count_where p (d :: l) = (if p d then 1 else 0) + count_where p l.
Proof.
  unfold count_where. simpl. destruct (p d); simpl List.length; lia.
Qed.

Lemma aggregate_unit_frame (c d : telemetry) :
  let c' := aggregate_unit c d in
  measured c' = measured c /\ Info c' = Info c /\
  cell_summary c' = cell_summary c /\
  Voltages c' = Voltages c /\ Balances c' = Balances c /\
  NrOfModulesBlockingCharge (System c')
  = NrOfModulesBlockingCharge (System c)
    + (if blocks_charge d then 1 else 0) /\
  NrOfModulesBlockingDischarge (System c')
  = NrOfModulesBlockingDischarge (System c)
    + (if blocks_discharge d then 1 else 0).
Proof.
  unfold aggregate_unit, blocks_charge, blocks_discharge.
  destruct (AllowToCharge (Io d) =? 0);
    destruct (AllowToDischarge (Io d) =? 0); simpl;
    rewrite ?Z.add_0_r; repeat split.
Qed.

Lemma aggregate_units_frame (l : list telemetry) (c : telemetry) :
  let c' := fold_left aggregate_unit l c in
  measured c' = measured c /\ Info c' = Info c /\
  cell_summary c' = cell_summary c /\
  Voltages c' = Voltages c /\ Balances c' = Balances c /\
  NrOfModulesBlockingCharge (System c')
  = NrOfModulesBlockingCharge (System c) + count_where blocks_charge l /\
  NrOfModulesBlockingDischarge (System c')
  = NrOfModulesBlockingDischarge (System c)
    + count_where blocks_discharge l.
Proof.
  revert c. induction l as [|d l IH]; intro c; simpl.
  - unfold count_where. simpl. rewrite !Z.add_0_r. repeat split.
  - destruct (IH (aggregate_unit c d)) as (A & B & C & D & E & F & G).
    destruct (aggregate_unit_frame c d) as (A' & B' & C' & D' & E' & F' & G').
    cbv zeta in *.
    rewrite A, B, C, D, E, F, G, A', B', C', D', E', F', G'.
    rewrite !count_where_cons. repeat split; lia.
Qed.

Lemma average_cells_frame (cb : list (Z * list Z)) (cv : list (Z * list Q))
    (c : telemetry) :
  let c' := fold_left (average_cell cb) cv c in
  measured c' = measured c /\ Info c' = Info c /\ System c' = System c.
Proof.
  revert c. induction cv as [|b cv IH]; intro c; simpl; [repeat split|].
  destruct (IH (average_cell cb c b)) as (A & B & C).
  cbv zeta in *. rewrite A, B, C. unfold average_cell.
  destruct (snd b); repeat split.
Qed.

Lemma fleet_extremes_frame (l : list telemetry) (c : telemetry) :
  let c' := fleet_extremes l c in
  measured c' = measured c /\ Info c' = Info c /\
  module_counts c' = module_counts c /\
  NrOfCellsPerBattery (System c') = NrOfCellsPerBattery (System c) /\
  temperature_extremes c' = temperature_extremes c /\
  Voltages c' = Voltages c /\ Balances c' = Balances c /\
  voltage_extremes c'
  = match flat_map Voltages l with
    | [] => voltage_extremes c
    | v0 :: vs =>
        (Some (Cell (fst (min_by_snd v0 vs))),
         Some (py_round 3 (snd (min_by_snd v0 vs))),
         Some (Cell (fst (max_by_snd v0 vs))),
         Some (py_round 3 (snd (max_by_snd v0 vs))))
    end.
Proof.
  unfold fleet_extremes.
  destruct (flat_map Voltages l) as [|v0 vs]; [repeat split|].
  destruct (Qgtb _ _); repeat split.
Qed.

Lemma fleet_metrics_frame (l : list telemetry) :
  keeps (fun c => (module_counts c, cell_summary c, Voltages c, Balances c,
                   TimeToGo c, Balancing c)) (fleet_metrics l).
Proof.
  intro c. unfold fleet_metrics. cbv zeta.
  repeat (rewrite (when_present_keeps
                     (fun c => (module_counts c, cell_summary c, Voltages c,
                                Balances c, TimeToGo c, Balancing c)));
          [|intro; reflexivity]).
  reflexivity.
Qed.

Lemma fleet_metrics_limits (l : list telemetry) (c : telemetry) :
  l <> [] ->
  Info (fleet_metrics l c)
  = mk_info
      (Qmin_list (map (fun d => MaxChargeVoltage (Info d)) l))
      (py_round 1 (Qmin_list (map (fun d => MaxChargeCurrent (Info d)) l)
                   * inject_Z (Z.of_nat (List.length l))))
      (py_round 1 (Qmin_list (map (fun d => MaxDischargeCurrent (Info d)) l)
                   * inject_Z (Z.of_nat (List.length l)))).
Proof.
  destruct l as [|d0 ds]; [congruence|]. intros _.
  unfold fleet_metrics. cbv zeta.
  set (l := d0 :: ds).
  change (map (fun d => MaxChargeVoltage (Info d)) l)
    with (MaxChargeVoltage (Info d0)
          :: map (fun d => MaxChargeVoltage (Info d)) ds).
  change (map (fun d => MaxChargeCurrent (Info d)) l)
    with (MaxChargeCurrent (Info d0)
          :: map (fun d => MaxChargeCurrent (Info d)) ds).
  change (map (fun d => MaxDischargeCurrent (Info d)) l)
    with (MaxDischargeCurrent (Info d0)
          :: map (fun d => MaxDischargeCurrent (Info d)) ds).
  unfold when_present at 1 2 3. reflexivity.
Qed.

Lemma derive_time_to_go_frame (c : telemetry) :
  let c' := derive_time_to_go c in
  Dc c' = Dc c /\ Soc c' = Soc c /\
  InstalledCapacity c' = InstalledCapacity c /\ Capacity c' = Capacity c /\
  ConsumedAmphours c' = ConsumedAmphours c /\
  ChargeCycles c' = ChargeCycles c /\ Balancing c' = Balancing c /\
  Info c' = Info c /\ System c' = System c /\
  Voltages c' = Voltages c /\ Balances c' = Balances c /\
  TimeToGo c'
  = match Capacity c, Current (Dc c) with
    | Some capacity, Some i =>
        if Qltb i 0 then Some (time_to_go capacity i) else TimeToGo c
    | _, _ => TimeToGo c
    end.
Proof.
  unfold derive_time_to_go.
  destruct (Capacity c) eqn:EC; [|repeat split; exact EC].
  destruct (Current (Dc c)) as [i|] eqn:EI; [|repeat split; exact EC].
  destruct (Qltb i 0); repeat split; exact EC.
Qed.

(** What the stages before the metrics leave of the initial record. *)
Lemma consolidated_stages_frame (g : globals) (l : list telemetry)
    (cv : list (Z * list Q)) (cb : list (Z * list Z)) :
  let c0 := initial_consolidated g l in
  let c3 := fleet_extremes l
              (fold_left (average_cell cb) cv
                 (fold_left aggregate_unit l c0)) in
  measured c3 = measured c0 /\
  NrOfCellsPerBattery (System c3) = learned_CellCount g /\
  temperature_extremes c3 = (None, None, None, None) /\
  NrOfModulesBlockingCharge (System c3) = count_where blocks_charge l /\
  NrOfModulesBlockingDischarge (System c3)
  = count_where blocks_discharge l /\
  voltage_extremes c3
  = match flat_map Voltages l with
    | [] => (None, None, None, None)
    | v0 :: vs =>
        (Some (Cell (fst (min_by_snd v0 vs))),
         Some (py_round 3 (snd (min_by_snd v0 vs))),
         Some (Cell (fst (max_by_snd v0 vs))),
         Some (py_round 3 (snd (max_by_snd v0 vs))))
    end.
Proof.
  cbv zeta.
  set (c0 := initial_consolidated g l).
  set (c1 := fold_left aggregate_unit l c0).
  set (c2 := fold_left (average_cell cb) cv c1).
  destruct (aggregate_units_frame l c0) as (A1 & _ & C1 & _ & _ & F1 & G1).
  destruct (average_cells_frame cb cv c1) as (A2 & _ & C2).
  destruct (fleet_extremes_frame l c2)
    as (A3 & _ & M3 & N3 & T3 & _ & _ & V3).
  cbv zeta in *. fold c1 in A1, C1, F1, G1. fold c2 in A2, C2.
  assert (S2 : cell_summary c2 = cell_summary c0).
  { unfold cell_summary. rewrite C2. exact C1. }
  assert (M2 : module_counts c2
               = (NrOfModulesOnline (System c1), NrOfModulesOffline (System c1),
                  count_where blocks_charge l,
                  count_where blocks_discharge l)).
  { unfold module_counts. rewrite C2, F1, G1. reflexivity. }
  split; [congruence|].
  split; [rewrite N3; exact (f_equal (fun x => fst (fst x)) S2)|].
  split; [rewrite T3; exact (f_equal snd S2)|].
  rewrite M2 in M3.
  split; [exact (f_equal (fun x => snd (fst x)) M3)|].
  split; [exact (f_equal snd M3)|].
  rewrite V3. destruct (flat_map Voltages l); [|reflexivity].
  exact (f_equal (fun x => snd (fst x)) S2).
Qed.

(** X14.  In the consolidated record the two blocking counters are the
    numbers of records whose flag is 0, whatever counters the records
    themselves carry; [NrOfCellsPerBattery] is the configured (or learned)
    cell count, not a number of rows; and the record never carries a
    temperature extreme or a [Balancing] field. *)
Theorem consolidated_counts (g : globals) (l : list telemetry)
    (c : telemetry) :
  create_consolidated_view g l = Some (Ok c) ->
  NrOfModulesBlockingCharge (System c) = count_where blocks_charge l /\
  NrOfModulesBlockingDischarge (System c) = count_where blocks_discharge l /\
  NrOfCellsPerBattery (System c) = learned_CellCount g /\
  temperature_extremes c = (None, None, None, None) /\
  Balancing c = None.
Proof.
  intro H. destruct (consolidated_view_stages g l c H) as (_ & cv & cb & _ & E).
  unfold consolidated_stages in E.
  destruct (consolidated_stages_frame g l cv cb) as (A & N & T & F & G & _).
  cbv zeta in *.
  set (c3 := fleet_extremes l _) in *.
  pose proof (fleet_metrics_frame l c3) as K. cbv beta in K.
  destruct (derive_time_to_go_frame (fleet_metrics l c3))
    as (_ & _ & _ & _ & _ & _ & B5 & _ & S5 & _).
  cbv zeta in *. rewrite <- E in B5, S5.
  assert (K1 : module_counts (fleet_metrics l c3) = module_counts c3)
    by exact (f_equal (fun x => fst (fst (fst (fst (fst x))))) K).
  assert (K2 : cell_summary (fleet_metrics l c3) = cell_summary c3)
    by exact (f_equal (fun x => snd (fst (fst (fst (fst x))))) K).
  assert (K6 : Balancing (fleet_metrics l c3) = Balancing c3)
    by exact (f_equal snd K).
  unfold temperature_extremes. rewrite S5, B5, K6.
  split; [rewrite <- F; exact (f_equal (fun x => snd (fst x)) K1)|].
  split; [rewrite <- G; exact (f_equal snd K1)|].
  split; [rewrite <- N; exact (f_equal (fun x => fst (fst x)) K2)|].
  split; [rewrite <- T; exact (f_equal snd K2)|].
  exact (f_equal snd A).
Qed.
Lemma Qmin_fold_least (t : list Q) (acc : Q) :
  let m := fold_left (fun m y => if Qltb y m then y else m) t acc in
  (m = acc \/ In m t) /\ (m <= acc)%Q /\ forall y, In y t -> (m <= y)%Q.
Proof.
  revert acc. induction t as [|x t IH]; intro acc; simpl.
  - split; [now left|split; [apply Qle_refl|contradiction]].
  - destruct (IH (if Qltb x acc then x else acc)) as (A & B & C).
    cbv zeta in *.
    set (m := fold_left _ t _) in *.
    destruct (Qltb x acc) eqn:L.
    + apply Qltb_lt in L.
      split; [destruct A as [A|A]; auto|].
      split; [lra|]. intros y [<-|I]; [exact B|now apply C].
    + apply Qltb_ge in L.
      split; [destruct A as [A|A]; auto|].
      split; [exact B|]. intros y [<-|I]; [lra|now apply C].
Qed.

(** [min(l)] is an element of the list and a lower bound of it. *)
Lemma Qmin_list_least (l : list Q) :
  l <> [] ->
  In (Qmin_list l) l /\ forall y, In y l -> (Qmin_list l <= y)%Q.
Proof.
  destruct l as [|x t]; [congruence|]. intros _. unfold Qmin_list.
  destruct (Qmin_fold_least t x) as (A & B & C). cbv zeta in *.
  split.
  - destruct A as [A|A]; [left; now rewrite A|now right].
  - intros y [<-|I]; [exact B|now apply C].
Qed.

Lemma py_round_zero (nd : nat) (q : Q) : (q == 0)%Q -> py_round nd q = 0%Q.
Proof.
  intro E. unfold py_round. cbv zeta.
  rewrite (round_half_even_comp _ (inject_Z 0)).
  - rewrite round_half_even_Z.
    apply Qred_complete with (q := 0%Q). unfold Qdiv. ring.
  - rewrite E. ring.
Qed.

(** X15.  The limits of the consolidated record: the charge voltage is
    the least charge voltage of the records, and each current limit is
    the least limit of the records times the number of records, rounded
    to a tenth.  So when one record is at zero and none is negative, as
    with an offline unit, the fleet's limit is zero however many units
    could deliver. *)
Theorem consolidated_limits (g : globals) (l : list telemetry)
    (c : telemetry) :
  create_consolidated_view g l = Some (Ok c) ->
  let n := inject_Z (Z.of_nat (List.length l)) in
  let volts := map (fun d => MaxChargeVoltage (Info d)) l in
  let charge := map (fun d => MaxChargeCurrent (Info d)) l in
  let discharge := map (fun d => MaxDischargeCurrent (Info d)) l in
  (MaxChargeVoltage (Info c) = Qmin_list volts /\
   In (Qmin_list volts) volts /\
   forall v, In v volts -> (Qmin_list volts <= v)%Q) /\
  (MaxChargeCurrent (Info c) = py_round 1 (Qmin_list charge * n) /\
   In (Qmin_list charge) charge /\
   forall v, In v charge -> (Qmin_list charge <= v)%Q) /\
  (MaxDischargeCurrent (Info c) = py_round 1 (Qmin_list discharge * n) /\
   In (Qmin_list discharge) discharge /\
   forall v, In v discharge -> (Qmin_list discharge <= v)%Q) /\
  (In (offline_data g) l ->
   ((forall d, In d l -> (0 <= MaxChargeCurrent (Info d))%Q) ->
    MaxChargeCurrent (Info c) = 0%Q) /\
   ((forall d, In d l -> (0 <= MaxDischargeCurrent (Info d))%Q) ->
    MaxDischargeCurrent (Info c) = 0%Q)).
Proof.
  intro H. destruct (consolidated_view_stages g l c H) as (N & cv & cb & _ & E).
  unfold consolidated_stages in E.
  destruct (derive_time_to_go_frame
              (fleet_metrics l
                 (fleet_extremes l
                    (fold_left (average_cell cb) cv
                       (fold_left aggregate_unit l
                          (initial_consolidated g l))))))
    as (_ & _ & _ & _ & _ & _ & _ & I & _).
  cbv zeta in I. rewrite <- E in I.
  rewrite (fleet_metrics_limits l _ N) in I.
  cbv zeta. rewrite I. cbn [MaxChargeVoltage MaxChargeCurrent
                             MaxDischargeCurrent].
  assert (NE : forall f : telemetry -> Q, map f l <> []).
  { intros f X. apply map_eq_nil in X. contradiction. }
  destruct (Qmin_list_least _ (NE (fun d => MaxChargeVoltage (Info d))))
    as [V1 V2].
  destruct (Qmin_list_least _ (NE (fun d => MaxChargeCurrent (Info d))))
    as [C1 C2].
  destruct (Qmin_list_least _ (NE (fun d => MaxDischargeCurrent (Info d))))
    as [D1 D2].
  split; [auto|split; [auto|split; [auto|]]].
  intros O. split; intros P; apply py_round_zero.
  - assert (Z0 : (Qmin_list (map (fun d => MaxChargeCurrent (Info d)) l)
                  == 0)%Q).
    { apply Qle_antisym.
      - apply (C2 (MaxChargeCurrent (Info (offline_data g)))).
        apply in_map_iff. now exists (offline_data g).
      - apply in_map_iff in C1. destruct C1 as (d & <- & I'). now apply P. }
    rewrite Z0. ring.
  - assert (Z0 : (Qmin_list (map (fun d => MaxDischargeCurrent (Info d)) l)
                  == 0)%Q).
    { apply Qle_antisym.
      - apply (D2 (MaxDischargeCurrent (Info (offline_data g)))).
        apply in_map_iff. now exists (offline_data g).
      - apply in_map_iff in D1. destruct D1 as (d & <- & I'). now apply P. }
    rewrite Z0. ring.
Qed.

(** X16.  The voltage extremes of the consolidated record are taken over
    the [Voltages] entries of all the records together: they name a cell
    number of least and one of greatest value, as ["Cell<n>"] and without
    saying which unit, and hold those values rounded to a millivolt.
    When no record has a [Voltages] entry the record has no voltage
    extreme. *)
Theorem fleet_voltage_extremes (g : globals) (l : list telemetry)
    (c : telemetry) :
  create_consolidated_view g l = Some (Ok c) ->
  match flat_map Voltages l with
  | [] => voltage_extremes c = (None, None, None, None)
  | v0 :: vs =>
      exists lo hi,
        In lo (v0 :: vs) /\ In hi (v0 :: vs) /\
        (forall kv, In kv (v0 :: vs) -> (snd lo <= snd kv <= snd hi)%Q) /\
        voltage_extremes c
        = (Some (Cell (fst lo)), Some (py_round 3 (snd lo)),
           Some (Cell (fst hi)), Some (py_round 3 (snd hi)))
  end.
Proof.
  intro H. destruct (consolidated_view_stages g l c H) as (_ & cv & cb & _ & E).
  unfold consolidated_stages in E.
  destruct (consolidated_stages_frame g l cv cb) as (_ & _ & _ & _ & _ & V).
  cbv zeta in V. set (c3 := fleet_extremes l _) in *.
  pose proof (fleet_metrics_frame l c3) as K. cbv beta in K.
  assert (K2 : cell_summary (fleet_metrics l c3) = cell_summary c3)
    by exact (f_equal (fun x => snd (fst (fst (fst (fst x))))) K).
  destruct (derive_time_to_go_frame (fleet_metrics l c3))
    as (_ & _ & _ & _ & _ & _ & _ & _ & S5 & _).
  cbv zeta in S5. rewrite <- E in S5.
  assert (VE : voltage_extremes c = voltage_extremes c3).
  { unfold voltage_extremes. rewrite S5.
    exact (f_equal (fun x => snd (fst x)) K2). }
  rewrite VE, V.
  destruct (flat_map Voltages l) as [|v0 vs]; [reflexivity|].
  destruct (min_by_snd_least vs v0) as [IL LL].
  destruct (max_by_snd_greatest vs v0) as [IH LH].
  exists (min_by_snd v0 vs), (max_by_snd v0 vs).
  split; [exact IL|split; [exact IH|split; [|reflexivity]]].
  intros kv I. split; [now apply LL|now apply LH].
Qed.
(** ** The metrics of the consolidated record *)

Ltac keep_metric P :=
  repeat (rewrite (when_present_keeps P); [|intro; reflexivity]).

Ltac metric P xs :=
  unfold fleet_metrics; cbv zeta; keep_metric P;
  unfold when_present at 1; destruct xs;
  [keep_metric P; reflexivity|reflexivity].

Lemma fleet_metrics_fields (l : list telemetry) (c : telemetry) :
  let c' := fleet_metrics l c in
  Voltage (Dc c')
  = match present (fun d => Voltage (Dc d)) l with
    | [] => Voltage (Dc c)
    | xs => Some (py_round 2 (Qmean xs))
    end /\
  Current (Dc c')
  = match present (fun d => Current (Dc d)) l with
    | [] => Current (Dc c)
    | xs => Some (py_round 2 (Qsum xs))
    end /\
  Power (Dc c')
  = match present (fun d => Power (Dc d)) l with
    | [] => Power (Dc c)
    | xs => Some (py_round 1 (Qsum xs))
    end /\
  Temperature (Dc c')
  = match present (fun d => Temperature (Dc d)) l with
    | [] => Temperature (Dc c)
    | xs => Some (py_round 1 (Qmean xs))
    end /\
  MOSTemperature (System c')
  = match present (fun d => Temperature (Dc d)) l with
    | [] => MOSTemperature (System c)
    | xs => Some (py_round 1 (Qmean xs))
    end /\
  Soc c'
  = match present Soc l with
    | [] => Soc c
    | xs => Some (round_half_even (Qmean (map inject_Z xs)))
    end /\
  InstalledCapacity c'
  = match present InstalledCapacity l with
    | [] => InstalledCapacity c
    | xs => Some (py_round 1 (Qsum xs))
    end /\
  Capacity c'
  = match present Capacity l with
    | [] => Capacity c
    | xs => Some (py_round 1 (Qsum xs))
    end /\
  ConsumedAmphours c'
  = match present ConsumedAmphours l with
    | [] => ConsumedAmphours c
    | xs => Some (py_round 1 (Qsum xs))
    end /\
  ChargeCycles c'
  = match present ChargeCycles l with
    | [] => ChargeCycles c
    | xs => Some (round_half_even (Qmean (map inject_Z xs)))
    end.
Proof.
  cbv zeta.
  split; [metric (fun c => Voltage (Dc c))
            (present (fun d => Voltage (Dc d)) l)|].
  split; [metric (fun c => Current (Dc c))
            (present (fun d => Current (Dc d)) l)|].
  split; [metric (fun c => Power (Dc c))
            (present (fun d => Power (Dc d)) l)|].
  split; [metric (fun c => Temperature (Dc c))
            (present (fun d => Temperature (Dc d)) l)|].
  split; [metric (fun c => MOSTemperature (System c))
            (present (fun d => Temperature (Dc d)) l)|].
  split; [metric Soc (present Soc l)|].
  split; [metric InstalledCapacity (present InstalledCapacity l)|].
  split; [metric Capacity (present Capacity l)|].
  split; [metric ConsumedAmphours (present ConsumedAmphours l)|].
  metric ChargeCycles (present ChargeCycles l).
Qed.

Lemma aggregate_units_mos (l : list telemetry) (c : telemetry) :
  MOSTemperature (System (fold_left aggregate_unit l c))
  = MOSTemperature (System c).
Proof.
  revert c. induction l as [|d l IH]; intro c; simpl; [reflexivity|].
  rewrite IH. unfold aggregate_unit.
  destruct (AllowToCharge (Io d) =? 0);
    destruct (AllowToDischarge (Io d) =? 0); reflexivity.
Qed.

Lemma fleet_extremes_mos (l : list telemetry) (c : telemetry) :
  MOSTemperature (System (fleet_extremes l c)) = MOSTemperature (System c).
Proof.
  unfold fleet_extremes.
  destruct (flat_map Voltages l); [reflexivity|].
  destruct (Qgtb _ _); reflexivity.
Qed.

(** X17.  A metric is present in the consolidated record exactly when
    at least one record has it, and is computed over the records that
    have it: the voltage and the temperature are means, the state of
    charge and the charge cycles are means rounded to an integer, the
    current, the power and the three capacities are sums.  The time to
    go is not aggregated: it is derived from the consolidated capacity
    and current, and is present only when that current is negative. *)
Theorem consolidated_measurements (g : globals) (l : list telemetry)
    (c : telemetry) :
  create_consolidated_view g l = Some (Ok c) ->
  Voltage (Dc c)
  = match present (fun d => Voltage (Dc d)) l with
    | [] => None
    | xs => Some (py_round 2 (Qmean xs))
    end /\
  Current (Dc c)
  = match present (fun d => Current (Dc d)) l with
    | [] => None
    | xs => Some (py_round 2 (Qsum xs))
    end /\
  Power (Dc c)
  = match present (fun d => Power (Dc d)) l with
    | [] => None
    | xs => Some (py_round 1 (Qsum xs))
    end /\
  Temperature (Dc c)
  = match present (fun d => Temperature (Dc d)) l with
    | [] => None
    | xs => Some (py_round 1 (Qmean xs))
    end /\
  MOSTemperature (System c) = Temperature (Dc c) /\
  Soc c
  = match present Soc l with
    | [] => None
    | xs => Some (round_half_even (Qmean (map inject_Z xs)))
    end /\
  InstalledCapacity c
  = match present InstalledCapacity l with
    | [] => None
    | xs => Some (py_round 1 (Qsum xs))
    end /\
  Capacity c
  = match present Capacity l with
    | [] => None
    | xs => Some (py_round 1 (Qsum xs))
    end /\
  ConsumedAmphours c
  = match present ConsumedAmphours l with
    | [] => None
    | xs => Some (py_round 1 (Qsum xs))
    end /\
  ChargeCycles c
  = match present ChargeCycles l with
    | [] => None
    | xs => Some (round_half_even (Qmean (map inject_Z xs)))
    end /\
  TimeToGo c
  = match Capacity c, Current (Dc c) with
    | Some capacity, Some i =>
        if Qltb i 0 then Some (time_to_go capacity i) else None
    | _, _ => None
    end.
Proof.
  intro H. destruct (consolidated_view_stages g l c H) as (_ & cv & cb & _ & E).
  unfold consolidated_stages in E.
  destruct (consolidated_stages_frame g l cv cb) as (M & _).
  cbv zeta in M.
  assert (MOS : MOSTemperature
                  (System (fleet_extremes l
                             (fold_left (average_cell cb) cv
                                (fold_left aggregate_unit l
                                   (initial_consolidated g l)))))
                = None).
  { rewrite fleet_extremes_mos.
    destruct (average_cells_frame cb cv
                (fold_left aggregate_unit l (initial_consolidated g l)))
      as (_ & _ & S).
    cbv zeta in S. rewrite S. now rewrite aggregate_units_mos. }
  set (c3 := fleet_extremes l _) in *.
  unfold measured in M. cbn [initial_consolidated Dc Soc InstalledCapacity
    Capacity ConsumedAmphours TimeToGo ChargeCycles Balancing] in M.
  assert (M1 : Dc c3 = mk_dc None None None None)
    by exact (f_equal (fun x => fst (fst (fst (fst (fst (fst (fst x))))))) M).
  assert (M2 : Soc c3 = None)
    by exact (f_equal (fun x => snd (fst (fst (fst (fst (fst (fst x))))))) M).
  assert (M3 : InstalledCapacity c3 = None)
    by exact (f_equal (fun x => snd (fst (fst (fst (fst (fst x)))))) M).
  assert (M4 : Capacity c3 = None)
    by exact (f_equal (fun x => snd (fst (fst (fst (fst x))))) M).
  assert (M5 : ConsumedAmphours c3 = None)
    by exact (f_equal (fun x => snd (fst (fst (fst x)))) M).
  assert (M6 : TimeToGo c3 = None)
    by exact (f_equal (fun x => snd (fst (fst x))) M).
  assert (M7 : ChargeCycles c3 = None)
    by exact (f_equal (fun x => snd (fst x)) M).
  destruct (fleet_metrics_fields l c3)
    as (F1 & F2 & F3 & F4 & F4' & F5 & F6 & F7 & F8 & F9).
  cbv zeta in F1, F2, F3, F4, F4', F5, F6, F7, F8, F9.
  rewrite M1 in F1, F2, F3, F4. rewrite MOS in F4'.
  rewrite M2 in F5. rewrite M3 in F6. rewrite M4 in F7.
  rewrite M5 in F8. rewrite M7 in F9.
  cbn [Voltage Current Power Temperature] in F1, F2, F3, F4.
  pose proof (fleet_metrics_frame l c3) as K. cbv beta in K.
  assert (K5 : TimeToGo (fleet_metrics l c3) = None).
  { rewrite <- M6. exact (f_equal (fun x => snd (fst x)) K). }
  destruct (derive_time_to_go_frame (fleet_metrics l c3))
    as (D1 & D2 & D3 & D4 & D5 & D6 & _ & _ & D9 & _ & _ & D12).
  cbv zeta in D1, D2, D3, D4, D5, D6, D9, D12.
  rewrite <- E in D1, D2, D3, D4, D5, D6, D9, D12.
  rewrite K5 in D12.
  rewrite D1, D2, D3, D4, D5, D6, D9.
  split; [exact F1|split; [exact F2|split; [exact F3|split; [exact F4|]]]].
  split; [now rewrite F4, F4'|].
  split; [exact F5|split; [exact F6|split; [exact F7|split; [exact F8|]]]].
  split; [exact F9|]. rewrite D12.
  destruct (Capacity (fleet_metrics l c3)) as [cap|]; [|reflexivity].
  destruct (Current (Dc (fleet_metrics l c3))) as [i|]; reflexivity.
Qed.
(** ** The cell dicts of the consolidated record *)

Lemma bucket_append_get {V : Type} (k : Z) (v : V)
    (b b' : list (Z * list V)) :
  bucket_append k v b = Some b' ->
  forall j, dict_get j b'
            = if j =? k then option_map (fun vs => vs ++ [v]) (dict_get j b)
              else dict_get j b.
Proof.
  revert b'. induction b as [|[k' vs] t IH]; intros b'; simpl.
  - discriminate.
  - destruct (k =? k') eqn:E.
    + apply Z.eqb_eq in E. subst k'. intros H j. injection H as <-. simpl.
      now destruct (j =? k).
    + destruct (bucket_append k v t) as [t'|]; [|discriminate].
      intros H j. injection H as <-. simpl. rewrite (IH t' eq_refl).
      destruct (j =? k) eqn:J; [|reflexivity].
      apply Z.eqb_eq in J. subst j. now rewrite E.
Qed.

Lemma fill_buckets_get {V : Type} (items : list (Z * V))
    (b b' : list (Z * list V)) :
  fill_buckets items b = Ok b' ->
  forall j, dict_get j b'
            = option_map (fun vs => vs ++ cell_values j items) (dict_get j b).
Proof.
  revert b. induction items as [|[k v] t IH]; intros b; simpl.
  - intros H j. injection H as <-. unfold cell_values. simpl.
    destruct (dict_get j b); simpl; [now rewrite app_nil_r|reflexivity].
  - destruct (bucket_append k v b) as [b1|] eqn:A; [|discriminate].
    intros H j. rewrite (IH b1 H), (bucket_append_get k v b b1 A).
    unfold cell_values. simpl. rewrite (Z.eqb_sym k j).
    destruct (j =? k); [|reflexivity].
    destruct (dict_get j b); simpl; [|reflexivity].
    now rewrite <- app_assoc.
Qed.

Lemma collect_cells_get (l : list telemetry)
    (cv cv' : list (Z * list Q)) (cb cb' : list (Z * list Z)) :
  collect_cells l cv cb = Ok (cv', cb') ->
  map fst cv' = map fst cv /\ map fst cb' = map fst cb /\
  forall j,
    dict_get j cv'
    = option_map (fun vs => vs ++ fleet_values Voltages j l) (dict_get j cv)
    /\ dict_get j cb'
       = option_map (fun vs => vs ++ fleet_values Balances j l)
           (dict_get j cb).
Proof.
  revert cv cb. induction l as [|d l IH]; intros cv cb; simpl.
  - intro H. injection H as <- <-. split; [reflexivity|split; [reflexivity|]].
    intro j. unfold fleet_values. simpl.
    destruct (dict_get j cv), (dict_get j cb); simpl;
      rewrite ?app_nil_r; split; reflexivity.
  - destruct (fill_buckets (Voltages d) cv) as [cv1|e] eqn:F1;
      [|discriminate].
    destruct (fill_buckets (Balances d) cb) as [cb1|e] eqn:F2;
      [|discriminate].
    intro H. destruct (IH cv1 cb1 H) as (K1 & K2 & G).
    rewrite K1, K2, (fill_buckets_keys _ _ _ F1), (fill_buckets_keys _ _ _ F2).
    split; [reflexivity|split; [reflexivity|]].
    intro j. destruct (G j) as [G1 G2]. rewrite G1, G2.
    rewrite (fill_buckets_get _ _ _ F1), (fill_buckets_get _ _ _ F2).
    unfold fleet_values. simpl.
    destruct (dict_get j cv), (dict_get j cb); simpl;
      rewrite <- ?app_assoc; split; reflexivity.
Qed.

Lemma empty_buckets_get (V : Type) (g : globals) (j : Z) :
  In j (range1 (learned_CellCount g)) ->
  dict_get j (empty_buckets V g) = Some [].
Proof.
  unfold empty_buckets. induction (range1 (learned_CellCount g)) as [|k ks IH];
    simpl; [contradiction|].
  intros [->|I]; [now rewrite Z.eqb_refl|].
  destruct (j =? k); [reflexivity|now apply IH].
Qed.

Lemma range1_NoDup (n : Z) : NoDup (range1 n).
Proof.
  unfold range1. generalize (seq_NoDup (Z.to_nat n) 1).
  induction 1 as [|x l NI N IH]; simpl; constructor; [|exact IH].
  intro I. apply in_map_iff in I. destruct I as (y & E & I).
  apply Nat2Z.inj in E. subst y. contradiction.
Qed.

(** A dict with distinct keys is the list of its lookups. *)
Lemma dict_by_keys {V : Type} (d : list (Z * V)) (default : V) :
  NoDup (map fst d) ->
  d = map (fun k => (k, get_or (dict_get k d) default)) (map fst d).
Proof.
  induction d as [|[k v] t IH]; simpl; [reflexivity|].
  intro N. inversion N as [|? ? NI N']. subst.
  rewrite Z.eqb_refl. simpl. f_equal.
  rewrite (IH N') at 1. apply map_ext_in.
  intros j I. destruct (j =? k) eqn:E; [|reflexivity].
  apply Z.eqb_eq in E. subst j. contradiction.
Qed.

Lemma flat_map_map {A B C : Type} (f : B -> list C) (g : A -> B)
    (l : list A) :
  flat_map f (map g l) = flat_map (fun x => f (g x)) l.
Proof. induction l as [|x l IH]; simpl; [reflexivity|now rewrite IH]. Qed.

Lemma flat_map_ext_on {A B : Type} (f g : A -> list B) (l : list A) :
  (forall x, In x l -> f x = g x) -> flat_map f l = flat_map g l.
Proof.
  induction l as [|x l IH]; simpl; [reflexivity|].
  intro H. rewrite (H x (or_introl eq_refl)), IH; [reflexivity|].
  intros y I. apply H. now right.
Qed.

Lemma average_cells_dicts (cb : list (Z * list Z)) (cv : list (Z * list Q))
    (c : telemetry) :
  NoDup (map fst cv) ->
  (forall k, In k (map fst cv) ->
             ~ In k (map fst (Voltages c)) /\ ~ In k (map fst (Balances c))) ->
  let c' := fold_left (average_cell cb) cv c in
  Voltages c'
  = Voltages c
    ++ flat_map (fun b => match snd b with
                          | [] => []
                          | vs => [(fst b, py_round 3 (Qmean vs))]
                          end) cv /\
  Balances c'
  = Balances c
    ++ flat_map (fun b => match snd b with
                          | [] => []
                          | _ => [(fst b,
                                   if any_nonzero
                                        (get_or (dict_get (fst b) cb) [])
                                   then 1 else 0)]
                          end) cv.
Proof.
  revert c. induction cv as [|[k vs] cv IH]; intros c N F; simpl.
  - now rewrite !app_nil_r.
  - inversion N as [|? ? NI N']. subst.
    destruct (F k (or_introl eq_refl)) as [FV FB].
    assert (FR : forall V (d : list (Z * V)),
               ~ In k (map fst d) -> Forall (fun kv => fst kv <> k) d).
    { intros V d X. apply Forall_forall. intros kv I E. apply X.
      apply in_map_iff. now exists kv. }
    destruct (IH (average_cell cb c (k, vs)) N') as [A B].
    { intros j I. destruct (F j (or_intror I)) as [JV JB].
      unfold average_cell. simpl. destruct vs as [|v0 vs]; [now split|].
      simpl. rewrite !dict_set_keys.
      destruct (Zmem k (map fst (Voltages c)));
        destruct (Zmem k (map fst (Balances c))); split; auto;
        intro X; apply in_app_or in X; destruct X as [X|[X|[]]]; auto;
        subst j; contradiction. }
    cbv zeta in A, B. rewrite A, B. unfold average_cell. simpl.
    destruct vs as [|v0 vs]; [now split|]. simpl.
    rewrite (dict_set_fresh k _ (Voltages c) (FR _ _ FV)).
    rewrite (dict_set_fresh k _ (Balances c) (FR _ _ FB)).
    now rewrite <- !app_assoc.
Qed.

Lemma Qsum_bounds (l : list Q) (a b acc : Q) :
  (forall x, In x l -> (a <= x <= b)%Q) ->
  (acc + inject_Z (Z.of_nat (List.length l)) * a <= fold_left Qplus l acc
   <= acc + inject_Z (Z.of_nat (List.length l)) * b)%Q.
Proof.
  revert acc. induction l as [|x l IH]; intros acc H.
  - cbn [List.length fold_left Z.of_nat]. change (inject_Z 0) with 0%Q.
    split; lra.
  - simpl fold_left. simpl List.length.
    rewrite Nat2Z.inj_succ, <- Z.add_1_r, inject_Z_plus.
    destruct (IH (acc + x)%Q) as [L U].
    { intros y I. apply H. now right. }
    destruct (H x (or_introl eq_refl)) as [Lx Ux].
    change (inject_Z 1) with 1%Q. split; lra.
Qed.

(** The mean of a non-empty list lies between any bounds of its
    elements. *)
Lemma Qmean_bounds (l : list Q) (a b : Q) :
  l <> [] -> (forall x, In x l -> (a <= x <= b)%Q) ->
  (a <= Qmean l <= b)%Q.
Proof.
  intros N H. unfold Qmean, Qsum.
  destruct (Qsum_bounds l a b 0 H) as [L U].
  assert (P : (0 < inject_Z (Z.of_nat (List.length l)))%Q).
  { change 0%Q with (inject_Z 0). rewrite <- Zlt_Qlt.
    destruct l; [congruence|simpl; lia]. }
  split.
  - apply Qle_shift_div_l; [exact P|]. lra.
  - apply Qle_shift_div_r; [exact P|]. lra.
Qed.

(** X18.  The cell dicts of the consolidated record.  Going through the
    cells 1 .. CellCount in order, a cell has an entry when at least one
    record has a voltage for it; its voltage is the mean of the voltages
    the records hold for the cell, rounded to a millivolt, and so lies
    between any bounds of those voltages, each rounded; its balance flag
    is 1 when some record has a non-zero flag for the cell and 0
    otherwise, also when no record has a flag for it. *)
Theorem consolidated_cells (g : globals) (l : list telemetry)
    (c : telemetry) :
  create_consolidated_view g l = Some (Ok c) ->
  Voltages c
  = flat_map (consolidated_voltage l) (range1 (learned_CellCount g)) /\
  Balances c
  = flat_map (consolidated_balance l) (range1 (learned_CellCount g)) /\
  (forall k v, In (k, v) (Voltages c) ->
     1 <= k <= learned_CellCount g /\
     fleet_values Voltages k l <> [] /\
     v = py_round 3 (Qmean (fleet_values Voltages k l)) /\
     forall a b,
       (forall x, In x (fleet_values Voltages k l) -> (a <= x <= b)%Q) ->
       (py_round 3 a <= v <= py_round 3 b)%Q).
Proof.
  intro H. destruct (consolidated_view_stages g l c H) as (_ & cv & cb & K & E).
  unfold consolidated_stages in E.
  destruct (collect_cells_get l _ _ _ _ K) as (KV & KB & G).
  rewrite empty_buckets_keys in KV, KB.
  assert (CV : cv = map (fun k => (k, fleet_values Voltages k l))
                      (range1 (learned_CellCount g))).
  { rewrite (dict_by_keys cv []) by (rewrite KV; apply range1_NoDup).
    rewrite KV. apply map_ext_in. intros k I.
    destruct (G k) as [G1 _]. rewrite G1.
    now rewrite (empty_buckets_get Q g k I). }
  assert (CB : forall k, In k (range1 (learned_CellCount g)) ->
                         get_or (dict_get k cb) []
                         = fleet_values Balances k l).
  { intros k I. destruct (G k) as [_ G2]. rewrite G2.
    now rewrite (empty_buckets_get Z g k I). }
  set (c1 := fold_left aggregate_unit l (initial_consolidated g l)) in *.
  destruct (aggregate_units_frame l (initial_consolidated g l))
    as (_ & _ & _ & V1 & B1 & _).
  cbv zeta in V1, B1. fold c1 in V1, B1. simpl in V1, B1.
  destruct (average_cells_dicts cb cv c1) as [V2 B2].
  { rewrite KV. apply range1_NoDup. }
  { intros k _. rewrite V1, B1. simpl. tauto. }
  cbv zeta in V2, B2. rewrite V1 in V2. rewrite B1 in B2. simpl in V2, B2.
  set (c2 := fold_left (average_cell cb) cv c1) in *.
  destruct (fleet_extremes_frame l c2) as (_ & _ & _ & _ & _ & V3 & B3 & _).
  cbv zeta in V3, B3. set (c3 := fleet_extremes l c2) in *.
  pose proof (fleet_metrics_frame l c3) as M. cbv beta in M.
  assert (V4 : Voltages (fleet_metrics l c3) = Voltages c3)
    by exact (f_equal (fun x => snd (fst (fst (fst x)))) M).
  assert (B4 : Balances (fleet_metrics l c3) = Balances c3)
    by exact (f_equal (fun x => snd (fst (fst x))) M).
  destruct (derive_time_to_go_frame (fleet_metrics l c3))
    as (_ & _ & _ & _ & _ & _ & _ & _ & _ & V5 & B5 & _).
  cbv zeta in V5, B5. rewrite <- E in V5, B5.
  assert (VC : Voltages c
               = flat_map (consolidated_voltage l)
                   (range1 (learned_CellCount g))).
  { rewrite V5, V4, V3, V2, CV, flat_map_map. reflexivity. }
  split; [exact VC|split].
  - rewrite B5, B4, B3, B2, CV, flat_map_map.
    apply flat_map_ext_on. intros k I. unfold consolidated_balance.
    cbn [fst snd]. now rewrite (CB k I).
  - intros k v I. rewrite VC in I. apply in_flat_map in I.
    destruct I as (j & J & I). unfold consolidated_voltage in I.
    destruct (fleet_values Voltages j l) as [|x xs] eqn:FV; [contradiction|].
    destruct I as [I|[]]. injection I as <- <-.
    split; [now apply range1_In|]. rewrite FV.
    split; [discriminate|split; [reflexivity|]].
    intros a b Hb.
    destruct (Qmean_bounds (x :: xs) a b) as [L U];
      [discriminate|exact Hb|].
    split; apply py_round_mono; assumption.
Qed.
